(** * xHCI host-controller driver of GRUB (grub-core/bus/usb/xhci.c)

    A shallow embedding of the driver as it is compiled: the regions under
    [#if 0] and the statements behind [//] are not part of the program and
    are not part of the model.

    Embedded: the register accessors (mmio_read8/16/32, mmio_write8/16/32,
    grub_xhci_cap_read32, xhci_read_portrs), the life cycle
    (grub_xhci_halt, grub_xhci_reset, grub_xhci_restore_hw,
    grub_xhci_fini_hw), the port and transfer entry points
    (grub_xhci_detect_dev, grub_xhci_portstatus, grub_xhci_hubports,
    grub_xhci_setup_transfer, grub_xhci_check_transfer,
    grub_xhci_cancel_transfer), attach (grub_xhci_pci_iter,
    grub_xhci_init, the two register dumps), grub_xhci_iterate and the
    base-address helpers pci_bar and pci_bar_start.  Left out:
    pci_config_read8, pci_config_read16 and pci_config_read32, which
    nothing calls and which only wrap accessors of <grub/pci.h>, and
    module load and unload, which only call into the rest of GRUB.

    Conventions.
    - A C integer of w bits is a [Z]; wrap-around is written out where the
      code can reach it.  A pointer is a [Z] byte address, [0] is NULL.
      The sum of a pointer and an offset is the exact sum: the model
      follows a build for the addresses that lie below 2^w, w the width of
      its pointers, and says nothing of a sum that leaves that range.
    - The device window and the PCI configuration space are byte-addressed
      stores; every volatile access appends one event to the [trace].  A
      register changes only when the driver stores to it.
    - [struct grub_xhci] objects live in a heap keyed by their address; an
      operation that dereferences an address that holds no object has no
      defined result ([None]), and neither has a walk of a cyclic
      [xhci_list].
    - [grub_dprintf] and [grub_boot_time] only print; their arguments are
      evaluated (register reads stay in the model), their output is not
      modelled. *)

From Stdlib Require Import ZArith List Bool Lia.
From stdpp Require Import base option gmap.
Import ListNotations.

Local Open Scope Z_scope.

(** ** Byte order *)

(** The [n] low bytes of [x], least significant first. *)
Fixpoint le_bytes (n : nat) (x : Z) : list Z :=
  match n with
  | O => []
  | S n' => x mod 256 :: le_bytes n' (x / 256)
  end.

(** The number a byte string denotes when its first byte is the least
    significant one. *)
Fixpoint le_value (bs : list Z) : Z :=
  match bs with
  | [] => 0
  | b :: bs' => b + 256 * le_value bs'
  end.

Definition is_byte (b : Z) : Prop := 0 <= b < 256.

(** ** What the build supplies

    The GRUB headers are not part of this repository's sources.  The
    constants and helpers the driver takes from them are the fields of a
    [platform]; every theorem holds for every platform. *)

Record grub_pci_device_t := {
  bus : Z;
  device : Z;
  function : Z
}.

Inductive grub_usb_err_t :=
| GRUB_USB_ERR_NONE
| GRUB_USB_ERR_STALL
| GRUB_USB_ERR_DATA
| GRUB_USB_ERR_NAK
| GRUB_USB_ERR_BABBLE
| GRUB_USB_ERR_TIMEOUT
| GRUB_USB_ERR_INTERNAL
| GRUB_USB_ERR_WAIT
| GRUB_USB_ERR_BADDEVICE
| GRUB_USB_ERR_UNRECOVERABLE.

Inductive grub_err_t :=
| GRUB_ERR_NONE
| GRUB_ERR_TIMEOUT.

Inductive grub_usb_speed_t :=
| GRUB_USB_SPEED_NONE
| GRUB_USB_SPEED_LOW
| GRUB_USB_SPEED_FULL
| GRUB_USB_SPEED_HIGH
| GRUB_USB_SPEED_SUPER.

Record platform := {
  (* byte order of the CPU: decides grub_le_to_cpuNN and grub_cpu_to_leNN *)
  host_big_endian : bool;
  (* <grub/pci.h> *)
  GRUB_PCI_REG_COMMAND : Z;
  GRUB_PCI_REG_CLASS : Z;
  GRUB_PCI_REG_ADDRESS_REG0 : Z;
  GRUB_PCI_REG_ADDRESS_REG1 : Z;
  GRUB_PCI_ADDR_MEM_TYPE_MASK : Z;
  GRUB_PCI_ADDR_MEM_TYPE_32 : Z;
  GRUB_PCI_ADDR_MEM_MASK : Z;
  GRUB_PCI_COMMAND_MEM_ENABLED : Z;
  GRUB_PCI_COMMAND_BUS_MASTER : Z;
  grub_pci_make_address : grub_pci_device_t -> Z -> Z;
  grub_pci_device_map_range : grub_pci_device_t -> Z -> Z -> Z;
  (* <grub/usb.h>: the integer an enumerator of grub_usb_err_t converts to *)
  usb_err_int : grub_usb_err_t -> Z
}.

(** The PC build of GRUB. *)
Definition i386_pc : platform := {|
  host_big_endian := false;
  GRUB_PCI_REG_COMMAND := 0x04;
  GRUB_PCI_REG_CLASS := 0x08;
  GRUB_PCI_REG_ADDRESS_REG0 := 0x10;
  GRUB_PCI_REG_ADDRESS_REG1 := 0x14;
  GRUB_PCI_ADDR_MEM_TYPE_MASK := 0x06;
  GRUB_PCI_ADDR_MEM_TYPE_32 := 0x00;
  GRUB_PCI_ADDR_MEM_MASK := 0xfffffff0;
  GRUB_PCI_COMMAND_MEM_ENABLED := 0x0002;
  GRUB_PCI_COMMAND_BUS_MASTER := 0x0004;
  grub_pci_make_address := fun dev reg =>
    Z.lor (Z.shiftl 1 31)
      (Z.lor (Z.shiftl (bus dev) 16)
         (Z.lor (Z.shiftl (device dev) 11)
            (Z.lor (Z.shiftl (function dev) 8) reg)));
  grub_pci_device_map_range := fun _ base _ => base;
  usb_err_int := fun e =>
    match e with
    | GRUB_USB_ERR_NONE => 0
    | GRUB_USB_ERR_STALL => 1
    | GRUB_USB_ERR_DATA => 2
    | GRUB_USB_ERR_NAK => 3
    | GRUB_USB_ERR_BABBLE => 4
    | GRUB_USB_ERR_TIMEOUT => 5
    | GRUB_USB_ERR_INTERNAL => 6
    | GRUB_USB_ERR_WAIT => 7
    | GRUB_USB_ERR_BADDEVICE => 8
    | GRUB_USB_ERR_UNRECOVERABLE => 9
    end
|}.

(** A big-endian build with the same PCI constants. *)
Definition big_endian_host : platform := {|
  host_big_endian := true;
  GRUB_PCI_REG_COMMAND := GRUB_PCI_REG_COMMAND i386_pc;
  GRUB_PCI_REG_CLASS := GRUB_PCI_REG_CLASS i386_pc;
  GRUB_PCI_REG_ADDRESS_REG0 := GRUB_PCI_REG_ADDRESS_REG0 i386_pc;
  GRUB_PCI_REG_ADDRESS_REG1 := GRUB_PCI_REG_ADDRESS_REG1 i386_pc;
  GRUB_PCI_ADDR_MEM_TYPE_MASK := GRUB_PCI_ADDR_MEM_TYPE_MASK i386_pc;
  GRUB_PCI_ADDR_MEM_TYPE_32 := GRUB_PCI_ADDR_MEM_TYPE_32 i386_pc;
  GRUB_PCI_ADDR_MEM_MASK := GRUB_PCI_ADDR_MEM_MASK i386_pc;
  GRUB_PCI_COMMAND_MEM_ENABLED := GRUB_PCI_COMMAND_MEM_ENABLED i386_pc;
  GRUB_PCI_COMMAND_BUS_MASTER := GRUB_PCI_COMMAND_BUS_MASTER i386_pc;
  grub_pci_make_address := grub_pci_make_address i386_pc;
  grub_pci_device_map_range := grub_pci_device_map_range i386_pc;
  usb_err_int := usb_err_int i386_pc
|}.

(** ** Constants of xhci.c *)

(* Host Controller Capability Registers *)
Definition GRUB_XHCI_CAP_CAPLENGTH : Z := 0x00.
Definition GRUB_XHCI_CAP_HCIVERSION : Z := 0x02.
Definition GRUB_XHCI_CAP_HCSPARAMS1 : Z := 0x04.
Definition GRUB_XHCI_CAP_HCSPARAMS2 : Z := 0x08.
Definition GRUB_XHCI_CAP_HCSPARAMS3 : Z := 0x0c.
Definition GRUB_XHCI_CAP_HCCPARAMS1 : Z := 0x10.
Definition GRUB_XHCI_CAP_DBOFF : Z := 0x14.
Definition GRUB_XHCI_CAP_RTSOFF : Z := 0x18.
Definition GRUB_XHCI_CAP_HCCPARAMS2 : Z := 0x1c.

(* Host Controller Operational Registers *)
Definition GRUB_XHCI_OPER_USBCMD : Z := 0x00.
Definition GRUB_XHCI_OPER_USBSTS : Z := 0x04.

(* USBCMD and USBSTS bits *)
Definition GRUB_XHCI_OPER_USBCMD_RUNSTOP : Z := Z.shiftl 1 0.
Definition GRUB_XHCI_OPER_USBCMD_HCRST : Z := Z.shiftl 1 1.
Definition GRUB_XHCI_USBSTS_HCH : Z := Z.shiftl 1 0.
Definition GRUB_XHCI_USBSTS_CNR : Z := Z.shiftl 1 11.

(* ~0xff, ~0x3 and ~0x1f as they meet a grub_uint32_t operand *)
Definition GRUB_XHCI_ADDR_MEM_MASK : Z := 0xffffff00.
Definition DBOFF_MASK : Z := 0xfffffffc.
Definition RTSOFF_MASK : Z := 0xffffffe0.

(* USB Legacy Support Capability (USBLEGSUP) bits *)
Definition GRUB_XHCI_USBLEGSUP_BIOS_OWNED : Z := Z.shiftl 1 16.
Definition GRUB_XHCI_USBLEGSUP_OS_OWNED : Z := Z.shiftl 1 24.

(* Operational register PORTSC bits *)
Definition GRUB_XHCI_PORTSC_CCS : Z := Z.shiftl 1 0.
Definition GRUB_XHCI_PORTSC_PED : Z := Z.shiftl 1 1.
Definition GRUB_XHCI_PORT_ENABLED : Z := Z.shiftl 1 2.
Definition GRUB_XHCI_PORT_RESET : Z := Z.shiftl 1 8.
Definition GRUB_XHCI_PORT_OWNER : Z := Z.shiftl 1 13.

(* offsetof in struct xhci_cap_regs *)
Definition cap_caplength : Z := 0.
Definition cap_hciversion : Z := 2.
Definition cap_hcsparams1 : Z := 4.
Definition cap_hcsparams2 : Z := 8.
Definition cap_hcsparams3 : Z := 12.
Definition cap_hccparams1 : Z := 16.
Definition cap_dboff : Z := 20.
Definition cap_rtsoff : Z := 24.
Definition cap_hccparams2 : Z := 28.

(* offsetof in struct xhci_oper_regs, as the struct is declared: five
   32-bit members, crcr, rsvdz3[4], then dcbaap and config *)
Definition oper_usbcmd : Z := 0.
Definition oper_usbsts : Z := 4.
Definition oper_pagesize : Z := 8.
Definition oper_dnctrl : Z := 20.
Definition oper_crcr : Z := 24.
Definition oper_dcbaap : Z := 44.
Definition oper_config : Z := 48.

Inductive xhci_portrs_type :=
| PORTSC
| PORTPMSC
| PORTLI
| PORTHLPMC.

Definition portrs_offset (type : xhci_portrs_type) : Z :=
  match type with
  | PORTSC => 0
  | PORTPMSC => 4
  | PORTLI => 8
  | PORTHLPMC => 12
  end.

(** ** The controller instance *)

Record grub_xhci := {
  cap_regs : Z;
  oper_regs : Z;
  run_regs : Z;
  db_regs : Z;
  max_device_slots : Z;   (* grub_uint8_t *)
  max_ports : Z;          (* grub_uint8_t *)
  next : Z;
  (* the members the source marks as deprecated *)
  regs : Z;
  cap : Z;
  oper : Z;
  runtime : Z;
  slots : Z;
  ports : Z;
  iobase_cap : Z;
  iobase_oper : Z
}.

Definition set_cap_regs (v : Z) (x : grub_xhci) : grub_xhci :=
  {| cap_regs := v; oper_regs := oper_regs x; run_regs := run_regs x;
     db_regs := db_regs x; max_device_slots := max_device_slots x;
     max_ports := max_ports x; next := next x; regs := regs x; cap := cap x;
     oper := oper x; runtime := runtime x; slots := slots x; ports := ports x;
     iobase_cap := iobase_cap x; iobase_oper := iobase_oper x |}.

Definition set_oper_regs (v : Z) (x : grub_xhci) : grub_xhci :=
  {| cap_regs := cap_regs x; oper_regs := v; run_regs := run_regs x;
     db_regs := db_regs x; max_device_slots := max_device_slots x;
     max_ports := max_ports x; next := next x; regs := regs x; cap := cap x;
     oper := oper x; runtime := runtime x; slots := slots x; ports := ports x;
     iobase_cap := iobase_cap x; iobase_oper := iobase_oper x |}.

Definition set_run_regs (v : Z) (x : grub_xhci) : grub_xhci :=
  {| cap_regs := cap_regs x; oper_regs := oper_regs x; run_regs := v;
     db_regs := db_regs x; max_device_slots := max_device_slots x;
     max_ports := max_ports x; next := next x; regs := regs x; cap := cap x;
     oper := oper x; runtime := runtime x; slots := slots x; ports := ports x;
     iobase_cap := iobase_cap x; iobase_oper := iobase_oper x |}.

Definition set_db_regs (v : Z) (x : grub_xhci) : grub_xhci :=
  {| cap_regs := cap_regs x; oper_regs := oper_regs x; run_regs := run_regs x;
     db_regs := v; max_device_slots := max_device_slots x;
     max_ports := max_ports x; next := next x; regs := regs x; cap := cap x;
     oper := oper x; runtime := runtime x; slots := slots x; ports := ports x;
     iobase_cap := iobase_cap x; iobase_oper := iobase_oper x |}.

Definition set_max_device_slots (v : Z) (x : grub_xhci) : grub_xhci :=
  {| cap_regs := cap_regs x; oper_regs := oper_regs x; run_regs := run_regs x;
     db_regs := db_regs x; max_device_slots := v;
     max_ports := max_ports x; next := next x; regs := regs x; cap := cap x;
     oper := oper x; runtime := runtime x; slots := slots x; ports := ports x;
     iobase_cap := iobase_cap x; iobase_oper := iobase_oper x |}.

Definition set_max_ports (v : Z) (x : grub_xhci) : grub_xhci :=
  {| cap_regs := cap_regs x; oper_regs := oper_regs x; run_regs := run_regs x;
     db_regs := db_regs x; max_device_slots := max_device_slots x;
     max_ports := v; next := next x; regs := regs x; cap := cap x;
     oper := oper x; runtime := runtime x; slots := slots x; ports := ports x;
     iobase_cap := iobase_cap x; iobase_oper := iobase_oper x |}.

Definition set_next (v : Z) (x : grub_xhci) : grub_xhci :=
  {| cap_regs := cap_regs x; oper_regs := oper_regs x; run_regs := run_regs x;
     db_regs := db_regs x; max_device_slots := max_device_slots x;
     max_ports := max_ports x; next := v; regs := regs x; cap := cap x;
     oper := oper x; runtime := runtime x; slots := slots x; ports := ports x;
     iobase_cap := iobase_cap x; iobase_oper := iobase_oper x |}.

(** The four register blocks of an instance. *)
Inductive reg_block :=
| CapabilityBlock
| OperationalBlock
| RuntimeBlock
| DoorbellBlock.

Definition block_base (x : grub_xhci) (b : reg_block) : Z :=
  match b with
  | CapabilityBlock => cap_regs x
  | OperationalBlock => oper_regs x
  | RuntimeBlock => run_regs x
  | DoorbellBlock => db_regs x
  end.

(** ** The machine the driver runs on *)

Inductive event :=
| EvLoad (addr : Z) (width : nat)            (* one volatile load of width bytes *)
| EvStore (addr : Z) (bytes : list Z)        (* one volatile store of these bytes *)
| EvPciRead (addr : Z) (width : nat)
| EvPciWrite (addr : Z) (bytes : list Z)
| EvSleep (ms : Z)
| EvError (e : grub_err_t).

Record world := {
  mmio : Z -> Z;                       (* the mapped device window, by byte *)
  pci_conf : Z -> Z;                   (* PCI configuration space, by byte *)
  now_ms : Z;                          (* grub_get_time_ms *)
  heap : gmap Z grub_xhci;             (* live struct grub_xhci objects *)
  allocator : list (Z * grub_xhci);    (* what the next grub_malloc calls yield:
                                          an address and the bytes found there *)
  xhci_list : Z;                       (* static struct grub_xhci *xhci_list *)
  detect_dev_state : Z;                (* static int state of grub_xhci_detect_dev *)
  trace : list event
}.

Definition set_mmio (f : Z -> Z) (w : world) : world :=
  {| mmio := f; pci_conf := pci_conf w; now_ms := now_ms w; heap := heap w;
     allocator := allocator w; xhci_list := xhci_list w;
     detect_dev_state := detect_dev_state w; trace := trace w |}.

Definition set_pci_conf (f : Z -> Z) (w : world) : world :=
  {| mmio := mmio w; pci_conf := f; now_ms := now_ms w; heap := heap w;
     allocator := allocator w; xhci_list := xhci_list w;
     detect_dev_state := detect_dev_state w; trace := trace w |}.

Definition set_now_ms (t : Z) (w : world) : world :=
  {| mmio := mmio w; pci_conf := pci_conf w; now_ms := t; heap := heap w;
     allocator := allocator w; xhci_list := xhci_list w;
     detect_dev_state := detect_dev_state w; trace := trace w |}.

Definition set_heap (h : gmap Z grub_xhci) (w : world) : world :=
  {| mmio := mmio w; pci_conf := pci_conf w; now_ms := now_ms w; heap := h;
     allocator := allocator w; xhci_list := xhci_list w;
     detect_dev_state := detect_dev_state w; trace := trace w |}.

Definition set_allocator (a : list (Z * grub_xhci)) (w : world) : world :=
  {| mmio := mmio w; pci_conf := pci_conf w; now_ms := now_ms w; heap := heap w;
     allocator := a; xhci_list := xhci_list w;
     detect_dev_state := detect_dev_state w; trace := trace w |}.

Definition set_xhci_list (p : Z) (w : world) : world :=
  {| mmio := mmio w; pci_conf := pci_conf w; now_ms := now_ms w; heap := heap w;
     allocator := allocator w; xhci_list := p;
     detect_dev_state := detect_dev_state w; trace := trace w |}.

Definition set_detect_dev_state (s : Z) (w : world) : world :=
  {| mmio := mmio w; pci_conf := pci_conf w; now_ms := now_ms w; heap := heap w;
     allocator := allocator w; xhci_list := xhci_list w;
     detect_dev_state := s; trace := trace w |}.

Definition set_trace (t : list event) (w : world) : world :=
  {| mmio := mmio w; pci_conf := pci_conf w; now_ms := now_ms w; heap := heap w;
     allocator := allocator w; xhci_list := xhci_list w;
     detect_dev_state := detect_dev_state w; trace := t |}.

(** The state of the module when it is loaded: static storage is zero. *)
Definition module_loaded (dev_mem cfg : Z -> Z) (t : Z)
    (alloc : list (Z * grub_xhci)) : world :=
  {| mmio := dev_mem; pci_conf := cfg; now_ms := t; heap := ∅;
     allocator := alloc; xhci_list := 0; detect_dev_state := 0; trace := [] |}.

(** ** State and undefined behaviour *)

Definition M (A : Type) : Type := world -> option (A * world).

Definition ret {A} (a : A) : M A := fun w => Some (a, w).

Definition bind {A B} (m : M A) (k : A -> M B) : M B :=
  fun w => match m w with
           | Some (a, w') => k a w'
           | None => None
           end.

Definition undefined {A} : M A := fun _ => None.

Notation "'let*' x ':=' m 'in' k" := (bind m (fun x => k))
  (at level 10, x name, m at level 100, k at level 200).

Definition emit (e : event) : M unit :=
  fun w => Some (tt, set_trace (trace w ++ [e]) w).

(** The [n] bytes a store holds from [addr] on. *)
Fixpoint bytes_at (f : Z -> Z) (addr : Z) (n : nat) : list Z :=
  match n with
  | O => []
  | S n' => f addr mod 256 :: bytes_at f (addr + 1) n'
  end.

(** The store after [bs] has been written from [addr] on. *)
Fixpoint write_bytes (f : Z -> Z) (addr : Z) (bs : list Z) : Z -> Z :=
  match bs with
  | [] => f
  | b :: bs' => write_bytes (fun a => if a =? addr then b else f a) (addr + 1) bs'
  end.

Section Driver.

Context (P : platform).

(** ** Collaborators of the driver *)

(** What a [volatile uintN_t] object holds, read in the byte order of the
    CPU. *)
Definition host_value (bs : list Z) : Z :=
  if host_big_endian P then le_value (rev bs) else le_value bs.

(** The bytes the CPU stores for an [n]-byte integer. *)
Definition host_bytes (n : nat) (v : Z) : list Z :=
  if host_big_endian P then rev (le_bytes n v) else le_bytes n v.

(** Modelled from the spec: grub_swap_bytes16 and grub_swap_bytes32 of
    <grub/types.h>, a header that is not among the sources: the integer
    whose [n] bytes are those of [v] in the opposite order. *)
Definition grub_swap_bytes (n : nat) (v : Z) : Z :=
  le_value (rev (le_bytes n v)).

(** Modelled from the spec: grub_le_to_cpu16, grub_le_to_cpu32,
    grub_cpu_to_le16 and grub_cpu_to_le32 of <grub/types.h>, a header that
    is not among the sources: conversion between little-endian wire order
    and host order, the identity on a little-endian CPU and a byte swap on
    a big-endian one. *)
Definition grub_le_to_cpu16 (v : Z) : Z :=
  if host_big_endian P then grub_swap_bytes 2 v else v.

Definition grub_le_to_cpu32 (v : Z) : Z :=
  if host_big_endian P then grub_swap_bytes 4 v else v.

Definition grub_cpu_to_le16 (v : Z) : Z :=
  if host_big_endian P then grub_swap_bytes 2 v else v.

Definition grub_cpu_to_le32 (v : Z) : Z :=
  if host_big_endian P then grub_swap_bytes 4 v else v.

(** [*addr] for a pointer to a volatile [n]-byte integer. *)
Definition volatile_load (addr : Z) (n : nat) : M Z :=
  fun w => Some (host_value (bytes_at (mmio w) addr n),
                 set_trace (trace w ++ [EvLoad addr n]) w).

(** [*addr = v] for a pointer to a volatile [n]-byte integer. *)
Definition volatile_store (addr : Z) (n : nat) (v : Z) : M unit :=
  fun w => Some (tt,
                 set_trace (trace w ++ [EvStore addr (host_bytes n v)])
                   (set_mmio (write_bytes (mmio w) addr (host_bytes n v)) w)).

(** Modelled from the spec: grub_pci_read, grub_pci_read_word and
    grub_pci_write_word of <grub/cpu/pci.h>, a header that is not among the
    sources: config-space read and write; the registers are little-endian
    and the accessors hand over their numeric value. *)
Definition grub_pci_read (addr : Z) : M Z :=
  fun w => Some (le_value (bytes_at (pci_conf w) addr 4),
                 set_trace (trace w ++ [EvPciRead addr 4]) w).

Definition grub_pci_read_word (addr : Z) : M Z :=
  fun w => Some (le_value (bytes_at (pci_conf w) addr 2),
                 set_trace (trace w ++ [EvPciRead addr 2]) w).

Definition grub_pci_write_word (addr : Z) (v : Z) : M unit :=
  fun w => Some (tt,
                 set_trace (trace w ++ [EvPciWrite addr (le_bytes 2 v)])
                   (set_pci_conf (write_bytes (pci_conf w) addr (le_bytes 2 v)) w)).

(** Modelled from the spec: grub_millisleep of <grub/time.h>, a header that
    is not among the sources: a blocking millisecond-granularity delay on a
    monotonic millisecond clock. *)
Definition grub_millisleep (ms : Z) : M unit :=
  fun w => Some (tt, set_trace (trace w ++ [EvSleep ms]) (set_now_ms (now_ms w + ms) w)).

(** Modelled from the spec: grub_malloc and grub_free of <grub/mm.h>, a
    header that is not among the sources: allocation yields the address of
    a fresh object or reports failure as NULL.  What the object holds at
    first is up to the allocator. *)
Definition grub_malloc : M Z :=
  fun w => match allocator w with
           | [] => Some (0, w)
           | (p, x) :: rest =>
               Some (p, set_allocator rest (set_heap (<[p := x]> (heap w)) w))
           end.

Definition grub_free (p : Z) : M unit :=
  fun w => Some (tt, set_heap (delete p (heap w)) w).

(** Modelled from the spec: grub_error of <grub/err.h>, a header that is not
    among the sources: records the error for the caller of the module. *)
Definition grub_error (e : grub_err_t) : M unit := emit (EvError e).

(** Access to the object behind a [struct grub_xhci *]. *)
Definition get_xhci (p : Z) : M grub_xhci :=
  fun w => match heap w !! p with
           | Some x => Some (x, w)
           | None => None
           end.

Definition update_xhci (p : Z) (f : grub_xhci -> grub_xhci) : M unit :=
  fun w => match heap w !! p with
           | Some x => Some (tt, set_heap (<[p := f x]> (heap w)) w)
           | None => None
           end.

(** ** Register access *)

(* grub_xhci_cap_read32 (xhci, off): xhci->cap is taken as a pointer to
   grub_uint32_t and advanced by off / sizeof (grub_uint32_t) elements *)
Definition grub_xhci_cap_read32 (xhci : Z) (off : Z) : M Z :=
  let* x := get_xhci xhci in
  let* v := volatile_load (cap x + 4 * (off / 4)) 4 in
  ret (grub_le_to_cpu32 v).

Definition mmio_read8 (addr : Z) : M Z :=
  volatile_load addr 1.

Definition mmio_read16 (addr : Z) : M Z :=
  let* v := volatile_load addr 2 in
  ret (grub_le_to_cpu16 v).

Definition mmio_read32 (addr : Z) : M Z :=
  let* v := volatile_load addr 4 in
  ret (grub_le_to_cpu32 v).

Definition mmio_write8 (addr : Z) (val : Z) : M unit :=
  volatile_store addr 1 val.

Definition mmio_write16 (addr : Z) (val : Z) : M unit :=
  volatile_store addr 2 (grub_cpu_to_le16 val).

Definition mmio_write32 (addr : Z) (val : Z) : M unit :=
  volatile_store addr 4 (grub_cpu_to_le32 val).

(* Read Port Register Set n of given type.  [port] is an unsigned int, so
   0x10 * (port - 1) is computed modulo 2^32; ~0 is returned as a
   grub_uint32_t. *)
Definition xhci_read_portrs (xhci : Z) (port : Z) (type : xhci_portrs_type) : M Z :=
  let* x := get_xhci xhci in
  if max_ports x <? port then
    ret 0xffffffff
  else
    mmio_read32 (oper_regs x + 0x400
                 + (0x10 * ((port - 1) mod 2 ^ 32)) mod 2 ^ 32
                 + portrs_offset type).

(** ** Controller life cycle *)

(* Halt if xHCI HC not halted.  The statements that read USBSTS, clear
   RUNSTOP and poll are commented out; (void)xhci and the return are what
   is compiled. *)
Definition grub_xhci_halt (xhci : Z) : M grub_usb_err_t :=
  ret GRUB_USB_ERR_NONE.

(* xHCI HC reset.  The statements that set HCRST and poll are commented
   out. *)
Definition grub_xhci_reset (xhci : Z) : M grub_usb_err_t :=
  ret GRUB_USB_ERR_NONE.

Definition usb_err_eqb (a b : grub_usb_err_t) : bool :=
  match a, b with
  | GRUB_USB_ERR_NONE, GRUB_USB_ERR_NONE
  | GRUB_USB_ERR_STALL, GRUB_USB_ERR_STALL
  | GRUB_USB_ERR_DATA, GRUB_USB_ERR_DATA
  | GRUB_USB_ERR_NAK, GRUB_USB_ERR_NAK
  | GRUB_USB_ERR_BABBLE, GRUB_USB_ERR_BABBLE
  | GRUB_USB_ERR_TIMEOUT, GRUB_USB_ERR_TIMEOUT
  | GRUB_USB_ERR_INTERNAL, GRUB_USB_ERR_INTERNAL
  | GRUB_USB_ERR_WAIT, GRUB_USB_ERR_WAIT
  | GRUB_USB_ERR_BADDEVICE, GRUB_USB_ERR_BADDEVICE
  | GRUB_USB_ERR_UNRECOVERABLE, GRUB_USB_ERR_UNRECOVERABLE => true
  | _, _ => false
  end.

(* for (xhci = xhci_list; xhci; xhci = xhci->next) of grub_xhci_restore_hw.
   A chain of distinct live objects is no longer than the heap, so a walk
   that outlasts [fuel] = size of the heap is on a cycle and never ends. *)
Fixpoint restore_hw_loop (fuel : nat) (xhci : Z) : M unit :=
  if xhci =? 0 then ret tt
  else
    match fuel with
    | O => undefined
    | S fuel' =>
        let* e1 := grub_xhci_halt xhci in
        let* _ := (if usb_err_eqb e1 GRUB_USB_ERR_NONE then ret tt
                   else grub_error GRUB_ERR_TIMEOUT) in
        let* e2 := grub_xhci_reset xhci in
        let* _ := (if usb_err_eqb e2 GRUB_USB_ERR_NONE then ret tt
                   else grub_error GRUB_ERR_TIMEOUT) in
        let* x := get_xhci xhci in
        restore_hw_loop fuel' (next x)
    end.

Definition grub_xhci_restore_hw : M grub_err_t :=
  fun w =>
    (let* _ := restore_hw_loop (size (heap w)) (xhci_list w) in
     ret GRUB_ERR_NONE) w.

(* the loop of grub_xhci_fini_hw: its body is empty *)
Fixpoint fini_hw_loop (fuel : nat) (xhci : Z) : M unit :=
  if xhci =? 0 then ret tt
  else
    match fuel with
    | O => undefined
    | S fuel' =>
        let* x := get_xhci xhci in
        fini_hw_loop fuel' (next x)
    end.

Definition grub_xhci_fini_hw (noreturn : Z) : M grub_err_t :=
  fun w =>
    (let* _ := fini_hw_loop (size (heap w)) (xhci_list w) in
     ret GRUB_ERR_NONE) w.

(** ** Transfers

    A [grub_usb_controller_t] is represented by its [data] member, the
    address of the controller instance. *)

(* Each of the three returns GRUB_USB_ERR_NONE before its #if 0 region. *)
Definition grub_xhci_cancel_transfer (dev : Z) (transfer : Z) : M grub_usb_err_t :=
  ret GRUB_USB_ERR_NONE.

Definition grub_xhci_check_transfer (dev : Z) (transfer : Z) (actual : Z)
    : M grub_usb_err_t :=
  ret GRUB_USB_ERR_NONE.

Definition grub_xhci_setup_transfer (dev : Z) (transfer : Z) : M grub_usb_err_t :=
  ret GRUB_USB_ERR_NONE.

(** ** Ports *)

Definition get_detect_dev_state : M Z :=
  fun w => Some (detect_dev_state w, w).

Definition put_detect_dev_state (s : Z) : M unit :=
  fun w => Some (tt, set_detect_dev_state s w).

(* [port] is an int and converts to the unsigned int parameter of
   xhci_read_portrs.  The result pairs the speed with the value left in
   *changed, [changed] being the value the caller had there.  Every path of
   the switch returns, so the #if 0 region below it is never reached. *)
Definition grub_xhci_detect_dev (dev : Z) (port : Z) (changed : Z)
    : M (grub_usb_speed_t * Z) :=
  let xhci := dev in
  (* argument of the second grub_dprintf *)
  let* _ := xhci_read_portrs xhci (port mod 2 ^ 32) PORTSC in
  let* portsc := xhci_read_portrs xhci (port mod 2 ^ 32) PORTSC in
  let is_connected := Z.land portsc 1 in
  (* if (is_connected) { } *)
  let* _ := grub_millisleep 1000 in
  let* state := get_detect_dev_state in
  if state =? 0 then
    let* _ := put_detect_dev_state 0 in
    ret (GRUB_USB_SPEED_SUPER, 1)
  else if state =? 1 then
    let* _ := put_detect_dev_state 2 in
    ret (GRUB_USB_SPEED_NONE, 0)
  else if state =? 2 then
    let* _ := put_detect_dev_state 0 in
    ret (GRUB_USB_SPEED_SUPER, 1)
  else
    ret (GRUB_USB_SPEED_NONE, changed).

(* return GRUB_USB_ERR_NONE comes first; the reset sequence after it is
   under #if 0. *)
Definition grub_xhci_portstatus (dev : Z) (port : Z) (enable : Z)
    : M grub_usb_err_t :=
  ret GRUB_USB_ERR_NONE.

(* The stores to the two grub_uint8_t members keep the low eight bits. *)
Definition grub_xhci_hubports (dev : Z) : M Z :=
  let xhci := dev in
  let* x := get_xhci xhci in
  let* hcsparams1 := mmio_read32 (cap_regs x + cap_hcsparams1) in
  let* _ := update_xhci xhci
              (set_max_device_slots (Z.land hcsparams1 0xff mod 256)) in
  let* _ := update_xhci xhci
              (set_max_ports (Z.land (Z.shiftr hcsparams1 24) 0xff mod 256)) in
  let* x' := get_xhci xhci in
  let nports := max_ports x' in
  ret nports.

(** ** Attach *)

Definition grub_xhci_dump_cap (xhci : Z) : M Z :=
  let* x := get_xhci xhci in
  let* _ := mmio_read8 (cap_regs x + cap_caplength) in
  let* _ := mmio_read16 (cap_regs x + cap_hciversion) in
  let* _ := mmio_read32 (cap_regs x + cap_hcsparams1) in
  let* _ := mmio_read32 (cap_regs x + cap_hcsparams2) in
  let* _ := mmio_read32 (cap_regs x + cap_hcsparams3) in
  let* _ := mmio_read32 (cap_regs x + cap_hccparams1) in
  let* _ := mmio_read32 (cap_regs x + cap_dboff) in
  let* _ := mmio_read32 (cap_regs x + cap_rtsoff) in
  let* _ := mmio_read32 (cap_regs x + cap_hccparams2) in
  ret 0.

Definition grub_xhci_dump_oper (xhci : Z) : M Z :=
  let* x := get_xhci xhci in
  let* _ := mmio_read32 (oper_regs x + oper_usbcmd) in
  let* _ := mmio_read32 (oper_regs x + oper_usbsts) in
  let* _ := mmio_read32 (oper_regs x + oper_pagesize) in
  let* _ := mmio_read32 (oper_regs x + oper_dnctrl) in
  let* _ := mmio_read32 (oper_regs x + oper_crcr) in
  let* _ := mmio_read32 (oper_regs x + oper_dcbaap) in
  let* _ := mmio_read32 (oper_regs x + oper_config) in
  ret 0.

(* Locate capability, operational, runtime, and doorbell registers.  The
   function returns 0 after the two dumps; the rest of its text is under
   #if 0 or follows the return. *)
Definition grub_xhci_init (xhci : Z) (mmio_base_addr : Z) : M Z :=
  let* _ := update_xhci xhci (set_cap_regs mmio_base_addr) in
  let* x := get_xhci xhci in
  let* caplength := mmio_read8 (cap_regs x + cap_caplength) in
  let* _ := update_xhci xhci (set_oper_regs (cap_regs x + caplength)) in
  let* x := get_xhci xhci in
  let* dboff := mmio_read32 (cap_regs x + cap_dboff) in
  let* _ := update_xhci xhci
              (set_db_regs (cap_regs x + Z.land dboff DBOFF_MASK)) in
  let* x := get_xhci xhci in
  let* rtsoff := mmio_read32 (cap_regs x + cap_rtsoff) in
  let* _ := update_xhci xhci
              (set_run_regs (cap_regs x + Z.land rtsoff RTSOFF_MASK)) in
  let* _ := grub_xhci_dump_cap xhci in
  let* _ := grub_xhci_dump_oper xhci in
  ret 0.

Definition pci_config_read (dev : grub_pci_device_t) (reg : Z) : M Z :=
  grub_pci_read (grub_pci_make_address P dev reg).

Definition get_xhci_list : M Z :=
  fun w => Some (xhci_list w, w).

Definition put_xhci_list (p : Z) : M unit :=
  fun w => Some (tt, set_xhci_list p w).

(* PCI iteration function... *)
Definition grub_xhci_pci_iter (dev : grub_pci_device_t) (pciid : Z) : M Z :=
  (* Exit if not USB3.0 xHCI controller *)
  let* class_reg := pci_config_read dev (GRUB_PCI_REG_CLASS P) in
  let class_code := Z.shiftr class_reg 8 in
  if negb (class_code =? 0x0c0330) then ret 0
  else
    (* Determine xHCI MMIO registers base address *)
    let* base := grub_pci_read
                   (grub_pci_make_address P dev (GRUB_PCI_REG_ADDRESS_REG0 P)) in
    let* base_h := grub_pci_read
                     (grub_pci_make_address P dev (GRUB_PCI_REG_ADDRESS_REG1 P)) in
    (* Stop if registers are mapped above 4G *)
    if negb (Z.land base (GRUB_PCI_ADDR_MEM_TYPE_MASK P)
             =? GRUB_PCI_ADDR_MEM_TYPE_32 P)
       && negb (base_h =? 0)
    then ret 0
    else
      let base := Z.land base (GRUB_PCI_ADDR_MEM_MASK P) in
      if base =? 0 then ret 0
      else
        (* Set bus master *)
        let addr := grub_pci_make_address P dev (GRUB_PCI_REG_COMMAND P) in
        let* command := grub_pci_read_word addr in
        let* _ := grub_pci_write_word addr
                    (Z.lor (Z.lor (GRUB_PCI_COMMAND_MEM_ENABLED P)
                                  (GRUB_PCI_COMMAND_BUS_MASTER P))
                           command) in
        let mmio_base_addr :=
          grub_pci_device_map_range P dev
            (Z.land base GRUB_XHCI_ADDR_MEM_MASK) 0x100 in
        let* xhci := grub_malloc in
        if xhci =? 0 then ret (usb_err_int P GRUB_USB_ERR_INTERNAL)
        else
          let* err := grub_xhci_init xhci mmio_base_addr in
          if negb (err =? 0) then
            let* _ := grub_free xhci in
            ret err
          else
            (* Build list of xHCI controllers *)
            let* head := get_xhci_list in
            let* _ := update_xhci xhci (set_next head) in
            let* _ := put_xhci_list xhci in
            ret 0.

(** The operations the USB framework and the preboot hooks run on an
    attached controller.  (grub_xhci_iterate only hands each instance to
    the caller's hook.) *)
Inductive driver_op :=
| OpHalt
| OpReset
| OpRestoreHw
| OpFiniHw (noreturn : Z)
| OpSetupTransfer (transfer : Z)
| OpCheckTransfer (transfer : Z) (actual : Z)
| OpCancelTransfer (transfer : Z)
| OpHubports
| OpPortstatus (port : Z) (enable : Z)
| OpDetectDev (port : Z) (changed : Z).

Definition discard {A} (m : M A) : M unit :=
  let* _ := m in ret tt.

Definition run_op (op : driver_op) (xhci : Z) : M unit :=
  match op with
  | OpHalt => discard (grub_xhci_halt xhci)
  | OpReset => discard (grub_xhci_reset xhci)
  | OpRestoreHw => discard grub_xhci_restore_hw
  | OpFiniHw noreturn => discard (grub_xhci_fini_hw noreturn)
  | OpSetupTransfer t => discard (grub_xhci_setup_transfer xhci t)
  | OpCheckTransfer t a => discard (grub_xhci_check_transfer xhci t a)
  | OpCancelTransfer t => discard (grub_xhci_cancel_transfer xhci t)
  | OpHubports => discard (grub_xhci_hubports xhci)
  | OpPortstatus port enable => discard (grub_xhci_portstatus xhci port enable)
  | OpDetectDev port changed => discard (grub_xhci_detect_dev xhci port changed)
  end.

End Driver.

(** ** What is observed of the machine *)

(** The 32-bit little-endian register at [addr] of the device window. *)
Definition reg32 (w : world) (addr : Z) : Z :=
  le_value (bytes_at (mmio w) addr 4).

(** The 32-bit and 16-bit configuration registers at [addr]. *)
Definition pci_reg32 (w : world) (addr : Z) : Z :=
  le_value (bytes_at (pci_conf w) addr 4).

Definition pci_reg16 (w : world) (addr : Z) : Z :=
  le_value (bytes_at (pci_conf w) addr 2).

(** USBCMD and USBSTS of an instance, as the device holds them. *)
Definition usbcmd (x : grub_xhci) (w : world) : Z :=
  reg32 w (oper_regs x + GRUB_XHCI_OPER_USBCMD).

Definition usbsts (x : grub_xhci) (w : world) : Z :=
  reg32 w (oper_regs x + GRUB_XHCI_OPER_USBSTS).

(** PORTSC of a port, as the device holds it. *)
Definition portsc (x : grub_xhci) (port : Z) (w : world) : Z :=
  reg32 w (oper_regs x + 0x400 + 0x10 * (port - 1) + portrs_offset PORTSC).

(** The MaxPorts and MaxSlots fields of HCSPARAMS1. *)
Definition hcsparams1_ports (w : world) (x : grub_xhci) : Z :=
  Z.land (Z.shiftr (reg32 w (cap_regs x + cap_hcsparams1)) 24) 0xff.

Definition hcsparams1_slots (w : world) (x : grub_xhci) : Z :=
  Z.land (reg32 w (cap_regs x + cap_hcsparams1)) 0xff.

Definition is_pci_read (e : event) : bool :=
  match e with
  | EvPciRead _ _ => true
  | _ => false
  end.

Definition is_store (e : event) : bool :=
  match e with
  | EvStore _ _ | EvPciWrite _ _ => true
  | _ => false
  end.

(** ** What attach leaves *)

(** The instance after the four register blocks have been located from
    CAPLENGTH, DBOFF and RTSOFF of the window mapped at [base]. *)
Definition located (w : world) (base : Z) (x : grub_xhci) : grub_xhci :=
  set_run_regs (base + Z.land (reg32 w (base + cap_rtsoff)) RTSOFF_MASK)
    (set_db_regs (base + Z.land (reg32 w (base + cap_dboff)) DBOFF_MASK)
       (set_oper_regs (base + le_value (bytes_at (mmio w) (base + cap_caplength) 1))
          (set_cap_regs base x))).

(** The loads of grub_xhci_init, in order: the three that locate the
    blocks, then the two register dumps. *)
Definition init_loads (base oper : Z) : list event :=
  [ EvLoad (base + cap_caplength) 1;
    EvLoad (base + cap_dboff) 4;
    EvLoad (base + cap_rtsoff) 4;
    EvLoad (base + cap_caplength) 1;
    EvLoad (base + cap_hciversion) 2;
    EvLoad (base + cap_hcsparams1) 4;
    EvLoad (base + cap_hcsparams2) 4;
    EvLoad (base + cap_hcsparams3) 4;
    EvLoad (base + cap_hccparams1) 4;
    EvLoad (base + cap_dboff) 4;
    EvLoad (base + cap_rtsoff) 4;
    EvLoad (base + cap_hccparams2) 4;
    EvLoad (oper + oper_usbcmd) 4;
    EvLoad (oper + oper_usbsts) 4;
    EvLoad (oper + oper_pagesize) 4;
    EvLoad (oper + oper_dnctrl) 4;
    EvLoad (oper + oper_crcr) 4;
    EvLoad (oper + oper_dcbaap) 4;
    EvLoad (oper + oper_config) 4 ].

(** The world a successful attach leaves: the command register has memory
    decoding and bus mastering enabled, the instance is allocated, located
    and linked at the head of xhci_list. *)
Definition attached (P : platform) (dev : grub_pci_device_t) (p : Z) (x : grub_xhci)
    (rest : list (Z * grub_xhci)) (w : world) : world :=
  let cmd_addr := grub_pci_make_address P dev (GRUB_PCI_REG_COMMAND P) in
  let bar0 := grub_pci_make_address P dev (GRUB_PCI_REG_ADDRESS_REG0 P) in
  let bar1 := grub_pci_make_address P dev (GRUB_PCI_REG_ADDRESS_REG1 P) in
  let command := Z.lor (Z.lor (GRUB_PCI_COMMAND_MEM_ENABLED P)
                              (GRUB_PCI_COMMAND_BUS_MASTER P))
                       (pci_reg16 w cmd_addr) in
  let base := grub_pci_device_map_range P dev
                (Z.land (Z.land (pci_reg32 w bar0) (GRUB_PCI_ADDR_MEM_MASK P))
                   GRUB_XHCI_ADDR_MEM_MASK) 0x100 in
  let inst := located w base x in
  set_xhci_list p
    (set_heap (<[p := set_next (xhci_list w) inst]> (heap w))
       (set_allocator rest
          (set_pci_conf (write_bytes (pci_conf w) cmd_addr (le_bytes 2 command))
             (set_trace
                (trace w ++
                 [EvPciRead (grub_pci_make_address P dev (GRUB_PCI_REG_CLASS P)) 4;
                  EvPciRead bar0 4; EvPciRead bar1 4;
                  EvPciRead cmd_addr 2;
                  EvPciWrite cmd_addr (le_bytes 2 command)]
                 ++ init_loads base (oper_regs inst))
                w)))).

(** [chain h p l]: following [next] from [p] through the objects of [h]
    visits exactly the addresses [l] and then reaches NULL. *)
Inductive chain (h : gmap Z grub_xhci) : Z -> list Z -> Prop :=
| chain_end : chain h 0 []
| chain_step (p : Z) (x : grub_xhci) (l : list Z) :
    p <> 0 -> h !! p = Some x -> chain h (next x) l -> chain h p (p :: l).

(** ** Sequences of operations *)

Definition is_hubports (op : driver_op) : bool :=
  match op with
  | OpHubports => true
  | _ => false
  end.

Fixpoint run_ops (P : platform) (ops : list driver_op) (xhci : Z) : M unit :=
  match ops with
  | [] => ret tt
  | op :: rest => let* _ := run_op P op xhci in run_ops P rest xhci
  end.

(** ** A sample machine: a controller with 32 slots and 4 ports *)

(** A byte store that holds the given 32-bit little-endian registers, each
    at its byte address, and zero elsewhere. *)
Definition reg_file (regs : list (Z * Z)) : Z -> Z :=
  fun a =>
    match find (fun r => (fst r <=? a) && (a <? fst r + 4)) regs with
    | Some (r, v) => (v / 256 ^ (a - r)) mod 256
    | None => 0
    end.

Definition sample_base : Z := 0xfe000000.

(** The device window: CAPLENGTH 0x20, HCIVERSION 1.0, HCSPARAMS1 with 32
    slots and 4 ports, extended capabilities at dword 0x20, doorbells at
    0x2000, runtime registers at 0x1000, a USBLEGSUP capability that says
    the firmware owns the controller, and USBCMD, USBSTS and the PORTSC of
    ports 1 and 2 as given. *)
Definition sample_registers (usbcmd usbsts portsc1 portsc2 : Z) : list (Z * Z) :=
  [ (sample_base + 0x00, 0x01000020);
    (sample_base + 0x04, 0x04000020);
    (sample_base + 0x10, 0x00200000);
    (sample_base + 0x14, 0x00002000);
    (sample_base + 0x18, 0x00001000);
    (sample_base + 0x20, usbcmd);
    (sample_base + 0x24, usbsts);
    (sample_base + 0x80, 0x00010001);
    (sample_base + 0x420, portsc1);
    (sample_base + 0x430, portsc2) ].

(** A freshly allocated object whose bytes are all zero. *)
Definition zeroed_xhci : grub_xhci :=
  {| cap_regs := 0; oper_regs := 0; run_regs := 0; db_regs := 0;
     max_device_slots := 0; max_ports := 0; next := 0; regs := 0; cap := 0;
     oper := 0; runtime := 0; slots := 0; ports := 0; iobase_cap := 0;
     iobase_oper := 0 |}.

(** The instance grub_xhci_init and grub_xhci_hubports leave for the sample
    controller. *)
Definition sample_xhci : grub_xhci :=
  {| cap_regs := sample_base; oper_regs := sample_base + 0x20;
     run_regs := sample_base + 0x1000; db_regs := sample_base + 0x2000;
     max_device_slots := 32; max_ports := 4; next := 0; regs := 0; cap := 0;
     oper := 0; runtime := 0; slots := 0; ports := 0; iobase_cap := 0;
     iobase_oper := 0 |}.

Definition sample_ptr : Z := 0x100000.

(** The sample controller attached, with the given register contents. *)
Definition sample_world (usbcmd usbsts portsc1 portsc2 : Z) : world :=
  {| mmio := reg_file (sample_registers usbcmd usbsts portsc1 portsc2);
     pci_conf := fun _ => 0; now_ms := 0;
     heap := {[ sample_ptr := sample_xhci ]};
     allocator := []; xhci_list := sample_ptr; detect_dev_state := 0;
     trace := [] |}.

Definition sample_pci_device : grub_pci_device_t :=
  {| bus := 0; device := 0x14; function := 0 |}.

(** Configuration space of an xHCI controller (class code 0x0c0330) whose
    first BAR has the given low and high dwords. *)
Definition sample_pci_conf (bar0 bar1 : Z) : Z -> Z :=
  reg_file
    [ (grub_pci_make_address i386_pc sample_pci_device 0x04, 0x02900000);
      (grub_pci_make_address i386_pc sample_pci_device 0x08, 0x0c033001);
      (grub_pci_make_address i386_pc sample_pci_device 0x10, bar0);
      (grub_pci_make_address i386_pc sample_pci_device 0x14, bar1) ].

(** The module just loaded, before the sample controller is probed; the
    allocator will hand out zeroed memory at [sample_ptr]. *)
Definition sample_probe (bar0 bar1 : Z) : world :=
  module_loaded (reg_file (sample_registers 1 0 0 0)) (sample_pci_conf bar0 bar1)
    0 [(sample_ptr, zeroed_xhci)].

(** ** Operational registers: the enumerators and the structure *)

(* the enumerators of the operational register offsets after USBSTS *)
Definition GRUB_XHCI_OPER_PAGESIZE : Z := 0x08.
Definition GRUB_XHCI_OPER_DNCTRL : Z := 0x14.
Definition GRUB_XHCI_OPER_CRCR : Z := 0x18.
Definition GRUB_XHCI_OPER_DCBAAP : Z := 0x30.
Definition GRUB_XHCI_OPER_CONFIG : Z := 0x38.

(** The members of struct xhci_oper_regs, in the order of their
    declaration. *)
Inductive oper_member :=
| m_usbcmd
| m_usbsts
| m_pagesize
| m_rsvdz1
| m_rsvdz2
| m_dnctrl
| m_crcr
| m_rsvdz3
| m_dcbaap
| m_config
| m_rsvdz4
| m_reserved.

Definition oper_member_eqb (a b : oper_member) : bool :=
  match a, b with
  | m_usbcmd, m_usbcmd | m_usbsts, m_usbsts | m_pagesize, m_pagesize
  | m_rsvdz1, m_rsvdz1 | m_rsvdz2, m_rsvdz2 | m_dnctrl, m_dnctrl
  | m_crcr, m_crcr | m_rsvdz3, m_rsvdz3 | m_dcbaap, m_dcbaap
  | m_config, m_config | m_rsvdz4, m_rsvdz4 | m_reserved, m_reserved => true
  | _, _ => false
  end.

(** Each member with its size in bytes.  Every member is a grub_uint32_t
    or an array of them, so the structure has no padding. *)
Definition xhci_oper_regs_members : list (oper_member * Z) :=
  [ (m_usbcmd, 4); (m_usbsts, 4); (m_pagesize, 4); (m_rsvdz1, 4); (m_rsvdz2, 4);
    (m_dnctrl, 4); (m_crcr, 4); (m_rsvdz3, 4 * 4); (m_dcbaap, 4); (m_config, 4);
    (m_rsvdz4, 4 * 241); (m_reserved, 4 * 1024) ].

(** offsetof: the sizes of the members declared before [m]. *)
Fixpoint offsetof (members : list (oper_member * Z)) (m : oper_member) : option Z :=
  match members with
  | [] => None
  | (m', size) :: rest =>
      if oper_member_eqb m' m then Some 0
      else option_map (Z.add size) (offsetof rest m)
  end.

(** ** Iteration over the registry *)

(* grub_xhci_iterate: for (xhci = xhci_list; xhci; xhci = xhci->next) with
   dev.data = xhci; if (hook (&dev, hook_data)) return 1; and return 0 after
   the loop.  The hook is given here as a function of dev.data; hook_data
   is part of it.  xhci->next is read after the hook has run.  The hook may
   change the heap, so the walk is bounded by an explicit [fuel]; a walk
   that outlasts it has no result. *)
Fixpoint iterate_loop (fuel : nat) (hook : Z -> M Z) (xhci : Z) : M Z :=
  if xhci =? 0 then ret 0
  else
    match fuel with
    | O => undefined
    | S fuel' =>
        let* r := hook xhci in
        if negb (r =? 0) then ret 1
        else
          let* x := get_xhci xhci in
          iterate_loop fuel' hook (next x)
    end.

Definition grub_xhci_iterate (fuel : nat) (hook : Z -> M Z) : M Z :=
  let* head := get_xhci_list in
  iterate_loop fuel hook head.

(** Calling [hook] on the addresses of [l] in order, up to the first call
    that answers nonzero: 1 when there is such a call, 0 when there is
    none. *)
Fixpoint visit_in_order (hook : Z -> M Z) (l : list Z) : M Z :=
  match l with
  | [] => ret 0
  | p :: l' =>
      let* r := hook p in
      if negb (r =? 0) then ret 1 else visit_in_order hook l'
  end.

(** Two heaps whose objects are linked alike. *)
Definition same_links (h h' : gmap Z grub_xhci) : Prop :=
  forall q, next <$> (h' !! q) = next <$> (h !! q).

(** A hook that leaves the [next] members of all instances alone. *)
Definition keeps_links (hook : Z -> M Z) : Prop :=
  forall p u r u', hook p u = Some (r, u') -> same_links (heap u) (heap u').

(** ** The PCI base-address helpers *)

(** What pci_bar and pci_bar_start take from the build besides the
    [platform]: three more constants of <grub/pci.h> and the width of
    unsigned long.  A constant is given by the value of its expression. *)
Record pci_bar_platform := {
  GRUB_PCI_ADDR_SPACE_IO : Z;
  GRUB_PCI_ADDR_MEM_TYPE_64 : Z;
  GRUB_PCI_ADDR_IO_MASK : Z;
  unsigned_long_bits : Z
}.

(** The PC build: unsigned long has 32 bits. *)
Definition i386_pc_bar : pci_bar_platform := {|
  GRUB_PCI_ADDR_SPACE_IO := 0x01;
  GRUB_PCI_ADDR_MEM_TYPE_64 := 0x04;
  GRUB_PCI_ADDR_IO_MASK := -4;
  unsigned_long_bits := 32
|}.

(** A 64-bit PC build: the same constants, the memory mask as the int it
    is, and an unsigned long of 64 bits. *)
Definition x86_64_efi : platform := {|
  host_big_endian := false;
  GRUB_PCI_REG_COMMAND := GRUB_PCI_REG_COMMAND i386_pc;
  GRUB_PCI_REG_CLASS := GRUB_PCI_REG_CLASS i386_pc;
  GRUB_PCI_REG_ADDRESS_REG0 := GRUB_PCI_REG_ADDRESS_REG0 i386_pc;
  GRUB_PCI_REG_ADDRESS_REG1 := GRUB_PCI_REG_ADDRESS_REG1 i386_pc;
  GRUB_PCI_ADDR_MEM_TYPE_MASK := GRUB_PCI_ADDR_MEM_TYPE_MASK i386_pc;
  GRUB_PCI_ADDR_MEM_TYPE_32 := GRUB_PCI_ADDR_MEM_TYPE_32 i386_pc;
  GRUB_PCI_ADDR_MEM_MASK := -16;
  GRUB_PCI_COMMAND_MEM_ENABLED := GRUB_PCI_COMMAND_MEM_ENABLED i386_pc;
  GRUB_PCI_COMMAND_BUS_MASTER := GRUB_PCI_COMMAND_BUS_MASTER i386_pc;
  grub_pci_make_address := grub_pci_make_address i386_pc;
  grub_pci_device_map_range := grub_pci_device_map_range i386_pc;
  usb_err_int := usb_err_int i386_pc
|}.

Definition x86_64_efi_bar : pci_bar_platform := {|
  GRUB_PCI_ADDR_SPACE_IO := 0x01;
  GRUB_PCI_ADDR_MEM_TYPE_64 := 0x04;
  GRUB_PCI_ADDR_IO_MASK := -4;
  unsigned_long_bits := 64
|}.

Section PciBar.

Context (P : platform) (B : pci_bar_platform).

(** An integer converted to unsigned long. *)
Definition to_unsigned_long (v : Z) : Z := v mod 2 ^ unsigned_long_bits B.

(* pci_bar: the device is passed by address and read as *dev; reg + 4 is
   unsigned int arithmetic.  low and high are grub_uint32_t; the result is
   an unsigned long.  sizeof (unsigned long) > sizeof (grub_uint32_t) is
   decided by the build. *)
Definition pci_bar (dev : grub_pci_device_t) (reg : Z) : M Z :=
  let* low := pci_config_read P dev reg in
  if Z.land low (Z.lor (GRUB_PCI_ADDR_SPACE_IO B) (GRUB_PCI_ADDR_MEM_TYPE_MASK P))
     =? GRUB_PCI_ADDR_MEM_TYPE_64 B
  then
    let* high := pci_config_read P dev ((reg + 4) mod 2 ^ 32) in
    if negb (high =? 0) then
      if 32 <? unsigned_long_bits B then
        ret (to_unsigned_long (Z.lor (Z.shiftl high 32) low))
      else
        (* unhandled 64-bit BAR *)
        ret (to_unsigned_long (GRUB_PCI_ADDR_MEM_TYPE_64 B))
    else ret (to_unsigned_long low)
  else ret (to_unsigned_long low).

(* pci_bar_start: in bar & ~MASK the complement is computed on the constant
   and converted to unsigned long before the conjunction. *)
Definition pci_bar_start (dev : grub_pci_device_t) (reg : Z) : M Z :=
  let* bar := pci_bar dev reg in
  if negb (Z.land bar (GRUB_PCI_ADDR_SPACE_IO B) =? 0) then
    ret (Z.land bar (to_unsigned_long (Z.lnot (GRUB_PCI_ADDR_IO_MASK B))))
  else
    ret (Z.land bar (to_unsigned_long (Z.lnot (GRUB_PCI_ADDR_MEM_MASK P)))).

End PciBar.

(** ** Further observations *)

(** The events of a driver that only looks at the device and waits. *)
Definition is_load_or_sleep (e : event) : bool :=
  match e with
  | EvLoad _ _ | EvSleep _ => true
  | _ => false
  end.

(** The allocator hands out memory that is not in use: the addresses of
    the coming allocations are distinct, none is NULL and none holds a live
    object. *)
Definition allocator_fresh (w : world) : Prop :=
  List.NoDup (map fst (allocator w))
  /\ List.Forall (fun a => fst a <> 0 /\ heap w !! fst a = None) (allocator w).

(** ** Bounded polls

    A poll loop reads a register until a condition on its value holds or
    the clock has passed a deadline.  What a run polled is read off the
    events it performed. *)








(** * Properties *)

(** ** Byte strings *)

Lemma le_bytes_length (n : nat) (x : Z) : length (le_bytes n x) = n.
Proof.
  revert x. induction n as [|n IH]; intros x; simpl; [reflexivity|].
  now rewrite IH.
Qed.

Lemma le_bytes_is_byte (n : nat) (x : Z) : Forall is_byte (le_bytes n x).
Proof.
  revert x. induction n as [|n IH]; intros x; simpl; constructor.
  - unfold is_byte. apply Z.mod_pos_bound. lia.
  - apply IH.
Qed.

Lemma bytes_at_length (f : Z -> Z) (a : Z) (n : nat) : length (bytes_at f a n) = n.
Proof.
  revert a. induction n as [|n IH]; intros a; simpl; [reflexivity|].
  now rewrite IH.
Qed.

Lemma bytes_at_is_byte (f : Z -> Z) (a : Z) (n : nat) : Forall is_byte (bytes_at f a n).
Proof.
  revert a. induction n as [|n IH]; intros a; simpl; constructor.
  - unfold is_byte. apply Z.mod_pos_bound. lia.
  - apply IH.
Qed.

(** Decoding then encoding a string of bytes gives the string back. *)
Lemma le_bytes_le_value (bs : list Z) :
  Forall is_byte bs -> le_bytes (length bs) (le_value bs) = bs.
Proof.
  induction 1 as [|b bs Hb _ IH]; simpl; [reflexivity|].
  unfold is_byte in Hb.
  replace ((b + 256 * le_value bs) mod 256) with b
    by (symmetry; rewrite (Z.mul_comm 256), Z_mod_plus_full;
        apply Z.mod_small; lia).
  replace ((b + 256 * le_value bs) / 256) with (le_value bs)
    by (symmetry; rewrite (Z.mul_comm 256), Z.div_add by lia;
        rewrite (Z.div_small b 256) by lia; lia).
  now rewrite IH.
Qed.

Lemma Forall_is_byte_rev (bs : list Z) : Forall is_byte bs -> Forall is_byte (rev bs).
Proof. apply List.Forall_rev. Qed.

(** Swapping the bytes of what a big-endian CPU loaded yields the
    little-endian reading of the same bytes. *)
Lemma grub_swap_bytes_rev (bs : list Z) :
  Forall is_byte bs ->
  grub_swap_bytes (length bs) (le_value (rev bs)) = le_value bs.
Proof.
  intros H. unfold grub_swap_bytes.
  rewrite <- (length_rev bs).
  rewrite le_bytes_le_value by now apply Forall_is_byte_rev.
  now rewrite rev_involutive.
Qed.

(** A big-endian CPU that stores the swapped integer leaves the
    little-endian bytes of the integer in memory. *)
Lemma rev_le_bytes_swap (n : nat) (v : Z) :
  rev (le_bytes n (grub_swap_bytes n v)) = le_bytes n v.
Proof.
  unfold grub_swap_bytes.
  rewrite <- (le_bytes_length n v) at 1.
  rewrite <- length_rev.
  rewrite le_bytes_le_value by (apply Forall_is_byte_rev, le_bytes_is_byte).
  apply rev_involutive.
Qed.

Lemma host_value_le_to_cpu32 (P : platform) (f : Z -> Z) (a : Z) :
  grub_le_to_cpu32 P (host_value P (bytes_at f a 4)) = le_value (bytes_at f a 4).
Proof.
  unfold grub_le_to_cpu32, host_value.
  destruct (host_big_endian P); [|reflexivity].
  rewrite <- (bytes_at_length f a 4) at 1.
  apply grub_swap_bytes_rev, bytes_at_is_byte.
Qed.

Lemma host_value_le_to_cpu16 (P : platform) (f : Z -> Z) (a : Z) :
  grub_le_to_cpu16 P (host_value P (bytes_at f a 2)) = le_value (bytes_at f a 2).
Proof.
  unfold grub_le_to_cpu16, host_value.
  destruct (host_big_endian P); [|reflexivity].
  rewrite <- (bytes_at_length f a 2) at 1.
  apply grub_swap_bytes_rev, bytes_at_is_byte.
Qed.

Lemma host_value_byte (P : platform) (f : Z -> Z) (a : Z) :
  host_value P (bytes_at f a 1) = le_value (bytes_at f a 1).
Proof. unfold host_value. now destruct (host_big_endian P). Qed.

Lemma host_bytes_cpu_to_le32 (P : platform) (v : Z) :
  host_bytes P 4 (grub_cpu_to_le32 P v) = le_bytes 4 v.
Proof.
  unfold host_bytes, grub_cpu_to_le32.
  destruct (host_big_endian P); [|reflexivity].
  apply rev_le_bytes_swap.
Qed.

Lemma host_bytes_cpu_to_le16 (P : platform) (v : Z) :
  host_bytes P 2 (grub_cpu_to_le16 P v) = le_bytes 2 v.
Proof.
  unfold host_bytes, grub_cpu_to_le16.
  destruct (host_big_endian P); [|reflexivity].
  apply rev_le_bytes_swap.
Qed.

Lemma host_bytes_byte (P : platform) (v : Z) : host_bytes P 1 v = le_bytes 1 v.
Proof. unfold host_bytes. now destruct (host_big_endian P). Qed.

(** Encoding then decoding keeps the low [n] bytes of the integer. *)
Lemma le_value_le_bytes (n : nat) (x : Z) :
  le_value (le_bytes n x) = x mod 256 ^ Z.of_nat n.
Proof.
  revert x. induction n as [|n IH]; intros x.
  - simpl. now rewrite Z.mod_1_r.
  - cbn [le_bytes le_value]. rewrite IH.
    rewrite Nat2Z.inj_succ, Z.pow_succ_r by lia.
    rewrite Z.rem_mul_r by lia. reflexivity.
Qed.

Lemma write_bytes_below (f : Z -> Z) (a : Z) (bs : list Z) (a' : Z) :
  a' < a -> write_bytes f a bs a' = f a'.
Proof.
  revert f a. induction bs as [|b bs IH]; intros f a Hlt; [reflexivity|].
  cbn [write_bytes]. rewrite IH by lia.
  replace (a' =? a) with false by (symmetry; apply Z.eqb_neq; lia).
  reflexivity.
Qed.

(** A store is found again by a load of the same width at the same
    address. *)
Lemma bytes_at_write_bytes (f : Z -> Z) (a : Z) (bs : list Z) :
  Forall is_byte bs -> bytes_at (write_bytes f a bs) a (length bs) = bs.
Proof.
  intros Hbs. revert f a.
  induction Hbs as [|b bs Hb _ IH]; intros f a; [reflexivity|].
  cbn [write_bytes length bytes_at]. rewrite IH. f_equal.
  rewrite write_bytes_below by lia. rewrite Z.eqb_refl.
  apply Z.mod_small. exact Hb.
Qed.

(** ** Register access *)

Lemma mmio_read8_spec (P : platform) (addr : Z) (w : world) :
  mmio_read8 P addr w
  = Some (le_value (bytes_at (mmio w) addr 1),
          set_trace (trace w ++ [EvLoad addr 1]) w).
Proof.
  unfold mmio_read8, volatile_load. now rewrite host_value_byte.
Qed.

Lemma mmio_read16_spec (P : platform) (addr : Z) (w : world) :
  mmio_read16 P addr w
  = Some (le_value (bytes_at (mmio w) addr 2),
          set_trace (trace w ++ [EvLoad addr 2]) w).
Proof.
  unfold mmio_read16, bind, volatile_load, ret.
  now rewrite host_value_le_to_cpu16.
Qed.

Lemma mmio_read32_spec (P : platform) (addr : Z) (w : world) :
  mmio_read32 P addr w
  = Some (reg32 w addr, set_trace (trace w ++ [EvLoad addr 4]) w).
Proof.
  unfold mmio_read32, bind, volatile_load, ret, reg32.
  now rewrite host_value_le_to_cpu32.
Qed.

Lemma mmio_write8_spec (P : platform) (addr val : Z) (w : world) :
  mmio_write8 P addr val w
  = Some (tt, set_trace (trace w ++ [EvStore addr (le_bytes 1 val)])
                (set_mmio (write_bytes (mmio w) addr (le_bytes 1 val)) w)).
Proof.
  unfold mmio_write8, volatile_store. now rewrite host_bytes_byte.
Qed.

Lemma mmio_write16_spec (P : platform) (addr val : Z) (w : world) :
  mmio_write16 P addr val w
  = Some (tt, set_trace (trace w ++ [EvStore addr (le_bytes 2 val)])
                (set_mmio (write_bytes (mmio w) addr (le_bytes 2 val)) w)).
Proof.
  unfold mmio_write16, volatile_store. now rewrite host_bytes_cpu_to_le16.
Qed.

Lemma mmio_write32_spec (P : platform) (addr val : Z) (w : world) :
  mmio_write32 P addr val w
  = Some (tt, set_trace (trace w ++ [EvStore addr (le_bytes 4 val)])
                (set_mmio (write_bytes (mmio w) addr (le_bytes 4 val)) w)).
Proof.
  unfold mmio_write32, volatile_store. now rewrite host_bytes_cpu_to_le32.
Qed.

(** C7: for every register block, offset and value, each read accessor
    (mmio_read8, mmio_read16, mmio_read32) performs exactly one volatile
    load at base(block) + offset and returns the number the little-endian
    bytes found there denote, whatever the byte order of the CPU; each
    write accessor (mmio_write8, mmio_write16, mmio_write32) performs
    exactly one volatile store at base(block) + offset of the little-endian
    bytes of the value; nothing but the trace (and, for a write, the device
    bytes) differs afterwards, so no accessor keeps a copy in driver
    memory. *)
Theorem mmio_accessors_single_access
    (P : platform) (x : grub_xhci) (b : reg_block) (off val : Z) (w : world) :
  let addr := block_base x b + off in
  mmio_read8 P addr w
    = Some (le_value (bytes_at (mmio w) addr 1),
            set_trace (trace w ++ [EvLoad addr 1]) w)
  /\ mmio_read16 P addr w
    = Some (le_value (bytes_at (mmio w) addr 2),
            set_trace (trace w ++ [EvLoad addr 2]) w)
  /\ mmio_read32 P addr w
    = Some (le_value (bytes_at (mmio w) addr 4),
            set_trace (trace w ++ [EvLoad addr 4]) w)
  /\ mmio_write8 P addr val w
    = Some (tt, set_trace (trace w ++ [EvStore addr (le_bytes 1 val)])
                  (set_mmio (write_bytes (mmio w) addr (le_bytes 1 val)) w))
  /\ mmio_write16 P addr val w
    = Some (tt, set_trace (trace w ++ [EvStore addr (le_bytes 2 val)])
                  (set_mmio (write_bytes (mmio w) addr (le_bytes 2 val)) w))
  /\ mmio_write32 P addr val w
    = Some (tt, set_trace (trace w ++ [EvStore addr (le_bytes 4 val)])
                  (set_mmio (write_bytes (mmio w) addr (le_bytes 4 val)) w)).
Proof.
  intros addr. repeat split.
  - apply mmio_read8_spec.
  - apply mmio_read16_spec.
  - apply mmio_read32_spec.
  - apply mmio_write8_spec.
  - apply mmio_write16_spec.
  - apply mmio_write32_spec.
Qed.

(** A register the device changed between two reads is read anew: the
    second read returns the new contents. *)
Lemma mmio_read32_rereads (P : platform) (addr : Z) (dev' : Z -> Z) (w : world) :
  (let* _ := mmio_read32 P addr in
   let* _ := (fun w1 => Some (tt, set_mmio dev' w1)) in
   mmio_read32 P addr) w
  = Some (le_value (bytes_at dev' addr 4),
          set_trace (trace w ++ [EvLoad addr 4; EvLoad addr 4]) (set_mmio dev' w)).
Proof.
  unfold bind at 1. rewrite mmio_read32_spec.
  unfold bind. rewrite mmio_read32_spec. unfold reg32. simpl.
  unfold set_trace, set_mmio; simpl. now rewrite <- app_assoc.
Qed.

(** What mmio_write32 stored is what mmio_read32 returns next: the value
    modulo 2^32, in either byte order of the CPU. *)
Lemma mmio_write32_read32 (P : platform) (addr val : Z) (w : world) :
  exists w',
    (let* _ := mmio_write32 P addr val in mmio_read32 P addr) w
    = Some (val mod 2 ^ 32, w').
Proof.
  unfold bind. rewrite mmio_write32_spec, mmio_read32_spec.
  eexists. f_equal. f_equal.
  unfold reg32. cbn [mmio set_mmio set_trace].
  rewrite <- (le_bytes_length 4 val) at 2.
  rewrite bytes_at_write_bytes by apply le_bytes_is_byte.
  rewrite le_value_le_bytes. reflexivity.
Qed.

(** The one accessor that takes an offset rounds it down to a dword:
    grub_xhci_cap_read32 loads at cap + 4 * (off / 4). *)
Lemma grub_xhci_cap_read32_spec (P : platform) (xhci off : Z) (x : grub_xhci) (w : world) :
  heap w !! xhci = Some x ->
  grub_xhci_cap_read32 P xhci off w
  = Some (reg32 w (cap x + 4 * (off / 4)),
          set_trace (trace w ++ [EvLoad (cap x + 4 * (off / 4)) 4]) w).
Proof.
  intros H. unfold grub_xhci_cap_read32, bind, get_xhci. rewrite H.
  unfold volatile_load, ret, reg32. now rewrite host_value_le_to_cpu32.
Qed.

(** ** Port register sets *)

Lemma portrs_offset_arith (port : Z) :
  1 <= port <= 255 ->
  (0x10 * ((port - 1) mod 2 ^ 32)) mod 2 ^ 32 = 0x10 * (port - 1).
Proof.
  intros H.
  rewrite (Z.mod_small (port - 1)) by lia.
  apply Z.mod_small. lia.
Qed.

Lemma get_xhci_some (xhci : Z) (x : grub_xhci) (w : world) :
  heap w !! xhci = Some x -> get_xhci xhci w = Some (x, w).
Proof. intros H. unfold get_xhci. now rewrite H. Qed.

Lemma update_xhci_some (xhci : Z) (f : grub_xhci -> grub_xhci) (x : grub_xhci) (w : world) :
  heap w !! xhci = Some x ->
  update_xhci xhci f w = Some (tt, set_heap (<[xhci := f x]> (heap w)) w).
Proof. intros H. unfold update_xhci. now rewrite H. Qed.

Lemma xhci_read_portrs_too_big
    (P : platform) (xhci port : Z) (type : xhci_portrs_type)
    (x : grub_xhci) (w : world) :
  heap w !! xhci = Some x ->
  max_ports x < port ->
  xhci_read_portrs P xhci port type w = Some (0xffffffff, w).
Proof.
  intros Hx Hbig. unfold xhci_read_portrs, bind. rewrite (get_xhci_some _ _ _ Hx).
  apply Z.ltb_lt in Hbig. now rewrite Hbig.
Qed.

Lemma xhci_read_portrs_in_range
    (P : platform) (xhci port : Z) (type : xhci_portrs_type)
    (x : grub_xhci) (w : world) :
  heap w !! xhci = Some x ->
  0 <= max_ports x <= 255 ->
  1 <= port <= max_ports x ->
  xhci_read_portrs P xhci port type w
  = Some (reg32 w (oper_regs x + 0x400 + 0x10 * (port - 1) + portrs_offset type),
          set_trace
            (trace w ++
             [EvLoad (oper_regs x + 0x400 + 0x10 * (port - 1) + portrs_offset type) 4])
            w).
Proof.
  intros Hx Hmax Hin. unfold xhci_read_portrs, bind. rewrite (get_xhci_some _ _ _ Hx).
  replace (max_ports x <? port) with false by (symmetry; apply Z.ltb_ge; lia).
  rewrite portrs_offset_arith by lia.
  apply mmio_read32_spec.
Qed.

(** C10: for every port number strictly greater than max_ports,
    xhci_read_portrs (any register type) performs no memory-mapped access
    and returns 0xFFFFFFFF; for every port in [1, max_ports] it returns the
    32-bit register at operational base + 0x400 + 0x10 * (port - 1) + type
    offset, read with one load. *)
Theorem xhci_read_portrs_spec
    (P : platform) (xhci port : Z) (type : xhci_portrs_type)
    (x : grub_xhci) (w : world) :
  heap w !! xhci = Some x ->
  0 <= max_ports x <= 255 ->
  (max_ports x < port ->
   xhci_read_portrs P xhci port type w = Some (0xffffffff, w))
  /\ (1 <= port <= max_ports x ->
      let addr := oper_regs x + 0x400 + 0x10 * (port - 1) + portrs_offset type in
      xhci_read_portrs P xhci port type w
      = Some (reg32 w addr, set_trace (trace w ++ [EvLoad addr 4]) w)).
Proof.
  intros Hx Hmax. split.
  - now apply xhci_read_portrs_too_big.
  - intros Hin. now apply xhci_read_portrs_in_range.
Qed.

Lemma xhci_read_portrs_spec_witness :
  let w := sample_world 1 0 0x2a0 0x101 in
  xhci_read_portrs i386_pc sample_ptr 5 PORTHLPMC w = Some (0xffffffff, w)
  /\ xhci_read_portrs i386_pc sample_ptr 2 PORTSC w
     = Some (0x101, set_trace [EvLoad (sample_base + 0x430) 4] w).
Proof.
  intros w. split.
  - apply (proj1 (xhci_read_portrs_spec i386_pc sample_ptr 5 PORTHLPMC
                    sample_xhci w eq_refl ltac:(simpl; lia))).
    simpl; lia.
  - apply (proj2 (xhci_read_portrs_spec i386_pc sample_ptr 2 PORTSC
                    sample_xhci w eq_refl ltac:(simpl; lia))).
    simpl; lia.
Defined.

(** ** Attach *)

Lemma set_trace_set_trace (t1 t2 : list event) (w : world) :
  set_trace t2 (set_trace t1 w) = set_trace t2 w.
Proof. reflexivity. Qed.

Lemma trace_set_trace (t : list event) (w : world) : trace (set_trace t w) = t.
Proof. reflexivity. Qed.

Lemma pci_reg32_set_trace (t : list event) (w : world) (a : Z) :
  pci_reg32 (set_trace t w) a = pci_reg32 w a.
Proof. reflexivity. Qed.

Lemma grub_pci_read_spec (addr : Z) (w : world) :
  grub_pci_read addr w
  = Some (pci_reg32 w addr, set_trace (trace w ++ [EvPciRead addr 4]) w).
Proof. reflexivity. Qed.

(** C9: for every discovered device whose register base lies above the
    4 GiB boundary (BAR type not 32-bit and high dword nonzero) or whose
    base address is zero, grub_xhci_pci_iter returns 0 before any
    controller instance is created or registered: nothing but
    configuration-space reads has happened, so xhci_list is unchanged and
    no memory has been allocated. *)
Theorem pci_iter_unsupported_base_aborts
    (P : platform) (dev : grub_pci_device_t) (pciid : Z) (w : world) :
  let base := pci_reg32 w (grub_pci_make_address P dev (GRUB_PCI_REG_ADDRESS_REG0 P)) in
  let base_h := pci_reg32 w (grub_pci_make_address P dev (GRUB_PCI_REG_ADDRESS_REG1 P)) in
  (Z.land base (GRUB_PCI_ADDR_MEM_TYPE_MASK P) <> GRUB_PCI_ADDR_MEM_TYPE_32 P
   /\ base_h <> 0)
  \/ Z.land base (GRUB_PCI_ADDR_MEM_MASK P) = 0 ->
  exists (t : list event) (w' : world),
    grub_xhci_pci_iter P dev pciid w = Some (0, w')
    /\ w' = set_trace (trace w ++ t) w
    /\ forallb is_pci_read t = true
    /\ xhci_list w' = xhci_list w
    /\ heap w' = heap w
    /\ allocator w' = allocator w.
Proof.
  intros base base_h Hbad.
  unfold grub_xhci_pci_iter, pci_config_read, bind.
  rewrite grub_pci_read_spec.
  destruct (negb (_ =? 0x0c0330)).
  { eexists [_], _. repeat split. }
  rewrite grub_pci_read_spec, grub_pci_read_spec.
  rewrite !pci_reg32_set_trace, !trace_set_trace, !set_trace_set_trace.
  fold base. fold base_h.
  destruct (negb (Z.land base (GRUB_PCI_ADDR_MEM_TYPE_MASK P)
                  =? GRUB_PCI_ADDR_MEM_TYPE_32 P)
            && negb (base_h =? 0)) eqn:Habove.
  { eexists [_; _; _], _. rewrite <- !app_assoc. repeat split. }
  destruct Hbad as [[Htype Hhigh] | Hzero].
  - apply Z.eqb_neq in Htype. apply Z.eqb_neq in Hhigh.
    rewrite Htype, Hhigh in Habove. discriminate.
  - rewrite Hzero. cbn [Z.eqb].
    eexists [_; _; _], _. rewrite <- !app_assoc. repeat split.
Qed.

Lemma pci_iter_unsupported_base_aborts_witness :
  (exists w', grub_xhci_pci_iter i386_pc sample_pci_device 0 (sample_probe 0xfe000004 0x1)
              = Some (0, w')
              /\ xhci_list w' = 0 /\ heap w' = ∅
              /\ allocator w' = [(sample_ptr, zeroed_xhci)])
  /\ (exists w', grub_xhci_pci_iter i386_pc sample_pci_device 0 (sample_probe 0x0 0x0)
                 = Some (0, w')
                 /\ xhci_list w' = 0 /\ heap w' = ∅
                 /\ allocator w' = [(sample_ptr, zeroed_xhci)]).
Proof.
  split.
  - destruct (pci_iter_unsupported_base_aborts i386_pc sample_pci_device 0
                (sample_probe 0xfe000004 0x1))
      as (t & w' & Hrun & _ & _ & Hlist & Hheap & Halloc).
    + left. vm_compute. split; discriminate.
    + exists w'. repeat split; assumption.
  - destruct (pci_iter_unsupported_base_aborts i386_pc sample_pci_device 0
                (sample_probe 0x0 0x0))
      as (t & w' & Hrun & _ & _ & Hlist & Hheap & Halloc).
    + right. vm_compute. reflexivity.
    + exists w'. repeat split; assumption.
Defined.

(** ** Controller life cycle *)

Lemma grub_xhci_halt_spec (xhci : Z) (w : world) :
  grub_xhci_halt xhci w = Some (GRUB_USB_ERR_NONE, w).
Proof. reflexivity. Qed.

Lemma grub_xhci_reset_spec (xhci : Z) (w : world) :
  grub_xhci_reset xhci w = Some (GRUB_USB_ERR_NONE, w).
Proof. reflexivity. Qed.

Lemma grub_xhci_portstatus_spec (dev port enable : Z) (w : world) :
  grub_xhci_portstatus dev port enable w = Some (GRUB_USB_ERR_NONE, w).
Proof. reflexivity. Qed.

Lemma grub_xhci_check_transfer_spec (dev transfer actual : Z) (w : world) :
  grub_xhci_check_transfer dev transfer actual w = Some (GRUB_USB_ERR_NONE, w).
Proof. reflexivity. Qed.

(** C1, where the code departs from it: grub_xhci_halt returns success
    without a register access whether or not USBSTS.HCH is set.  On a
    controller whose halted bit is clear it neither clears the run/stop bit
    nor polls the halted bit: the machine is left as it was, USBCMD.RUNSTOP
    included, and no timeout can be reported. *)
Theorem grub_xhci_halt_leaves_controller_running
    (xhci : Z) (x : grub_xhci) (w : world) :
  heap w !! xhci = Some x ->
  Z.land (usbsts x w) GRUB_XHCI_USBSTS_HCH = 0 ->
  exists w',
    grub_xhci_halt xhci w = Some (GRUB_USB_ERR_NONE, w')
    /\ trace w' = trace w
    /\ usbcmd x w' = usbcmd x w
    /\ Z.land (usbsts x w') GRUB_XHCI_USBSTS_HCH = 0.
Proof.
  intros _ Hrun. exists w. rewrite grub_xhci_halt_spec. auto.
Qed.

Lemma grub_xhci_halt_leaves_controller_running_witness :
  let w := sample_world 1 0 0 0 in
  exists w',
    grub_xhci_halt sample_ptr w = Some (GRUB_USB_ERR_NONE, w')
    /\ trace w' = []
    /\ usbcmd sample_xhci w' = GRUB_XHCI_OPER_USBCMD_RUNSTOP
    /\ Z.land (usbsts sample_xhci w') GRUB_XHCI_USBSTS_HCH = 0.
Proof.
  intros w.
  destruct (grub_xhci_halt_leaves_controller_running sample_ptr sample_xhci w
              eq_refl eq_refl)
    as (w' & Hrun & Htrace & Hcmd & Hsts).
  exists w'. split; [exact Hrun|]. split; [exact Htrace|].
  split; [rewrite Hcmd; reflexivity | exact Hsts].
Defined.

(** The part of C1 that holds: on a halted controller grub_xhci_halt is a
    no-op that returns success; it performs no register write. *)
Lemma grub_xhci_halt_already_halted (xhci : Z) (x : grub_xhci) (w : world) :
  heap w !! xhci = Some x ->
  Z.land (usbsts x w) GRUB_XHCI_USBSTS_HCH <> 0 ->
  grub_xhci_halt xhci w = Some (GRUB_USB_ERR_NONE, w).
Proof. intros _ _. apply grub_xhci_halt_spec. Qed.

(** C5, where the code departs from it: grub_xhci_check_transfer reads
    neither USBSTS nor any ring entry.  With the halted-status bit set it
    returns GRUB_USB_ERR_NONE, the value that reports a completed transfer,
    and not an error. *)
Theorem grub_xhci_check_transfer_halted_controller
    (dev transfer actual : Z) (x : grub_xhci) (w : world) :
  heap w !! dev = Some x ->
  Z.land (usbsts x w) GRUB_XHCI_USBSTS_HCH <> 0 ->
  grub_xhci_check_transfer dev transfer actual w = Some (GRUB_USB_ERR_NONE, w).
Proof. intros _ _. apply grub_xhci_check_transfer_spec. Qed.

Lemma grub_xhci_check_transfer_halted_controller_witness :
  let w := sample_world 0 1 0 0 in
  Z.land (usbsts sample_xhci w) GRUB_XHCI_USBSTS_HCH = 1
  /\ grub_xhci_check_transfer sample_ptr 0 0 w = Some (GRUB_USB_ERR_NONE, w).
Proof.
  intros w. split; [reflexivity|].
  apply (grub_xhci_check_transfer_halted_controller sample_ptr 0 0 sample_xhci w
           eq_refl).
  vm_compute. discriminate.
Defined.

(** ** Ports *)

(** C3, where the code departs from it: grub_xhci_portstatus with enable
    set returns success without touching the port.  For a port whose
    PORTSC shows it neither enabled nor owned by a companion controller,
    the read that follows the reported success returns PORTSC as it was:
    the port is still not enabled, ownership has not been ceded, and a
    reset bit that was set is still set. *)
Theorem grub_xhci_portstatus_leaves_port_untouched
    (P : platform) (dev port : Z) (x : grub_xhci) (w : world) :
  heap w !! dev = Some x ->
  0 <= max_ports x <= 255 ->
  1 <= port <= max_ports x ->
  Z.land (portsc x port w)
    (Z.lor GRUB_XHCI_PORTSC_PED (Z.lor GRUB_XHCI_PORT_ENABLED GRUB_XHCI_PORT_OWNER)) = 0 ->
  exists v w',
    (let* e := grub_xhci_portstatus dev port 1 in
     let* v := xhci_read_portrs P dev port PORTSC in
     ret (e, v)) w = Some ((GRUB_USB_ERR_NONE, v), w')
    /\ v = portsc x port w
    /\ Z.land v (Z.lor GRUB_XHCI_PORTSC_PED
                   (Z.lor GRUB_XHCI_PORT_ENABLED GRUB_XHCI_PORT_OWNER)) = 0
    /\ Z.land v GRUB_XHCI_PORT_RESET = Z.land (portsc x port w) GRUB_XHCI_PORT_RESET
    /\ mmio w' = mmio w
    /\ trace w' = trace w ++ [EvLoad (oper_regs x + 0x400 + 0x10 * (port - 1)) 4].
Proof.
  intros Hx Hmax Hin Hrest.
  unfold bind. rewrite grub_xhci_portstatus_spec.
  rewrite (xhci_read_portrs_in_range P dev port PORTSC x w Hx Hmax Hin).
  eexists _, _. split; [reflexivity|]. fold (portsc x port w).
  cbn [portrs_offset mmio trace set_trace]. rewrite Z.add_0_r. auto.
Qed.

Lemma grub_xhci_portstatus_leaves_port_untouched_witness :
  (exists w',
     (let* e := grub_xhci_portstatus sample_ptr 1 1 in
      let* v := xhci_read_portrs i386_pc sample_ptr 1 PORTSC in
      ret (e, v)) (sample_world 1 0 0x101 0) = Some ((GRUB_USB_ERR_NONE, 0x101), w'))
  /\ Z.land 0x101 GRUB_XHCI_PORT_RESET = GRUB_XHCI_PORT_RESET
  /\ exists w',
       (let* e := grub_xhci_portstatus sample_ptr 2 1 in
        let* v := xhci_read_portrs i386_pc sample_ptr 2 PORTSC in
        ret (e, v)) (sample_world 1 0 0 0x1) = Some ((GRUB_USB_ERR_NONE, 0x1), w').
Proof.
  split; [|split; [reflexivity|]].
  - destruct (grub_xhci_portstatus_leaves_port_untouched i386_pc sample_ptr 1
                sample_xhci (sample_world 1 0 0x101 0) eq_refl)
      as (v & w' & Hrun & Hv & _).
    + simpl; lia.
    + simpl; lia.
    + reflexivity.
    + exists w'. rewrite Hrun, Hv. reflexivity.
  - destruct (grub_xhci_portstatus_leaves_port_untouched i386_pc sample_ptr 2
                sample_xhci (sample_world 1 0 0 0x1) eq_refl)
      as (v & w' & Hrun & Hv & _).
    + simpl; lia.
    + simpl; lia.
    + reflexivity.
    + exists w'. rewrite Hrun, Hv. reflexivity.
Defined.

(** What grub_xhci_detect_dev does when its static [state] is 0, the value
    it has when the module is loaded: two reads of PORTSC, a sleep of one
    second, and the answer "super speed, changed", whatever was read. *)
Lemma grub_xhci_detect_dev_state0
    (P : platform) (dev port changed : Z) (x : grub_xhci) (w : world) :
  heap w !! dev = Some x ->
  0 <= max_ports x <= 255 ->
  1 <= port <= max_ports x ->
  detect_dev_state w = 0 ->
  grub_xhci_detect_dev P dev port changed w
  = Some ((GRUB_USB_SPEED_SUPER, 1),
          set_detect_dev_state 0
            (set_trace
               (trace w ++
                [EvLoad (oper_regs x + 0x400 + 0x10 * (port - 1)) 4;
                 EvLoad (oper_regs x + 0x400 + 0x10 * (port - 1)) 4;
                 EvSleep 1000])
               (set_now_ms (now_ms w + 1000) w))).
Proof.
  intros Hx Hmax Hin Hstate.
  unfold grub_xhci_detect_dev, bind. cbv zeta.
  rewrite (Z.mod_small port) by lia.
  rewrite (xhci_read_portrs_in_range P dev port PORTSC x w Hx Hmax Hin).
  rewrite (xhci_read_portrs_in_range P dev port PORTSC x (set_trace _ w) Hx Hmax Hin).
  unfold grub_millisleep, get_detect_dev_state, put_detect_dev_state, ret.
  cbn [detect_dev_state set_now_ms set_trace trace now_ms portrs_offset].
  rewrite Hstate. cbn [Z.eqb].
  unfold set_detect_dev_state, set_trace, set_now_ms. cbn.
  rewrite !Z.add_0_r, <- !app_assoc. reflexivity.
Qed.

(** The static [state] never leaves 0: every answer of a loaded module is
    the one above. *)
Lemma grub_xhci_detect_dev_keeps_state0
    (P : platform) (dev port changed : Z) (w w' : world) (r : grub_usb_speed_t * Z) :
  detect_dev_state w = 0 ->
  grub_xhci_detect_dev P dev port changed w = Some (r, w') ->
  detect_dev_state w' = 0 /\ r = (GRUB_USB_SPEED_SUPER, 1).
Proof.
  intros Hstate. unfold grub_xhci_detect_dev, bind. cbv zeta.
  destruct (xhci_read_portrs P dev (port mod 2 ^ 32) PORTSC w) as [[v1 w1]|] eqn:H1;
    [|discriminate].
  destruct (xhci_read_portrs P dev (port mod 2 ^ 32) PORTSC w1) as [[v2 w2]|] eqn:H2;
    [|discriminate].
  assert (Hs : forall v u u', xhci_read_portrs P dev (port mod 2 ^ 32) PORTSC u
                              = Some (v, u') -> detect_dev_state u' = detect_dev_state u).
  { intros v u u'. unfold xhci_read_portrs, bind, get_xhci.
    destruct (heap u !! dev); [|discriminate].
    destruct (_ <? _).
    - unfold ret. now intros [= _ <-].
    - rewrite mmio_read32_spec. now intros [= _ <-]. }
  apply Hs in H1. apply Hs in H2.
  unfold grub_millisleep, get_detect_dev_state, put_detect_dev_state, ret.
  cbn [detect_dev_state set_now_ms set_trace].
  rewrite H2, H1, Hstate. cbn [Z.eqb].
  intros [= <- <-]. split; reflexivity.
Qed.

(** C2, where the code departs from it: for a port in [1, max_ports]
    whose PORTSC has the current-connect-status bit clear,
    grub_xhci_detect_dev of the loaded module reports
    GRUB_USB_SPEED_SUPER with *changed = 1 (a device, not "disconnected").
    It keeps no per-port reset memory, and nothing in the instance
    changes. *)
Theorem grub_xhci_detect_dev_disconnected_port
    (P : platform) (dev port changed : Z) (x : grub_xhci) (w : world) :
  heap w !! dev = Some x ->
  0 <= max_ports x <= 255 ->
  1 <= port <= max_ports x ->
  detect_dev_state w = 0 ->
  Z.land (portsc x port w) GRUB_XHCI_PORTSC_CCS = 0 ->
  exists w',
    grub_xhci_detect_dev P dev port changed w
    = Some ((GRUB_USB_SPEED_SUPER, 1), w')
    /\ heap w' = heap w
    /\ mmio w' = mmio w
    /\ detect_dev_state w' = 0.
Proof.
  intros Hx Hmax Hin Hstate _.
  rewrite (grub_xhci_detect_dev_state0 P dev port changed x w Hx Hmax Hin Hstate).
  eexists. split; [reflexivity|]. repeat split.
Qed.

Lemma grub_xhci_detect_dev_disconnected_port_witness :
  let w := sample_world 1 0 0x2a0 0x2a0 in
  Z.land (portsc sample_xhci 2 w) GRUB_XHCI_PORTSC_CCS = 0
  /\ exists w',
       grub_xhci_detect_dev i386_pc sample_ptr 2 0 w
       = Some ((GRUB_USB_SPEED_SUPER, 1), w').
Proof.
  intros w. split; [reflexivity|].
  destruct (grub_xhci_detect_dev_disconnected_port i386_pc sample_ptr 2 0
              sample_xhci w eq_refl)
    as (w' & Hrun & _).
  - simpl; lia.
  - simpl; lia.
  - reflexivity.
  - reflexivity.
  - exists w'. exact Hrun.
Defined.

(** ** Attach: what grub_xhci_init computes *)

Ltac heap_lookup :=
  cbn [heap set_heap set_trace];
  rewrite ?lookup_insert_eq;
  first [eassumption | reflexivity].

(* one statement of a function body: run the first bind with [t] *)
Ltac step t := unfold bind at 1; t; cbv beta iota.

Lemma grub_xhci_dump_cap_spec (P : platform) (xhci : Z) (x : grub_xhci) (w : world) :
  heap w !! xhci = Some x ->
  grub_xhci_dump_cap P xhci w
  = Some (0, set_trace
               (trace w ++
                [ EvLoad (cap_regs x + cap_caplength) 1;
                  EvLoad (cap_regs x + cap_hciversion) 2;
                  EvLoad (cap_regs x + cap_hcsparams1) 4;
                  EvLoad (cap_regs x + cap_hcsparams2) 4;
                  EvLoad (cap_regs x + cap_hcsparams3) 4;
                  EvLoad (cap_regs x + cap_hccparams1) 4;
                  EvLoad (cap_regs x + cap_dboff) 4;
                  EvLoad (cap_regs x + cap_rtsoff) 4;
                  EvLoad (cap_regs x + cap_hccparams2) 4 ]) w).
Proof.
  intros Hx. unfold grub_xhci_dump_cap.
  step ltac:(rewrite (get_xhci_some xhci x w Hx)).
  step ltac:(rewrite mmio_read8_spec).
  step ltac:(rewrite mmio_read16_spec).
  do 7 step ltac:(rewrite mmio_read32_spec).
  rewrite !trace_set_trace, !set_trace_set_trace, <- !app_assoc. reflexivity.
Qed.

Lemma grub_xhci_dump_oper_spec (P : platform) (xhci : Z) (x : grub_xhci) (w : world) :
  heap w !! xhci = Some x ->
  grub_xhci_dump_oper P xhci w
  = Some (0, set_trace
               (trace w ++
                [ EvLoad (oper_regs x + oper_usbcmd) 4;
                  EvLoad (oper_regs x + oper_usbsts) 4;
                  EvLoad (oper_regs x + oper_pagesize) 4;
                  EvLoad (oper_regs x + oper_dnctrl) 4;
                  EvLoad (oper_regs x + oper_crcr) 4;
                  EvLoad (oper_regs x + oper_dcbaap) 4;
                  EvLoad (oper_regs x + oper_config) 4 ]) w).
Proof.
  intros Hx. unfold grub_xhci_dump_oper.
  step ltac:(rewrite (get_xhci_some xhci x w Hx)).
  do 7 step ltac:(rewrite mmio_read32_spec).
  rewrite !trace_set_trace, !set_trace_set_trace, <- !app_assoc. reflexivity.
Qed.

Lemma grub_xhci_init_spec (P : platform) (xhci base : Z) (x : grub_xhci) (w : world) :
  heap w !! xhci = Some x ->
  grub_xhci_init P xhci base w
  = Some (0, set_trace
               (trace w ++ init_loads base (oper_regs (located w base x)))
               (set_heap (<[xhci := located w base x]> (heap w)) w)).
Proof.
  intros Hx. unfold grub_xhci_init.
  step ltac:(rewrite (update_xhci_some xhci _ x w Hx)).
  step ltac:(erewrite get_xhci_some by heap_lookup).
  step ltac:(rewrite mmio_read8_spec).
  step ltac:(erewrite update_xhci_some by heap_lookup).
  step ltac:(erewrite get_xhci_some by heap_lookup).
  step ltac:(rewrite mmio_read32_spec).
  step ltac:(erewrite update_xhci_some by heap_lookup).
  step ltac:(erewrite get_xhci_some by heap_lookup).
  step ltac:(rewrite mmio_read32_spec).
  step ltac:(erewrite update_xhci_some by heap_lookup).
  unfold bind at 1. erewrite grub_xhci_dump_cap_spec by heap_lookup.
  unfold bind at 1. erewrite grub_xhci_dump_oper_spec by heap_lookup.
  cbv beta iota. unfold ret.
  unfold init_loads, located.
  cbn [trace heap mmio pci_conf now_ms allocator xhci_list detect_dev_state
       set_heap set_trace cap_regs oper_regs set_cap_regs set_oper_regs
       set_db_regs set_run_regs].
  rewrite ?insert_insert_eq, <- ?app_assoc.
  reflexivity.
Qed.

(** grub_xhci_init only loads: the device window and configuration space
    are as before, and the instance holds the four located blocks. *)
Lemma grub_xhci_init_effect (P : platform) (xhci base : Z) (x : grub_xhci) (w : world) :
  heap w !! xhci = Some x ->
  exists w',
    grub_xhci_init P xhci base w = Some (0, w')
    /\ heap w' !! xhci = Some (located w base x)
    /\ mmio w' = mmio w
    /\ pci_conf w' = pci_conf w
    /\ trace w' = trace w ++ init_loads base (oper_regs (located w base x)).
Proof.
  intros Hx. rewrite (grub_xhci_init_spec P xhci base x w Hx).
  eexists. split; [reflexivity|].
  cbn [heap set_heap set_trace mmio pci_conf trace].
  rewrite lookup_insert_eq. auto.
Qed.

(** C4, where the code departs from it: grub_xhci_init performs no
    ownership handover.  Two runs in a row only load from the device: every
    register of the window (and of configuration space) reads as before, so
    a legacy-support register at [a] that says "BIOS owned, not OS owned"
    says the same after the first and after the second run. *)
Theorem grub_xhci_init_no_ownership_handover
    (P : platform) (xhci base a : Z) (x : grub_xhci) (w : world) :
  heap w !! xhci = Some x ->
  Z.land (reg32 w a) GRUB_XHCI_USBLEGSUP_BIOS_OWNED <> 0 ->
  Z.land (reg32 w a) GRUB_XHCI_USBLEGSUP_OS_OWNED = 0 ->
  exists w1 w2,
    grub_xhci_init P xhci base w = Some (0, w1)
    /\ grub_xhci_init P xhci base w1 = Some (0, w2)
    /\ Z.land (reg32 w1 a) GRUB_XHCI_USBLEGSUP_BIOS_OWNED <> 0
    /\ Z.land (reg32 w1 a) GRUB_XHCI_USBLEGSUP_OS_OWNED = 0
    /\ Z.land (reg32 w2 a) GRUB_XHCI_USBLEGSUP_BIOS_OWNED <> 0
    /\ Z.land (reg32 w2 a) GRUB_XHCI_USBLEGSUP_OS_OWNED = 0
    /\ (forall c, pci_reg32 w2 c = pci_reg32 w c)
    /\ forallb is_store (skipn (length (trace w)) (trace w2)) = false.
Proof.
  intros Hx Hbios Hos.
  destruct (grub_xhci_init_effect P xhci base x w Hx)
    as (w1 & Hrun1 & Hx1 & Hmmio1 & Hpci1 & Htrace1).
  destruct (grub_xhci_init_effect P xhci base _ w1 Hx1)
    as (w2 & Hrun2 & _ & Hmmio2 & Hpci2 & Htrace2).
  exists w1, w2. split; [exact Hrun1|]. split; [exact Hrun2|].
  assert (H1 : reg32 w1 a = reg32 w a) by (unfold reg32; now rewrite Hmmio1).
  assert (H2 : reg32 w2 a = reg32 w a)
    by (unfold reg32; now rewrite Hmmio2, Hmmio1).
  rewrite H1, H2. repeat split; try assumption.
  - intros c. unfold pci_reg32. now rewrite Hpci2, Hpci1.
  - rewrite Htrace2, Htrace1, <- app_assoc, skipn_app, skipn_all, Nat.sub_diag.
    reflexivity.
Qed.

Lemma grub_xhci_init_no_ownership_handover_witness :
  let w := set_heap {[ sample_ptr := zeroed_xhci ]} (sample_world 1 0 0 0) in
  reg32 w (sample_base + 0x80) = 0x00010001
  /\ exists w1 w2,
       grub_xhci_init i386_pc sample_ptr sample_base w = Some (0, w1)
       /\ grub_xhci_init i386_pc sample_ptr sample_base w1 = Some (0, w2)
       /\ Z.land (reg32 w2 (sample_base + 0x80)) GRUB_XHCI_USBLEGSUP_BIOS_OWNED <> 0
       /\ Z.land (reg32 w2 (sample_base + 0x80)) GRUB_XHCI_USBLEGSUP_OS_OWNED = 0.
Proof.
  intros w. split; [reflexivity|].
  destruct (grub_xhci_init_no_ownership_handover i386_pc sample_ptr sample_base
              (sample_base + 0x80) zeroed_xhci w eq_refl)
    as (w1 & w2 & Hrun1 & Hrun2 & _ & _ & Hbios & Hos & _).
  - vm_compute. discriminate.
  - reflexivity.
  - exists w1, w2. auto.
Defined.

(** ** Bounded polls *)



(** ** Attach: the path that registers an instance *)

Lemma grub_xhci_pci_iter_attach
    (P : platform) (dev : grub_pci_device_t) (pciid p : Z) (x : grub_xhci)
    (rest : list (Z * grub_xhci)) (w : world) :
  let base := pci_reg32 w (grub_pci_make_address P dev (GRUB_PCI_REG_ADDRESS_REG0 P)) in
  let base_h := pci_reg32 w (grub_pci_make_address P dev (GRUB_PCI_REG_ADDRESS_REG1 P)) in
  Z.shiftr (pci_reg32 w (grub_pci_make_address P dev (GRUB_PCI_REG_CLASS P))) 8
    = 0x0c0330 ->
  Z.land base (GRUB_PCI_ADDR_MEM_TYPE_MASK P) = GRUB_PCI_ADDR_MEM_TYPE_32 P
    \/ base_h = 0 ->
  Z.land base (GRUB_PCI_ADDR_MEM_MASK P) <> 0 ->
  allocator w = (p, x) :: rest ->
  p <> 0 ->
  grub_xhci_pci_iter P dev pciid w = Some (0, attached P dev p x rest w).
Proof.
  intros base base_h Hclass Hlow Hbase Halloc Hp.
  unfold grub_xhci_pci_iter, pci_config_read.
  unfold bind at 1. rewrite grub_pci_read_spec, Hclass. cbn [Z.eqb Pos.eqb negb].
  unfold bind at 1. rewrite grub_pci_read_spec.
  unfold bind at 1. rewrite grub_pci_read_spec.
  rewrite !pci_reg32_set_trace. fold base. fold base_h.
  replace (negb (Z.land base (GRUB_PCI_ADDR_MEM_TYPE_MASK P)
                 =? GRUB_PCI_ADDR_MEM_TYPE_32 P) && negb (base_h =? 0)) with false.
  2:{ symmetry. destruct Hlow as [-> | ->].
      - now rewrite Z.eqb_refl.
      - now rewrite andb_false_r. }
  apply Z.eqb_neq in Hbase. rewrite Hbase.
  apply Z.eqb_neq in Hp.
  unfold bind at 1. unfold grub_pci_read_word at 1.
  unfold bind at 1. unfold grub_pci_write_word at 1.
  unfold bind at 1. unfold grub_malloc at 1.
  cbn [allocator set_pci_conf set_trace]. rewrite Halloc, Hp.
  unfold bind at 1.
  erewrite grub_xhci_init_spec
    by (cbn [heap set_heap set_allocator]; apply lookup_insert_eq).
  cbn [Z.eqb negb].
  unfold bind at 1. unfold get_xhci_list at 1.
  unfold bind at 1.
  erewrite update_xhci_some
    by (cbn [heap set_heap set_trace]; apply lookup_insert_eq).
  unfold bind at 1. unfold put_xhci_list, ret.
  unfold attached, pci_reg16. cbv zeta.
  cbn [heap set_heap set_trace set_allocator set_pci_conf set_xhci_list trace
       xhci_list pci_conf mmio now_ms allocator detect_dev_state].
  rewrite ?insert_insert_eq, <- ?app_assoc.
  reflexivity.
Qed.

(** The whole attach performs no ownership handover either: the device
    window is as before, and configuration space differs in the command
    register only. *)
Lemma attached_no_ownership_handover
    (P : platform) (dev : grub_pci_device_t) (p : Z) (x : grub_xhci)
    (rest : list (Z * grub_xhci)) (w : world) (a : Z) :
  reg32 (attached P dev p x rest w) a = reg32 w a
  /\ (a + 4 <= grub_pci_make_address P dev (GRUB_PCI_REG_COMMAND P)
      \/ grub_pci_make_address P dev (GRUB_PCI_REG_COMMAND P) + 2 <= a ->
      pci_reg32 (attached P dev p x rest w) a = pci_reg32 w a).
Proof.
  split; [reflexivity|].
  intros Hfar. unfold pci_reg32, attached. cbv zeta.
  cbn [pci_conf set_xhci_list set_heap set_allocator set_pci_conf bytes_at
       le_bytes write_bytes].
  repeat match goal with
         | |- context [?u =? ?v] =>
             replace (u =? v) with false by (symmetry; apply Z.eqb_neq; lia)
         end.
  reflexivity.
Qed.

(** ** The controller registry *)

Lemma chain_functional (h : gmap Z grub_xhci) (p : Z) (l1 l2 : list Z) :
  chain h p l1 -> chain h p l2 -> l1 = l2.
Proof.
  intros H1. revert l2.
  induction H1 as [|p x l Hp Hx _ IH]; intros l2 H2; inversion H2; subst;
    try congruence.
  f_equal. apply IH. congruence.
Qed.

Lemma chain_from_member (h : gmap Z grub_xhci) (p q : Z) (l : list Z) :
  chain h p l -> In q l ->
  exists l', chain h q l' /\ (length l' <= length l)%nat.
Proof.
  induction 1 as [|p x l Hp Hx Hl IH]; intros Hq; [destruct Hq|].
  destruct Hq as [<- | Hq].
  - exists (p :: l). split; [now apply (chain_step h p x)|lia].
  - destruct (IH Hq) as (l' & Hl' & Hlen). exists l'. split; [exact Hl'|].
    simpl. lia.
Qed.

Lemma chain_NoDup (h : gmap Z grub_xhci) (p : Z) (l : list Z) :
  chain h p l -> List.NoDup l.
Proof.
  induction 1 as [|p x l Hp Hx Hl IH]; constructor; [|exact IH].
  intros Hin.
  destruct (chain_from_member h (next x) p l Hl Hin) as (l' & Hl' & Hlen).
  pose proof (chain_functional h p l' (p :: l) Hl'
                (chain_step h p x l Hp Hx Hl)) as ->.
  simpl in Hlen. lia.
Qed.

Lemma chain_live (h : gmap Z grub_xhci) (p q : Z) (l : list Z) :
  chain h p l -> In q l -> is_Some (h !! q).
Proof.
  induction 1 as [|p x l Hp Hx Hl IH]; intros Hq; [destruct Hq|].
  destruct Hq as [<- | Hq]; eauto.
Qed.

(** A chain is no longer than the heap it runs through. *)
Lemma chain_length (h : gmap Z grub_xhci) (p : Z) (l : list Z) :
  chain h p l -> (length l <= size h)%nat.
Proof.
  intros Hl.
  rewrite <- (size_dom (D := gset Z) h).
  rewrite <- (size_list_to_set (C := gset Z) l)
    by (apply NoDup_ListNoDup, (chain_NoDup h p), Hl).
  apply subseteq_size. intros q Hq.
  apply elem_of_list_to_set, list_elem_of_In in Hq.
  apply elem_of_dom. now apply (chain_live h p q l).
Qed.

Lemma restore_hw_loop_returns (fuel : nat) (w : world) (p : Z) (l : list Z) :
  chain (heap w) p l -> (length l <= fuel)%nat ->
  restore_hw_loop fuel p w = Some (tt, w).
Proof.
  intros Hl. revert fuel.
  induction Hl as [|p x l Hp Hx Hl IH]; intros fuel Hfuel.
  - destruct fuel; reflexivity.
  - destruct fuel as [|fuel]; [simpl in Hfuel; lia|].
    simpl. apply Z.eqb_neq in Hp. rewrite Hp.
    unfold bind. cbn [grub_xhci_halt grub_xhci_reset ret usb_err_eqb].
    rewrite (get_xhci_some p x w Hx). apply IH. simpl in Hfuel. lia.
Qed.

Lemma fini_hw_loop_returns (fuel : nat) (w : world) (p : Z) (l : list Z) :
  chain (heap w) p l -> (length l <= fuel)%nat ->
  fini_hw_loop fuel p w = Some (tt, w).
Proof.
  intros Hl. revert fuel.
  induction Hl as [|p x l Hp Hx Hl IH]; intros fuel Hfuel.
  - destruct fuel; reflexivity.
  - destruct fuel as [|fuel]; [simpl in Hfuel; lia|].
    simpl. apply Z.eqb_neq in Hp. rewrite Hp.
    unfold bind. rewrite (get_xhci_some p x w Hx). apply IH. simpl in Hfuel. lia.
Qed.

(** On a well-formed registry the preboot hooks return, and they leave
    the machine as it was. *)
Lemma grub_xhci_restore_hw_returns (w : world) (l : list Z) :
  chain (heap w) (xhci_list w) l ->
  grub_xhci_restore_hw w = Some (GRUB_ERR_NONE, w).
Proof.
  intros Hl. unfold grub_xhci_restore_hw, bind.
  now rewrite (restore_hw_loop_returns _ w _ l Hl (chain_length _ _ _ Hl)).
Qed.

Lemma grub_xhci_fini_hw_returns (noreturn : Z) (w : world) (l : list Z) :
  chain (heap w) (xhci_list w) l ->
  grub_xhci_fini_hw noreturn w = Some (GRUB_ERR_NONE, w).
Proof.
  intros Hl. unfold grub_xhci_fini_hw, bind.
  now rewrite (fini_hw_loop_returns _ w _ l Hl (chain_length _ _ _ Hl)).
Qed.

Lemma chain_insert_fresh (h : gmap Z grub_xhci) (p q : Z) (x : grub_xhci) (l : list Z) :
  h !! p = None -> chain h q l -> chain (<[p := x]> h) q l.
Proof.
  intros Hfresh. induction 1 as [|q y l Hq Hy Hl IH]; [constructor|].
  apply (chain_step _ q y); [exact Hq| |exact IH].
  rewrite lookup_insert_ne; [exact Hy|]. intros ->. congruence.
Qed.

(** A successful attach puts the new instance at the head of the
    registry. *)
Lemma attached_chain (P : platform) (dev : grub_pci_device_t) (p : Z) (x : grub_xhci)
    (rest : list (Z * grub_xhci)) (w : world) (l : list Z) :
  p <> 0 -> heap w !! p = None ->
  chain (heap w) (xhci_list w) l ->
  chain (heap (attached P dev p x rest w)) (xhci_list (attached P dev p x rest w))
    (p :: l).
Proof.
  intros Hp Hfresh Hl. unfold attached. cbv zeta.
  cbn [heap xhci_list set_xhci_list set_heap].
  eapply chain_step; [exact Hp|apply lookup_insert_eq|].
  cbn [next set_next]. now apply chain_insert_fresh.
Qed.

(** ** The instance after initialization *)

Lemma land_0xff_range (v : Z) : 0 <= Z.land v 0xff <= 255.
Proof.
  change (Z.land v 0xff) with (Z.land v (Z.ones 8)). rewrite Z.land_ones by lia.
  change (2 ^ 8) with 256.
  pose proof (Z.mod_pos_bound v 256 ltac:(lia)). lia.
Qed.

Lemma land_0xff_mod (v : Z) : Z.land v 0xff mod 256 = Z.land v 0xff.
Proof. apply Z.mod_small. pose proof (land_0xff_range v). lia. Qed.

Lemma grub_xhci_hubports_spec (P : platform) (dev : Z) (x : grub_xhci) (w : world) :
  heap w !! dev = Some x ->
  grub_xhci_hubports P dev w
  = Some (hcsparams1_ports w x,
          set_heap
            (<[dev := set_max_ports (hcsparams1_ports w x)
                        (set_max_device_slots (hcsparams1_slots w x) x)]> (heap w))
            (set_trace (trace w ++ [EvLoad (cap_regs x + cap_hcsparams1) 4]) w)).
Proof.
  intros Hx. unfold grub_xhci_hubports. cbv zeta.
  step ltac:(rewrite (get_xhci_some dev x w Hx)).
  step ltac:(rewrite mmio_read32_spec).
  step ltac:(erewrite update_xhci_some by heap_lookup).
  step ltac:(erewrite update_xhci_some by heap_lookup).
  step ltac:(erewrite get_xhci_some by heap_lookup).
  unfold ret.
  rewrite !land_0xff_mod.
  cbn [trace heap mmio set_heap set_trace max_ports set_max_ports
       set_max_device_slots].
  rewrite ?insert_insert_eq.
  reflexivity.
Qed.

Lemma restore_hw_loop_pure (fuel : nat) (xhci : Z) (w w' : world) (u : unit) :
  restore_hw_loop fuel xhci w = Some (u, w') -> w' = w.
Proof.
  revert xhci w. induction fuel as [|fuel IH]; intros xhci w; simpl.
  - destruct (xhci =? 0); [|discriminate]. unfold ret. congruence.
  - destruct (xhci =? 0); [unfold ret; congruence|].
    unfold bind. cbn [grub_xhci_halt grub_xhci_reset ret usb_err_eqb].
    unfold get_xhci. destruct (heap w !! xhci); [|discriminate].
    apply IH.
Qed.

Lemma fini_hw_loop_pure (fuel : nat) (xhci : Z) (w w' : world) (u : unit) :
  fini_hw_loop fuel xhci w = Some (u, w') -> w' = w.
Proof.
  revert xhci w. induction fuel as [|fuel IH]; intros xhci w; simpl.
  - destruct (xhci =? 0); [|discriminate]. unfold ret. congruence.
  - destruct (xhci =? 0); [unfold ret; congruence|].
    unfold bind, get_xhci. destruct (heap w !! xhci); [|discriminate].
    apply IH.
Qed.

Lemma xhci_read_portrs_frame
    (P : platform) (xhci port : Z) (type : xhci_portrs_type) (w w' : world) (v : Z) :
  xhci_read_portrs P xhci port type w = Some (v, w') ->
  exists t, w' = set_trace t w.
Proof.
  unfold xhci_read_portrs, bind, get_xhci.
  destruct (heap w !! xhci); [|discriminate].
  destruct (_ <? _).
  - unfold ret. intros [= _ <-]. exists (trace w). now destruct w.
  - rewrite mmio_read32_spec. intros [= _ <-]. eauto.
Qed.

Lemma grub_xhci_detect_dev_frame
    (P : platform) (dev port changed : Z) (w w' : world) (r : grub_usb_speed_t * Z) :
  grub_xhci_detect_dev P dev port changed w = Some (r, w') ->
  heap w' = heap w /\ mmio w' = mmio w.
Proof.
  unfold grub_xhci_detect_dev, bind. cbv zeta.
  destruct (xhci_read_portrs P dev (port mod 2 ^ 32) PORTSC w) as [[v1 w1]|] eqn:H1;
    [|discriminate].
  destruct (xhci_read_portrs P dev (port mod 2 ^ 32) PORTSC w1) as [[v2 w2]|] eqn:H2;
    [|discriminate].
  apply xhci_read_portrs_frame in H1 as [t1 ->].
  apply xhci_read_portrs_frame in H2 as [t2 ->].
  unfold grub_millisleep, get_detect_dev_state, put_detect_dev_state, ret.
  cbn [detect_dev_state set_now_ms set_trace].
  repeat destruct (_ =? _); intros [= _ <-]; split; reflexivity.
Qed.

(** What one operation leaves of an instance: the register blocks always,
    the counts unless the operation is grub_xhci_hubports, which loads them
    from HCSPARAMS1.  No operation stores to the device. *)
Lemma run_op_effect (P : platform) (op : driver_op) (xhci : Z) (x : grub_xhci)
    (w w' : world) (u : unit) :
  heap w !! xhci = Some x ->
  run_op P op xhci w = Some (u, w') ->
  exists x',
    heap w' !! xhci = Some x'
    /\ mmio w' = mmio w
    /\ (forall b, block_base x' b = block_base x b)
    /\ (if is_hubports op
        then max_ports x' = hcsparams1_ports w x
             /\ max_device_slots x' = hcsparams1_slots w x
        else max_ports x' = max_ports x
             /\ max_device_slots x' = max_device_slots x).
Proof.
  intros Hx.
  destruct op; cbn [run_op is_hubports]; unfold discard, bind.
  - cbn. intros [= _ <-]. eauto 6.
  - cbn. intros [= _ <-]. eauto 6.
  - unfold grub_xhci_restore_hw, bind.
    destruct (restore_hw_loop _ _ w) as [[u' w1]|] eqn:Hloop; [|discriminate].
    apply restore_hw_loop_pure in Hloop as ->. cbn. intros [= _ <-]. eauto 6.
  - unfold grub_xhci_fini_hw, bind.
    destruct (fini_hw_loop _ _ w) as [[u' w1]|] eqn:Hloop; [|discriminate].
    apply fini_hw_loop_pure in Hloop as ->. cbn. intros [= _ <-]. eauto 6.
  - cbn. intros [= _ <-]. eauto 6.
  - cbn. intros [= _ <-]. eauto 6.
  - cbn. intros [= _ <-]. eauto 6.
  - rewrite (grub_xhci_hubports_spec P xhci x w Hx). unfold ret. intros [= _ <-].
    eexists. cbn [heap set_heap set_trace mmio]. rewrite lookup_insert_eq.
    split; [reflexivity|]. split; [reflexivity|].
    split; [intros []; reflexivity|]. split; reflexivity.
  - cbn. intros [= _ <-]. eauto 6.
  - destruct (grub_xhci_detect_dev P xhci port changed w) as [[r w1]|] eqn:Hd;
      [|discriminate].
    apply grub_xhci_detect_dev_frame in Hd as [Hheap Hmmio].
    unfold ret. intros [= _ <-]. exists x. rewrite Hheap. auto.
Qed.

Lemma hcsparams1_stable (w w' : world) (x x' : grub_xhci) :
  mmio w' = mmio w ->
  cap_regs x' = cap_regs x ->
  hcsparams1_ports w' x' = hcsparams1_ports w x
  /\ hcsparams1_slots w' x' = hcsparams1_slots w x.
Proof.
  intros Hm Hc. unfold hcsparams1_ports, hcsparams1_slots, reg32.
  now rewrite Hm, Hc.
Qed.

(** No sequence of operations changes the four register-block bases of an
    instance.  The counts change exactly
    when grub_xhci_hubports runs, which makes them the fields of
    HCSPARAMS1. *)
Lemma run_ops_effect (P : platform) (ops : list driver_op) (xhci : Z) :
  forall (x : grub_xhci) (w w' : world) (u : unit),
    heap w !! xhci = Some x ->
    run_ops P ops xhci w = Some (u, w') ->
    exists x',
      heap w' !! xhci = Some x'
      /\ mmio w' = mmio w
      /\ (forall b, block_base x' b = block_base x b)
      /\ (if existsb is_hubports ops
          then max_ports x' = hcsparams1_ports w x
               /\ max_device_slots x' = hcsparams1_slots w x
          else max_ports x' = max_ports x
               /\ max_device_slots x' = max_device_slots x).
Proof.
  induction ops as [|op rest IH]; intros x w w' u Hx; cbn [run_ops existsb].
  - unfold ret. intros [= _ <-]. eauto 6.
  - unfold bind.
    destruct (run_op P op xhci w) as [[u1 w1]|] eqn:Hop; [|discriminate].
    intros Hrest.
    destruct (run_op_effect P op xhci x w w1 u1 Hx Hop)
      as (x1 & Hx1 & Hm1 & Hb1 & Hc1).
    destruct (IH x1 w1 w' u Hx1 Hrest) as (x' & Hx' & Hm' & Hb' & Hc').
    exists x'. split; [exact Hx'|]. split; [congruence|].
    split; [intros b; rewrite Hb'; apply Hb1|].
    destruct (hcsparams1_stable w w1 x x1 Hm1 (Hb1 CapabilityBlock)) as [Hp Hs].
    destruct (existsb is_hubports rest).
    + rewrite orb_true_r. rewrite <- Hp, <- Hs. exact Hc'.
    + rewrite orb_false_r. destruct (is_hubports op).
      * destruct Hc' as [-> ->]. exact Hc1.
      * destruct Hc' as [-> ->]. exact Hc1.
Qed.

(** C8, where the code departs from it: initialization does not set the
    port count and the slot count, and they are not fixed after it.
    grub_xhci_init completes with both counts as the allocation held them,
    whatever that was; the driver operation grub_xhci_hubports, run after
    initialization, then stores the MaxPorts and MaxSlots fields of
    HCSPARAMS1 (bits 31:24 and 7:0) into them as they are, zero
    included.  So after initialization the counts need not lie in 1-255,
    and a driver operation changes them. *)
Theorem grub_xhci_init_leaves_counts_unset
    (P : platform) (xhci base : Z) (x0 : grub_xhci) (w0 : world) :
  heap w0 !! xhci = Some x0 ->
  exists w1 x1 n w2 x2,
    grub_xhci_init P xhci base w0 = Some (0, w1)
    /\ heap w1 !! xhci = Some x1
    /\ max_ports x1 = max_ports x0
    /\ max_device_slots x1 = max_device_slots x0
    /\ grub_xhci_hubports P xhci w1 = Some (n, w2)
    /\ heap w2 !! xhci = Some x2
    /\ max_ports x2 = hcsparams1_ports w1 x1
    /\ max_device_slots x2 = hcsparams1_slots w1 x1.
Proof.
  intros Hx0.
  destruct (grub_xhci_init_effect P xhci base x0 w0 Hx0)
    as (w1 & Hrun & Hx1 & _).
  exists w1, (located w0 base x0). eexists _, _, _.
  split; [exact Hrun|]. split; [exact Hx1|].
  split; [reflexivity|]. split; [reflexivity|].
  split; [apply (grub_xhci_hubports_spec P xhci _ w1 Hx1)|].
  cbn [heap set_heap set_trace]. split; [apply lookup_insert_eq|].
  split; reflexivity.
Qed.

Lemma grub_xhci_init_leaves_counts_unset_witness :
  let w0 := set_heap {[ sample_ptr := zeroed_xhci ]} (sample_world 1 0 0 0) in
  exists w1 x1 w2 x2,
    grub_xhci_init i386_pc sample_ptr sample_base w0 = Some (0, w1)
    /\ heap w1 !! sample_ptr = Some x1
    /\ max_ports x1 = 0
    /\ max_device_slots x1 = 0
    /\ grub_xhci_hubports i386_pc sample_ptr w1 = Some (4, w2)
    /\ heap w2 !! sample_ptr = Some x2
    /\ max_ports x2 = 4
    /\ max_device_slots x2 = 32.
Proof.
  intros w0.
  destruct (grub_xhci_init_leaves_counts_unset i386_pc sample_ptr sample_base
              zeroed_xhci w0 eq_refl)
    as (w1 & x1 & n & w2 & x2 & Hrun & Hx1 & Hp1 & Hs1 & Hhub & Hx2 & Hp2 & Hs2).
  exists w1, x1, w2, x2.
  split; [exact Hrun|]. split; [exact Hx1|]. split; [exact Hp1|]. split; [exact Hs1|].
  assert (Hn : n = 4).
  { rewrite (grub_xhci_hubports_spec i386_pc sample_ptr x1 w1 Hx1) in Hhub.
    injection Hhub as Hn _. rewrite <- Hn.
    destruct (grub_xhci_init_effect i386_pc sample_ptr sample_base zeroed_xhci w0
                eq_refl) as (w1' & Hrun' & Hx1' & Hmmio & _).
    rewrite Hrun in Hrun'. injection Hrun' as <-.
    rewrite Hx1 in Hx1'. injection Hx1' as ->.
    unfold hcsparams1_ports, reg32. rewrite Hmmio. reflexivity. }
  split; [rewrite <- Hn; exact Hhub|]. split; [exact Hx2|].
  destruct (grub_xhci_init_effect i386_pc sample_ptr sample_base zeroed_xhci w0
              eq_refl) as (w1' & Hrun' & Hx1' & Hmmio & _).
  rewrite Hrun in Hrun'. injection Hrun' as <-.
  rewrite Hx1 in Hx1'. injection Hx1' as ->.
  rewrite Hp2, Hs2. unfold hcsparams1_ports, hcsparams1_slots, reg32.
  rewrite Hmmio. split; reflexivity.
Defined.

(** The same through a whole attach.  Attach the sample controller (32
    slots, 4 ports) to the freshly loaded module, the allocation being
    zeroed memory: initialization completes with port count 0 and slot
    count 0, outside 1-255, because it does not set them.  The driver
    operation grub_xhci_hubports then changes them to 4 and 32. *)
Lemma attach_leaves_counts_unset :
  let w0 := sample_probe 0xfe000000 0x0 in
  exists w1 x1 w2 x2,
    grub_xhci_pci_iter i386_pc sample_pci_device 0 w0 = Some (0, w1)
    /\ xhci_list w1 = sample_ptr
    /\ heap w1 !! sample_ptr = Some x1
    /\ run_op i386_pc OpHubports sample_ptr w1 = Some (tt, w2)
    /\ heap w2 !! sample_ptr = Some x2
    /\ ~ (1 <= max_ports x1 <= 255)
    /\ ~ (1 <= max_device_slots x1 <= 255)
    /\ max_ports x2 <> max_ports x1
    /\ max_device_slots x2 <> max_device_slots x1.
Proof.
  intros w0.
  assert (Hattach : grub_xhci_pci_iter i386_pc sample_pci_device 0 w0
                    = Some (0, attached i386_pc sample_pci_device sample_ptr
                                 zeroed_xhci [] w0)).
  { apply grub_xhci_pci_iter_attach.
    - reflexivity.
    - left. reflexivity.
    - vm_compute. discriminate.
    - reflexivity.
    - discriminate. }
  set (w1 := attached i386_pc sample_pci_device sample_ptr zeroed_xhci [] w0) in *.
  assert (Hx1 : heap w1 !! sample_ptr
                = Some (set_next 0 (located w0 sample_base zeroed_xhci))).
  { unfold w1, attached. cbv zeta. cbn [heap set_heap set_xhci_list].
    apply lookup_insert_eq. }
  pose proof (grub_xhci_hubports_spec i386_pc sample_ptr _ w1 Hx1) as Hhub.
  change (hcsparams1_ports w1 (set_next 0 (located w0 sample_base zeroed_xhci)))
    with 4 in Hhub.
  change (hcsparams1_slots w1 (set_next 0 (located w0 sample_base zeroed_xhci)))
    with 32 in Hhub.
  eexists w1, _, _, _.
  split; [exact Hattach|]. split; [reflexivity|]. split; [exact Hx1|].
  split; [cbn [run_op]; unfold discard, bind; rewrite Hhub; reflexivity|].
  split; [cbn [heap set_heap]; apply lookup_insert_eq|].
  cbn [max_ports max_device_slots set_max_ports set_max_device_slots located
       set_run_regs set_db_regs set_oper_regs set_cap_regs set_next zeroed_xhci].
  repeat split; lia.
Qed.

(** * Further properties of the driver *)

(** ** Register access: round trips and layout *)

Lemma mmio_write_read_bytes (f : Z -> Z) (addr val : Z) (n : nat) :
  le_value (bytes_at (write_bytes f addr (le_bytes n val)) addr n)
  = val mod 256 ^ Z.of_nat n.
Proof.
  rewrite <- (le_bytes_length n val) at 2.
  rewrite bytes_at_write_bytes by apply le_bytes_is_byte.
  apply le_value_le_bytes.
Qed.

(** X1: what mmio_write8, mmio_write16 or mmio_write32 stored at an address
    is what the read accessor of the same width returns from that address:
    the value modulo 2^8, 2^16 or 2^32, whatever the byte order of the CPU,
    after exactly one store and one load. *)
Theorem mmio_write_read_round_trip (P : platform) (addr val : Z) (w : world) :
  (exists w',
     (let* _ := mmio_write8 P addr val in mmio_read8 P addr) w
     = Some (val mod 2 ^ 8, w')
     /\ trace w' = trace w ++ [EvStore addr (le_bytes 1 val); EvLoad addr 1])
  /\ (exists w',
        (let* _ := mmio_write16 P addr val in mmio_read16 P addr) w
        = Some (val mod 2 ^ 16, w')
        /\ trace w' = trace w ++ [EvStore addr (le_bytes 2 val); EvLoad addr 2])
  /\ (exists w',
        (let* _ := mmio_write32 P addr val in mmio_read32 P addr) w
        = Some (val mod 2 ^ 32, w')
        /\ trace w' = trace w ++ [EvStore addr (le_bytes 4 val); EvLoad addr 4]).
Proof.
  repeat split.
  - unfold bind. rewrite mmio_write8_spec, mmio_read8_spec.
    eexists. split.
    + f_equal. f_equal. cbn [mmio set_mmio set_trace].
      apply (mmio_write_read_bytes _ addr val 1).
    + cbn [trace set_trace set_mmio]. now rewrite <- app_assoc.
  - unfold bind. rewrite mmio_write16_spec, mmio_read16_spec.
    eexists. split.
    + f_equal. f_equal. cbn [mmio set_mmio set_trace].
      apply (mmio_write_read_bytes _ addr val 2).
    + cbn [trace set_trace set_mmio]. now rewrite <- app_assoc.
  - unfold bind. rewrite mmio_write32_spec, mmio_read32_spec.
    eexists. split.
    + f_equal. f_equal. unfold reg32. cbn [mmio set_mmio set_trace].
      apply (mmio_write_read_bytes _ addr val 4).
    + cbn [trace set_trace set_mmio]. now rewrite <- app_assoc.
Qed.

Lemma bytes_at_app (f : Z -> Z) (a : Z) (n m : nat) :
  bytes_at f a (n + m) = bytes_at f a n ++ bytes_at f (a + Z.of_nat n) m.
Proof.
  revert a. induction n as [|n IH]; intros a.
  - simpl. now rewrite Z.add_0_r.
  - cbn [Nat.add bytes_at app]. rewrite IH.
    replace (a + Z.of_nat (S n)) with (a + 1 + Z.of_nat n) by lia. reflexivity.
Qed.

Lemma le_value_app (bs cs : list Z) :
  le_value (bs ++ cs) = le_value bs + 256 ^ Z.of_nat (length bs) * le_value cs.
Proof.
  induction bs as [|b bs IH].
  - simpl. lia.
  - cbn [app le_value length]. rewrite IH, Nat2Z.inj_succ, Z.pow_succ_r by lia. ring.
Qed.

Lemma le_value_range (bs : list Z) :
  Forall is_byte bs -> 0 <= le_value bs < 256 ^ Z.of_nat (length bs).
Proof.
  induction 1 as [|b bs Hb _ IH].
  - simpl. lia.
  - cbn [le_value length]. rewrite Nat2Z.inj_succ, Z.pow_succ_r by lia.
    unfold is_byte in Hb. lia.
Qed.

Lemma le_value_bytes_at_split (f : Z -> Z) (a : Z) (n m : nat) :
  le_value (bytes_at f a (n + m))
  = le_value (bytes_at f a n)
    + 256 ^ Z.of_nat n * le_value (bytes_at f (a + Z.of_nat n) m).
Proof. now rewrite bytes_at_app, le_value_app, bytes_at_length. Qed.

Lemma le_value_bytes_at_range (f : Z -> Z) (a : Z) (n : nat) :
  0 <= le_value (bytes_at f a n) < 256 ^ Z.of_nat n.
Proof.
  pose proof (le_value_range _ (bytes_at_is_byte f a n)) as H.
  now rewrite bytes_at_length in H.
Qed.

Lemma reg32_range (w : world) (a : Z) : 0 <= reg32 w a < 2 ^ 32.
Proof. apply (le_value_bytes_at_range (mmio w) a 4). Qed.

Lemma pci_reg32_range (w : world) (a : Z) : 0 <= pci_reg32 w a < 2 ^ 32.
Proof. apply (le_value_bytes_at_range (pci_conf w) a 4). Qed.

Lemma split_low_high (lo hi m : Z) :
  0 <= lo < m -> (lo + m * hi) mod m = lo /\ (lo + m * hi) / m = hi.
Proof.
  intros H. rewrite (Z.mul_comm m).
  rewrite Z_mod_plus_full, Z.div_add by lia.
  rewrite Z.mod_small, Z.div_small by lia. split; lia.
Qed.

(** X2: the narrow read accessors see the parts of the dword the wide one
    sees, in little-endian layout and whatever the byte order of the CPU:
    mmio_read16 at an address returns the low half of what mmio_read32
    returns there, mmio_read16 two bytes further the high half, and
    mmio_read8 the low byte.  (So CAPLENGTH and HCIVERSION, as
    grub_xhci_init and grub_xhci_dump_cap read them, are bits 7:0 and
    31:16 of the first capability dword.) *)
Theorem mmio_read_sub_registers (P : platform) (addr : Z) (w : world) :
  exists v32 v16 v16' v8 w1 w2 w3 w4,
    mmio_read32 P addr w = Some (v32, w1)
    /\ mmio_read16 P addr w = Some (v16, w2)
    /\ mmio_read16 P (addr + 2) w = Some (v16', w3)
    /\ mmio_read8 P addr w = Some (v8, w4)
    /\ v32 = v16 + 2 ^ 16 * v16'
    /\ v16 = v32 mod 2 ^ 16
    /\ v16' = v32 / 2 ^ 16
    /\ v8 = v32 mod 2 ^ 8.
Proof.
  rewrite mmio_read32_spec, !mmio_read16_spec, mmio_read8_spec.
  do 8 eexists. do 4 (split; [reflexivity|]).
  unfold reg32.
  pose proof (le_value_bytes_at_split (mmio w) addr 2 2) as H22.
  pose proof (le_value_bytes_at_split (mmio w) addr 1 3) as H13.
  pose proof (le_value_bytes_at_range (mmio w) addr 2) as R2.
  pose proof (le_value_bytes_at_range (mmio w) addr 1) as R1.
  change (2 + 2)%nat with 4%nat in H22. change (1 + 3)%nat with 4%nat in H13.
  change (256 ^ Z.of_nat 2) with (2 ^ 16) in H22, R2.
  change (256 ^ Z.of_nat 1) with (2 ^ 8) in H13, R1.
  change (Z.of_nat 2) with 2 in H22.
  destruct (split_low_high _ (le_value (bytes_at (mmio w) (addr + 2) 2)) _ R2)
    as [Hmod Hdiv].
  destruct (split_low_high _ (le_value (bytes_at (mmio w) (addr + Z.of_nat 1) 3)) _ R1)
    as [Hmod8 _].
  rewrite <- H22 in Hmod, Hdiv. rewrite <- H13 in Hmod8.
  split; [exact H22|]. split; [now rewrite Hmod|]. split; [now rewrite Hdiv|].
  now rewrite Hmod8.
Qed.

(** X3: grub_xhci_cap_read32 goes through the member [cap], which
    grub_xhci_init does not set: after initialization it still loads
    relative to the [cap] the allocation held, not relative to the
    capability block just located, and it loads the whole dword that
    contains the offset (the offset rounded down to a multiple of 4). *)
Theorem grub_xhci_cap_read32_after_init
    (P : platform) (xhci base off : Z) (x0 : grub_xhci) (w0 : world) :
  heap w0 !! xhci = Some x0 ->
  exists w1 x1 w2,
    grub_xhci_init P xhci base w0 = Some (0, w1)
    /\ heap w1 !! xhci = Some x1
    /\ cap_regs x1 = base
    /\ cap x1 = cap x0
    /\ grub_xhci_cap_read32 P xhci off w1
       = Some (reg32 w0 (cap x0 + (off - off mod 4)), w2)
    /\ trace w2 = trace w1 ++ [EvLoad (cap x0 + (off - off mod 4)) 4].
Proof.
  intros Hx0.
  destruct (grub_xhci_init_effect P xhci base x0 w0 Hx0)
    as (w1 & Hrun & Hx1 & Hmmio & _).
  exists w1, (located w0 base x0). eexists.
  split; [exact Hrun|]. split; [exact Hx1|].
  split; [reflexivity|]. split; [reflexivity|].
  rewrite (grub_xhci_cap_read32_spec P xhci off _ w1 Hx1).
  replace (4 * (off / 4)) with (off - off mod 4)
    by (pose proof (Z.div_mod off 4 ltac:(lia)); lia).
  unfold reg32. rewrite Hmmio.
  split; reflexivity.
Qed.

Lemma grub_xhci_cap_read32_after_init_witness :
  let w0 := set_heap {[ sample_ptr := zeroed_xhci ]} (sample_world 1 0 0 0) in
  reg32 w0 (sample_base + GRUB_XHCI_CAP_HCSPARAMS1) = 0x04000020
  /\ exists w1 x1 w2,
       grub_xhci_init i386_pc sample_ptr sample_base w0 = Some (0, w1)
       /\ heap w1 !! sample_ptr = Some x1
       /\ cap_regs x1 = sample_base
       /\ grub_xhci_cap_read32 i386_pc sample_ptr GRUB_XHCI_CAP_HCSPARAMS1 w1
          = Some (0, w2)
       /\ trace w2 = trace w1 ++ [EvLoad 4 4].
Proof.
  intros w0. split; [reflexivity|].
  destruct (grub_xhci_cap_read32_after_init i386_pc sample_ptr sample_base
              GRUB_XHCI_CAP_HCSPARAMS1 zeroed_xhci w0 eq_refl)
    as (w1 & x1 & w2 & Hrun & Hx1 & Hcap & _ & Hread & Htrace).
  exists w1, x1, w2. auto.
Defined.

Lemma land_mask_range (v m : Z) :
  0 <= m < 2 ^ 32 -> 0 <= Z.land v m < 2 ^ 32.
Proof.
  intros Hm.
  replace (Z.land v m) with (Z.land v m mod 2 ^ 32).
  - apply Z.mod_pos_bound. lia.
  - rewrite <- Z.land_ones, <- Z.land_assoc by lia.
    rewrite (Z.land_ones m) by lia. now rewrite (Z.mod_small m).
Qed.

Lemma land_mask_aligned (v m k : Z) :
  0 <= k -> Z.land m (Z.ones k) = 0 -> Z.land v m mod 2 ^ k = 0.
Proof.
  intros Hk Hm. rewrite <- Z.land_ones by lia.
  now rewrite <- Z.land_assoc, Hm, Z.land_0_r.
Qed.

(** X4: where grub_xhci_init puts the register blocks when they lie below
    4 GiB, so that no pointer sum of the function overflows on any build:
    the operational block starts at most 255 bytes into the mapped window
    (CAPLENGTH is one byte), the doorbell block at a multiple of 4 bytes
    and the runtime block at a multiple of 32 bytes from the start of the
    window, and none of them before the start of the window. *)
Theorem grub_xhci_init_blocks_in_window
    (P : platform) (xhci base : Z) (x0 : grub_xhci) (w0 : world) :
  heap w0 !! xhci = Some x0 ->
  0 <= base ->
  base + 255 < 2 ^ 32 ->
  base + Z.land (reg32 w0 (base + GRUB_XHCI_CAP_DBOFF)) DBOFF_MASK < 2 ^ 32 ->
  base + Z.land (reg32 w0 (base + GRUB_XHCI_CAP_RTSOFF)) RTSOFF_MASK < 2 ^ 32 ->
  exists w1 x1,
    grub_xhci_init P xhci base w0 = Some (0, w1)
    /\ heap w1 !! xhci = Some x1
    /\ cap_regs x1 = base
    /\ base <= oper_regs x1 <= base + 255
    /\ base <= db_regs x1 < 2 ^ 32
    /\ (db_regs x1 - base) mod 4 = 0
    /\ base <= run_regs x1 < 2 ^ 32
    /\ (run_regs x1 - base) mod 32 = 0.
Proof.
  intros Hx0 Hbase Hwindow Hdb Hrun'.
  destruct (grub_xhci_init_effect P xhci base x0 w0 Hx0)
    as (w1 & Hrun & Hx1 & _).
  exists w1, (located w0 base x0).
  split; [exact Hrun|]. split; [exact Hx1|]. split; [reflexivity|].
  cbn [located oper_regs db_regs run_regs set_run_regs set_db_regs set_oper_regs
       set_cap_regs].
  change cap_dboff with GRUB_XHCI_CAP_DBOFF.
  change cap_rtsoff with GRUB_XHCI_CAP_RTSOFF.
  pose proof (le_value_bytes_at_range (mmio w0) (base + cap_caplength) 1) as Hcl.
  change (256 ^ Z.of_nat 1) with 256 in Hcl.
  pose proof (land_mask_range (reg32 w0 (base + GRUB_XHCI_CAP_DBOFF)) DBOFF_MASK
                ltac:(unfold DBOFF_MASK; lia)) as Hdboff.
  pose proof (land_mask_range (reg32 w0 (base + GRUB_XHCI_CAP_RTSOFF)) RTSOFF_MASK
                ltac:(unfold RTSOFF_MASK; lia)) as Hrtsoff.
  split; [lia|].
  replace (base + Z.land (reg32 w0 (base + GRUB_XHCI_CAP_DBOFF)) DBOFF_MASK - base)
    with (Z.land (reg32 w0 (base + GRUB_XHCI_CAP_DBOFF)) DBOFF_MASK) by lia.
  replace (base + Z.land (reg32 w0 (base + GRUB_XHCI_CAP_RTSOFF)) RTSOFF_MASK - base)
    with (Z.land (reg32 w0 (base + GRUB_XHCI_CAP_RTSOFF)) RTSOFF_MASK) by lia.
  split; [lia|].
  split; [apply (land_mask_aligned _ _ 2); [lia|reflexivity]|].
  split; [lia|].
  apply (land_mask_aligned _ _ 5); [lia|reflexivity].
Qed.

Lemma grub_xhci_init_blocks_in_window_witness :
  let w0 := set_heap {[ sample_ptr := zeroed_xhci ]} (sample_world 1 0 0 0) in
  exists w1 x1,
    grub_xhci_init i386_pc sample_ptr sample_base w0 = Some (0, w1)
    /\ heap w1 !! sample_ptr = Some x1
    /\ sample_base <= oper_regs x1 <= sample_base + 255
    /\ (db_regs x1 - sample_base) mod 4 = 0
    /\ (run_regs x1 - sample_base) mod 32 = 0.
Proof.
  intros w0.
  destruct (grub_xhci_init_blocks_in_window i386_pc sample_ptr sample_base
              zeroed_xhci w0 eq_refl)
    as (w1 & x1 & Hrun & Hx1 & _ & Hoper & _ & Hdb & _ & Hrt).
  - vm_compute. discriminate.
  - vm_compute. reflexivity.
  - vm_compute. reflexivity.
  - vm_compute. reflexivity.
  - exists w1, x1. auto.
Defined.

(** The offsets the accessors of the operational block use are those of
    the members of struct xhci_oper_regs. *)
Lemma xhci_oper_regs_offsets :
  offsetof xhci_oper_regs_members m_usbcmd = Some oper_usbcmd
  /\ offsetof xhci_oper_regs_members m_usbsts = Some oper_usbsts
  /\ offsetof xhci_oper_regs_members m_pagesize = Some oper_pagesize
  /\ offsetof xhci_oper_regs_members m_dnctrl = Some oper_dnctrl
  /\ offsetof xhci_oper_regs_members m_crcr = Some oper_crcr
  /\ offsetof xhci_oper_regs_members m_dcbaap = Some oper_dcbaap
  /\ offsetof xhci_oper_regs_members m_config = Some oper_config.
Proof. repeat split. Qed.

(** X5: the structure and the enumerators disagree on the last two
    operational registers.  grub_xhci_dump_oper performs seven loads; the
    first five are at the offsets the enumerators GRUB_XHCI_OPER_USBCMD to
    GRUB_XHCI_OPER_CRCR name, but the member dcbaap lies 4 bytes below
    GRUB_XHCI_OPER_DCBAAP and the member config lies at
    GRUB_XHCI_OPER_DCBAAP: what is printed as CONFIG is loaded from the
    offset the enumerators give to DCBAAP, and nothing is loaded from
    GRUB_XHCI_OPER_CONFIG. *)
Theorem grub_xhci_dump_oper_register_offsets
    (P : platform) (xhci : Z) (x : grub_xhci) (w : world) :
  heap w !! xhci = Some x ->
  exists w',
    grub_xhci_dump_oper P xhci w = Some (0, w')
    /\ trace w'
       = trace w
         ++ map (fun off => EvLoad (oper_regs x + off) 4)
              [ GRUB_XHCI_OPER_USBCMD; GRUB_XHCI_OPER_USBSTS;
                GRUB_XHCI_OPER_PAGESIZE; GRUB_XHCI_OPER_DNCTRL;
                GRUB_XHCI_OPER_CRCR;
                GRUB_XHCI_OPER_DCBAAP - 4; GRUB_XHCI_OPER_DCBAAP ]
    /\ offsetof xhci_oper_regs_members m_dcbaap = Some (GRUB_XHCI_OPER_DCBAAP - 4)
    /\ offsetof xhci_oper_regs_members m_config = Some GRUB_XHCI_OPER_DCBAAP
    /\ ~ In (EvLoad (oper_regs x + GRUB_XHCI_OPER_CONFIG) 4)
            (skipn (length (trace w)) (trace w')).
Proof.
  intros Hx. rewrite (grub_xhci_dump_oper_spec P xhci x w Hx).
  eexists. split; [reflexivity|].
  cbn [trace set_trace]. split; [reflexivity|].
  split; [reflexivity|]. split; [reflexivity|].
  rewrite skipn_app, skipn_all, Nat.sub_diag. cbn [skipn app In].
  unfold oper_usbcmd, oper_usbsts, oper_pagesize, oper_dnctrl, oper_crcr,
    oper_dcbaap, oper_config, GRUB_XHCI_OPER_CONFIG.
  intros H. repeat destruct H as [H|H]; try (injection H; lia). exact H.
Qed.

Lemma grub_xhci_dump_oper_register_offsets_witness :
  exists w',
    grub_xhci_dump_oper i386_pc sample_ptr (sample_world 1 0 0 0) = Some (0, w')
    /\ nth_error (trace w') 5 = Some (EvLoad (sample_base + 0x20 + 0x2c) 4)
    /\ nth_error (trace w') 6 = Some (EvLoad (sample_base + 0x20 + 0x30) 4).
Proof.
  destruct (grub_xhci_dump_oper_register_offsets i386_pc sample_ptr sample_xhci
              (sample_world 1 0 0 0) eq_refl)
    as (w' & Hrun & Htrace & _).
  exists w'. split; [exact Hrun|]. rewrite Htrace. split; reflexivity.
Defined.

(** ** Port register sets at the edges *)



(** X7: grub_xhci_hubports sets the bound that xhci_read_portrs checks.
    It returns the MaxPorts field n of HCSPARAMS1, between 0 and 255;
    right after it, a read of any register of a port above n touches no
    register and answers 0xFFFFFFFF, and a read for a port from 1 to n
    loads the register at operational base + 0x400 + 0x10 * (port - 1) +
    type offset. *)
Theorem grub_xhci_hubports_bounds_port_reads
    (P : platform) (dev port : Z) (type : xhci_portrs_type)
    (x : grub_xhci) (w : world) :
  heap w !! dev = Some x ->
  exists n w1,
    grub_xhci_hubports P dev w = Some (n, w1)
    /\ n = hcsparams1_ports w x
    /\ 0 <= n <= 255
    /\ (n < port ->
        xhci_read_portrs P dev port type w1 = Some (0xffffffff, w1))
    /\ (1 <= port <= n ->
        let addr := oper_regs x + 0x400 + 0x10 * (port - 1) + portrs_offset type in
        xhci_read_portrs P dev port type w1
        = Some (reg32 w addr, set_trace (trace w1 ++ [EvLoad addr 4]) w1)).
Proof.
  intros Hx. rewrite (grub_xhci_hubports_spec P dev x w Hx).
  eexists _, _. split; [reflexivity|]. split; [reflexivity|].
  pose proof (land_0xff_range (Z.shiftr (reg32 w (cap_regs x + cap_hcsparams1)) 24))
    as Hn.
  fold (hcsparams1_ports w x) in Hn.
  split; [exact Hn|].
  set (x1 := set_max_ports (hcsparams1_ports w x)
               (set_max_device_slots (hcsparams1_slots w x) x)).
  set (w1 := set_heap _ _).
  assert (Hx1 : heap w1 !! dev = Some x1) by apply lookup_insert_eq.
  split.
  - intros Hbig. now apply (xhci_read_portrs_too_big P dev port type x1 w1 Hx1).
  - intros Hin addr.
    apply (xhci_read_portrs_in_range P dev port type x1 w1 Hx1); assumption.
Qed.

Lemma grub_xhci_hubports_bounds_port_reads_witness :
  let w := sample_world 1 0 0x2a0 0x101 in
  exists w1,
    grub_xhci_hubports i386_pc sample_ptr w = Some (4, w1)
    /\ xhci_read_portrs i386_pc sample_ptr 5 PORTSC w1 = Some (0xffffffff, w1)
    /\ exists w2, xhci_read_portrs i386_pc sample_ptr 2 PORTSC w1 = Some (0x101, w2).
Proof.
  intros w.
  destruct (grub_xhci_hubports_bounds_port_reads i386_pc sample_ptr 5 PORTSC
              sample_xhci w eq_refl)
    as (n & w1 & Hrun & Hn & _ & Hbig & _).
  change (hcsparams1_ports w sample_xhci) with 4 in Hn. subst n.
  destruct (grub_xhci_hubports_bounds_port_reads i386_pc sample_ptr 2 PORTSC
              sample_xhci w eq_refl)
    as (n' & w1' & Hrun' & Hn' & _ & _ & Hin).
  change (hcsparams1_ports w sample_xhci) with 4 in Hn'. subst n'.
  rewrite Hrun in Hrun'. injection Hrun' as <-.
  exists w1. split; [exact Hrun|]. split; [apply Hbig; lia|].
  eexists. apply Hin. lia.
Defined.

(** ** Port detection, for every port and every register content *)

Lemma set_trace_self (w : world) : set_trace (trace w) w = w.
Proof. now destruct w. Qed.

Lemma xhci_read_portrs_returns
    (P : platform) (xhci port : Z) (type : xhci_portrs_type)
    (x : grub_xhci) (w : world) :
  heap w !! xhci = Some x ->
  exists v t,
    xhci_read_portrs P xhci port type w = Some (v, set_trace (trace w ++ t) w)
    /\ forallb is_load_or_sleep t = true
    /\ (max_ports x < port -> t = []).
Proof.
  intros Hx. unfold xhci_read_portrs, bind. rewrite (get_xhci_some _ _ _ Hx).
  destruct (max_ports x <? port) eqn:Hbig.
  - exists 0xffffffff, []. rewrite app_nil_r, set_trace_self. auto.
  - rewrite mmio_read32_spec. eexists _, [_].
    split; [reflexivity|]. split; [reflexivity|].
    apply Z.ltb_ge in Hbig. lia.
Qed.

(** grub_xhci_detect_dev returns for every port and every value of its
    static [state]; it loads (twice, or not at all for a port beyond
    max_ports), sleeps one second and changes nothing but its state. *)
Lemma grub_xhci_detect_dev_effect
    (P : platform) (dev port changed : Z) (x : grub_xhci) (w : world) :
  heap w !! dev = Some x ->
  exists r s t,
    grub_xhci_detect_dev P dev port changed w
    = Some (r, set_detect_dev_state s
                 (set_trace (trace w ++ t ++ [EvSleep 1000])
                    (set_now_ms (now_ms w + 1000) w)))
    /\ forallb is_load_or_sleep t = true
    /\ (max_ports x < port mod 2 ^ 32 -> t = [])
    /\ (detect_dev_state w = 0 -> r = (GRUB_USB_SPEED_SUPER, 1) /\ s = 0).
Proof.
  intros Hx. unfold grub_xhci_detect_dev. cbv zeta.
  destruct (xhci_read_portrs_returns P dev (port mod 2 ^ 32) PORTSC x w Hx)
    as (v1 & t1 & H1 & Ht1 & Hbig1).
  destruct (xhci_read_portrs_returns P dev (port mod 2 ^ 32) PORTSC x
              (set_trace (trace w ++ t1) w) Hx)
    as (v2 & t2 & H2 & Ht2 & Hbig2).
  unfold bind at 1. rewrite H1.
  unfold bind at 1. rewrite H2.
  unfold bind at 1. unfold grub_millisleep at 1.
  unfold bind at 1. unfold get_detect_dev_state at 1.
  cbn [detect_dev_state set_trace set_now_ms trace now_ms].
  assert (Ht : forallb is_load_or_sleep (t1 ++ t2) = true)
    by (rewrite forallb_app, Ht1, Ht2; reflexivity).
  assert (Hbig : max_ports x < port mod 2 ^ 32 -> t1 ++ t2 = [])
    by (intros H; rewrite (Hbig1 H), (Hbig2 H); reflexivity).
  destruct (detect_dev_state w =? 0) eqn:E0;
    [|destruct (detect_dev_state w =? 1) eqn:E1;
      [|destruct (detect_dev_state w =? 2) eqn:E2]].
  - exists (GRUB_USB_SPEED_SUPER, 1), 0, (t1 ++ t2).
    split; [|auto].
    unfold bind, put_detect_dev_state, ret. rewrite <- !app_assoc. reflexivity.
  - exists (GRUB_USB_SPEED_NONE, 0), 2, (t1 ++ t2).
    split; [|split; [exact Ht|split; [exact Hbig|]]].
    + unfold bind, put_detect_dev_state, ret. rewrite <- !app_assoc. reflexivity.
    + intros H0. rewrite H0 in E0. discriminate.
  - exists (GRUB_USB_SPEED_SUPER, 1), 0, (t1 ++ t2).
    split; [|auto].
    unfold bind, put_detect_dev_state, ret. rewrite <- !app_assoc. reflexivity.
  - exists (GRUB_USB_SPEED_NONE, changed), (detect_dev_state w), (t1 ++ t2).
    split; [|split; [exact Ht|split; [exact Hbig|]]].
    + unfold ret. rewrite <- !app_assoc. reflexivity.
    + intros H0. rewrite H0 in E0. discriminate.
Qed.

(** X8: from the moment the module is loaded (static state 0), every call
    of grub_xhci_detect_dev on a live instance returns, for every port
    number and whatever the port registers hold, with the answer
    GRUB_USB_SPEED_SUPER and *changed = 1; it takes one second of the
    clock, leaves the instance and the device registers as they were, and
    leaves the state at 0, so the next call answers the same. *)
Theorem grub_xhci_detect_dev_loaded_module
    (P : platform) (dev port changed : Z) (x : grub_xhci) (w : world) :
  heap w !! dev = Some x ->
  detect_dev_state w = 0 ->
  exists w',
    grub_xhci_detect_dev P dev port changed w
    = Some ((GRUB_USB_SPEED_SUPER, 1), w')
    /\ detect_dev_state w' = 0
    /\ now_ms w' = now_ms w + 1000
    /\ heap w' = heap w
    /\ mmio w' = mmio w.
Proof.
  intros Hx Hstate.
  destruct (grub_xhci_detect_dev_effect P dev port changed x w Hx)
    as (r & s & t & Hrun & _ & _ & Hzero).
  destruct (Hzero Hstate) as [-> ->].
  eexists. split; [exact Hrun|]. repeat split.
Qed.

Lemma grub_xhci_detect_dev_loaded_module_witness :
  exists w1 w2,
    grub_xhci_detect_dev i386_pc sample_ptr 1 0 (sample_world 1 0 0x2a0 0x2a0)
    = Some ((GRUB_USB_SPEED_SUPER, 1), w1)
    /\ grub_xhci_detect_dev i386_pc sample_ptr 1 0 w1
       = Some ((GRUB_USB_SPEED_SUPER, 1), w2)
    /\ now_ms w2 = 2000.
Proof.
  destruct (grub_xhci_detect_dev_loaded_module i386_pc sample_ptr 1 0 sample_xhci
              (sample_world 1 0 0x2a0 0x2a0) eq_refl eq_refl)
    as (w1 & Hrun1 & Hs1 & Hn1 & Hh1 & _).
  assert (Hx1 : heap w1 !! sample_ptr = Some sample_xhci)
    by (rewrite Hh1; reflexivity).
  destruct (grub_xhci_detect_dev_loaded_module i386_pc sample_ptr 1 0 sample_xhci
              w1 Hx1 Hs1)
    as (w2 & Hrun2 & _ & Hn2 & _).
  exists w1, w2. split; [exact Hrun1|]. split; [exact Hrun2|].
  rewrite Hn2, Hn1. reflexivity.
Defined.

(** X9: a port number outside the controller (negative, or above
    max_ports) costs grub_xhci_detect_dev no register access at all: the
    only event is the sleep of 1000 ms, and the loaded module still
    reports a super-speed device with *changed = 1. *)
Theorem grub_xhci_detect_dev_port_out_of_range
    (P : platform) (dev port changed : Z) (x : grub_xhci) (w : world) :
  heap w !! dev = Some x ->
  0 <= max_ports x <= 255 ->
  - 2 ^ 31 <= port < 2 ^ 31 ->
  port < 0 \/ max_ports x < port ->
  detect_dev_state w = 0 ->
  grub_xhci_detect_dev P dev port changed w
  = Some ((GRUB_USB_SPEED_SUPER, 1),
          set_detect_dev_state 0
            (set_trace (trace w ++ [EvSleep 1000])
               (set_now_ms (now_ms w + 1000) w))).
Proof.
  intros Hx Hmax Hint Hout Hstate.
  destruct (grub_xhci_detect_dev_effect P dev port changed x w Hx)
    as (r & s & t & Hrun & _ & Hbig & Hzero).
  destruct (Hzero Hstate) as [-> ->].
  rewrite Hbig in Hrun; [exact Hrun|].
  destruct Hout as [Hneg | Hbig'].
  - replace (port mod 2 ^ 32) with (port + 2 ^ 32); [lia|].
    symmetry. rewrite <- (Z_mod_plus_full port 1 (2 ^ 32)).
    rewrite Z.mul_1_l. apply Z.mod_small. lia.
  - rewrite Z.mod_small by lia. exact Hbig'.
Qed.

Lemma grub_xhci_detect_dev_port_out_of_range_witness :
  let w := sample_world 1 0 0x2a0 0x2a0 in
  (exists w', grub_xhci_detect_dev i386_pc sample_ptr 5 0 w
              = Some ((GRUB_USB_SPEED_SUPER, 1), w')
              /\ trace w' = [EvSleep 1000])
  /\ (exists w', grub_xhci_detect_dev i386_pc sample_ptr (-1) 0 w
                 = Some ((GRUB_USB_SPEED_SUPER, 1), w')
                 /\ trace w' = [EvSleep 1000]).
Proof.
  intros w. split.
  - eexists. split.
    + apply (grub_xhci_detect_dev_port_out_of_range i386_pc sample_ptr 5 0
               sample_xhci w eq_refl); [simpl; lia|lia|simpl; lia|reflexivity].
    + reflexivity.
  - eexists. split.
    + apply (grub_xhci_detect_dev_port_out_of_range i386_pc sample_ptr (-1) 0
               sample_xhci w eq_refl); [simpl; lia|lia|lia|reflexivity].
    + reflexivity.
Defined.

(** ** Attach: every way out of grub_xhci_pci_iter *)

Lemma grub_xhci_pci_iter_other_class
    (P : platform) (dev : grub_pci_device_t) (pciid : Z) (w : world) :
  Z.shiftr (pci_reg32 w (grub_pci_make_address P dev (GRUB_PCI_REG_CLASS P))) 8
    <> 0x0c0330 ->
  grub_xhci_pci_iter P dev pciid w
  = Some (0, set_trace
               (trace w ++
                [EvPciRead (grub_pci_make_address P dev (GRUB_PCI_REG_CLASS P)) 4])
               w).
Proof.
  intros Hclass. unfold grub_xhci_pci_iter, pci_config_read.
  unfold bind at 1. rewrite grub_pci_read_spec.
  apply Z.eqb_neq in Hclass. now rewrite Hclass.
Qed.

Lemma grub_xhci_pci_iter_abort
    (P : platform) (dev : grub_pci_device_t) (pciid : Z) (w : world) :
  let base := pci_reg32 w (grub_pci_make_address P dev (GRUB_PCI_REG_ADDRESS_REG0 P)) in
  let base_h := pci_reg32 w (grub_pci_make_address P dev (GRUB_PCI_REG_ADDRESS_REG1 P)) in
  Z.shiftr (pci_reg32 w (grub_pci_make_address P dev (GRUB_PCI_REG_CLASS P))) 8
    = 0x0c0330 ->
  negb (Z.land base (GRUB_PCI_ADDR_MEM_TYPE_MASK P) =? GRUB_PCI_ADDR_MEM_TYPE_32 P)
    && negb (base_h =? 0) = true
  \/ Z.land base (GRUB_PCI_ADDR_MEM_MASK P) = 0 ->
  grub_xhci_pci_iter P dev pciid w
  = Some (0, set_trace
               (trace w ++
                [EvPciRead (grub_pci_make_address P dev (GRUB_PCI_REG_CLASS P)) 4;
                 EvPciRead (grub_pci_make_address P dev (GRUB_PCI_REG_ADDRESS_REG0 P)) 4;
                 EvPciRead (grub_pci_make_address P dev (GRUB_PCI_REG_ADDRESS_REG1 P)) 4])
               w).
Proof.
  intros base base_h Hclass Hbad.
  unfold grub_xhci_pci_iter, pci_config_read.
  unfold bind at 1. rewrite grub_pci_read_spec, Hclass. cbn [Z.eqb Pos.eqb negb].
  unfold bind at 1. rewrite grub_pci_read_spec.
  unfold bind at 1. rewrite grub_pci_read_spec.
  rewrite !pci_reg32_set_trace, !trace_set_trace, !set_trace_set_trace.
  fold base. fold base_h. rewrite <- !app_assoc. cbn [app].
  destruct (negb (Z.land base (GRUB_PCI_ADDR_MEM_TYPE_MASK P)
                  =? GRUB_PCI_ADDR_MEM_TYPE_32 P) && negb (base_h =? 0)) eqn:Habove;
    [reflexivity|].
  destruct Hbad as [Hbad | Hzero]; [discriminate|].
  rewrite Hzero. reflexivity.
Qed.

Lemma grub_xhci_pci_iter_no_memory
    (P : platform) (dev : grub_pci_device_t) (pciid : Z) (w : world) :
  let base := pci_reg32 w (grub_pci_make_address P dev (GRUB_PCI_REG_ADDRESS_REG0 P)) in
  let base_h := pci_reg32 w (grub_pci_make_address P dev (GRUB_PCI_REG_ADDRESS_REG1 P)) in
  let cmd_addr := grub_pci_make_address P dev (GRUB_PCI_REG_COMMAND P) in
  let command := Z.lor (Z.lor (GRUB_PCI_COMMAND_MEM_ENABLED P)
                              (GRUB_PCI_COMMAND_BUS_MASTER P))
                       (pci_reg16 w cmd_addr) in
  Z.shiftr (pci_reg32 w (grub_pci_make_address P dev (GRUB_PCI_REG_CLASS P))) 8
    = 0x0c0330 ->
  Z.land base (GRUB_PCI_ADDR_MEM_TYPE_MASK P) = GRUB_PCI_ADDR_MEM_TYPE_32 P
    \/ base_h = 0 ->
  Z.land base (GRUB_PCI_ADDR_MEM_MASK P) <> 0 ->
  allocator w = [] ->
  grub_xhci_pci_iter P dev pciid w
  = Some (usb_err_int P GRUB_USB_ERR_INTERNAL,
          set_pci_conf (write_bytes (pci_conf w) cmd_addr (le_bytes 2 command))
            (set_trace
               (trace w ++
                [EvPciRead (grub_pci_make_address P dev (GRUB_PCI_REG_CLASS P)) 4;
                 EvPciRead (grub_pci_make_address P dev (GRUB_PCI_REG_ADDRESS_REG0 P)) 4;
                 EvPciRead (grub_pci_make_address P dev (GRUB_PCI_REG_ADDRESS_REG1 P)) 4;
                 EvPciRead cmd_addr 2;
                 EvPciWrite cmd_addr (le_bytes 2 command)])
               w)).
Proof.
  intros base base_h cmd_addr command Hclass Hlow Hbase Halloc.
  unfold grub_xhci_pci_iter, pci_config_read.
  unfold bind at 1. rewrite grub_pci_read_spec, Hclass. cbn [Z.eqb Pos.eqb negb].
  unfold bind at 1. rewrite grub_pci_read_spec.
  unfold bind at 1. rewrite grub_pci_read_spec.
  rewrite !pci_reg32_set_trace. fold base. fold base_h.
  replace (negb (Z.land base (GRUB_PCI_ADDR_MEM_TYPE_MASK P)
                 =? GRUB_PCI_ADDR_MEM_TYPE_32 P) && negb (base_h =? 0)) with false.
  2:{ symmetry. destruct Hlow as [-> | ->].
      - now rewrite Z.eqb_refl.
      - now rewrite andb_false_r. }
  apply Z.eqb_neq in Hbase. rewrite Hbase.
  unfold bind at 1. unfold grub_pci_read_word at 1.
  unfold bind at 1. unfold grub_pci_write_word at 1.
  unfold bind at 1. unfold grub_malloc at 1.
  cbn [allocator set_pci_conf set_trace]. rewrite Halloc.
  cbn [Z.eqb]. unfold ret.
  unfold pci_reg16 in command. fold cmd_addr.
  cbn [trace pci_conf set_trace set_pci_conf mmio now_ms heap allocator xhci_list
       detect_dev_state].
  rewrite <- ?app_assoc. unfold set_pci_conf, set_trace. cbn.
  rewrite Halloc. reflexivity.
Qed.

(** X10: a device of another class is passed over at once.  When the class
    code (the upper 24 bits of the class register; the revision byte is
    ignored) is not 0x0c0330, grub_xhci_pci_iter returns 0 after this one
    configuration read: no base address is read, nothing is written and
    nothing is allocated. *)
Theorem grub_xhci_pci_iter_skips_other_classes
    (P : platform) (dev : grub_pci_device_t) (pciid : Z) (w : world) :
  Z.shiftr (pci_reg32 w (grub_pci_make_address P dev (GRUB_PCI_REG_CLASS P))) 8
    <> 0x0c0330 ->
  grub_xhci_pci_iter P dev pciid w
  = Some (0, set_trace
               (trace w ++
                [EvPciRead (grub_pci_make_address P dev (GRUB_PCI_REG_CLASS P)) 4])
               w).
Proof. apply grub_xhci_pci_iter_other_class. Qed.

Lemma grub_xhci_pci_iter_skips_other_classes_witness :
  let w := set_pci_conf
             (reg_file [(grub_pci_make_address i386_pc sample_pci_device 0x08,
                         0x0c032001);
                        (grub_pci_make_address i386_pc sample_pci_device 0x10,
                         0xfe000000)])
             (sample_probe 0x0 0x0) in
  grub_xhci_pci_iter i386_pc sample_pci_device 0 w
  = Some (0, set_trace
               [EvPciRead (grub_pci_make_address i386_pc sample_pci_device 0x08) 4]
               w).
Proof.
  intros w.
  apply (grub_xhci_pci_iter_skips_other_classes i386_pc sample_pci_device 0 w).
  vm_compute. discriminate.
Defined.




(** X12: a successful attach.  For an xHCI-class device whose first base
    address register is a 32-bit one or has a zero high dword, and whose
    address part is not zero, with memory available, grub_xhci_pci_iter
    returns 0 and leaves: the new instance at the head of xhci_list and
    linked to the former head; its capability base at the address the BAR
    maps to, with the low eight bits cleared; its port and slot counts as
    the allocation held them; every other object, and the device window,
    unchanged; and the command register with memory decoding and bus
    mastering set and its other bits kept. *)
Theorem grub_xhci_pci_iter_registers_controller
    (P : platform) (dev : grub_pci_device_t) (pciid p : Z) (x : grub_xhci)
    (rest : list (Z * grub_xhci)) (w : world) :
  let base := pci_reg32 w (grub_pci_make_address P dev (GRUB_PCI_REG_ADDRESS_REG0 P)) in
  let base_h := pci_reg32 w (grub_pci_make_address P dev (GRUB_PCI_REG_ADDRESS_REG1 P)) in
  let cmd_addr := grub_pci_make_address P dev (GRUB_PCI_REG_COMMAND P) in
  Z.shiftr (pci_reg32 w (grub_pci_make_address P dev (GRUB_PCI_REG_CLASS P))) 8
    = 0x0c0330 ->
  Z.land base (GRUB_PCI_ADDR_MEM_TYPE_MASK P) = GRUB_PCI_ADDR_MEM_TYPE_32 P
    \/ base_h = 0 ->
  Z.land base (GRUB_PCI_ADDR_MEM_MASK P) <> 0 ->
  allocator w = (p, x) :: rest ->
  p <> 0 ->
  exists w' x',
    grub_xhci_pci_iter P dev pciid w = Some (0, w')
    /\ xhci_list w' = p
    /\ heap w' !! p = Some x'
    /\ next x' = xhci_list w
    /\ cap_regs x'
       = grub_pci_device_map_range P dev
           (Z.land (Z.land base (GRUB_PCI_ADDR_MEM_MASK P)) GRUB_XHCI_ADDR_MEM_MASK)
           0x100
    /\ max_ports x' = max_ports x
    /\ max_device_slots x' = max_device_slots x
    /\ (forall q, q <> p -> heap w' !! q = heap w !! q)
    /\ allocator w' = rest
    /\ mmio w' = mmio w
    /\ pci_reg16 w' cmd_addr
       = Z.lor (Z.lor (GRUB_PCI_COMMAND_MEM_ENABLED P) (GRUB_PCI_COMMAND_BUS_MASTER P))
           (pci_reg16 w cmd_addr) mod 2 ^ 16.
Proof.
  intros base base_h cmd_addr Hclass Hlow Hbase Halloc Hp.
  rewrite (grub_xhci_pci_iter_attach P dev pciid p x rest w Hclass Hlow Hbase Halloc Hp).
  eexists _, _. split; [reflexivity|].
  unfold attached. cbv zeta.
  cbn [xhci_list heap allocator mmio set_xhci_list set_heap set_allocator
       set_pci_conf set_trace].
  split; [reflexivity|]. split; [apply lookup_insert_eq|].
  do 4 (split; [reflexivity|]).
  split; [intros q Hq; now apply lookup_insert_ne|].
  split; [reflexivity|]. split; [reflexivity|].
  unfold pci_reg16 at 1. cbn [pci_conf set_xhci_list set_heap set_allocator set_pci_conf].
  apply (mmio_write_read_bytes _ _ _ 2).
Qed.

Lemma grub_xhci_pci_iter_registers_controller_witness :
  let w := sample_probe 0xfe000000 0x0 in
  exists w' x',
    grub_xhci_pci_iter i386_pc sample_pci_device 0 w = Some (0, w')
    /\ xhci_list w' = sample_ptr
    /\ heap w' !! sample_ptr = Some x'
    /\ next x' = 0
    /\ cap_regs x' = sample_base
    /\ pci_reg16 w' (grub_pci_make_address i386_pc sample_pci_device 0x04) = 0x0006.
Proof.
  intros w.
  destruct (grub_xhci_pci_iter_registers_controller i386_pc sample_pci_device 0
              sample_ptr zeroed_xhci [] w)
    as (w' & x' & Hrun & Hlist & Hx' & Hnext & Hcap & _ & _ & _ & _ & _ & Hcmd).
  - reflexivity.
  - left. reflexivity.
  - vm_compute. discriminate.
  - reflexivity.
  - discriminate.
  - exists w', x'. split; [exact Hrun|]. split; [exact Hlist|]. split; [exact Hx'|].
    split; [exact Hnext|]. split; [rewrite Hcap; reflexivity|].
    etransitivity; [exact Hcmd|reflexivity].
Defined.

(** ** The registry stays a chain *)

Lemma chain_not_fresh (h : gmap Z grub_xhci) (p q : Z) (l : list Z) :
  chain h q l -> h !! p = None -> ~ In p l.
Proof.
  intros Hl Hfresh Hin.
  destruct (chain_live h q p l Hl Hin) as [y Hy]. congruence.
Qed.

(** X13: grub_xhci_pci_iter keeps the registry well formed, for every
    device and on every one of its paths.  If xhci_list is a
    NULL-terminated chain of live instances and the allocator hands out
    unused memory, the call returns, xhci_list is again such a chain and
    the allocator still hands out unused memory; the chain is either the
    old one or the old one with one new instance in front, and in that
    case the call returned 0. *)
Theorem grub_xhci_pci_iter_keeps_registry
    (P : platform) (dev : grub_pci_device_t) (pciid : Z) (w : world) (l : list Z) :
  chain (heap w) (xhci_list w) l ->
  allocator_fresh w ->
  exists r w' l',
    grub_xhci_pci_iter P dev pciid w = Some (r, w')
    /\ chain (heap w') (xhci_list w') l'
    /\ allocator_fresh w'
    /\ (l' = l
        \/ exists p, l' = p :: l /\ r = 0 /\ p <> 0 /\ ~ In p l).
Proof.
  intros Hl [Hnodup Hfresh].
  set (base := pci_reg32 w (grub_pci_make_address P dev (GRUB_PCI_REG_ADDRESS_REG0 P))).
  set (base_h := pci_reg32 w (grub_pci_make_address P dev (GRUB_PCI_REG_ADDRESS_REG1 P))).
  destruct (Z.eq_dec
              (Z.shiftr (pci_reg32 w (grub_pci_make_address P dev (GRUB_PCI_REG_CLASS P))) 8)
              0x0c0330) as [Hclass | Hclass].
  2:{ rewrite (grub_xhci_pci_iter_other_class P dev pciid w Hclass).
      exists 0. eexists. exists l. split; [reflexivity|].
      split; [exact Hl|]. split; [split; assumption|]. now left. }
  destruct (negb (Z.land base (GRUB_PCI_ADDR_MEM_TYPE_MASK P)
                  =? GRUB_PCI_ADDR_MEM_TYPE_32 P) && negb (base_h =? 0)) eqn:Habove.
  { rewrite (grub_xhci_pci_iter_abort P dev pciid w Hclass (or_introl Habove)).
    exists 0. eexists. exists l. split; [reflexivity|].
    split; [exact Hl|]. split; [split; assumption|]. now left. }
  destruct (Z.eq_dec (Z.land base (GRUB_PCI_ADDR_MEM_MASK P)) 0) as [Hzero | Hbase].
  { rewrite (grub_xhci_pci_iter_abort P dev pciid w Hclass (or_intror Hzero)).
    exists 0. eexists. exists l. split; [reflexivity|].
    split; [exact Hl|]. split; [split; assumption|]. now left. }
  assert (Hlow : Z.land base (GRUB_PCI_ADDR_MEM_TYPE_MASK P) = GRUB_PCI_ADDR_MEM_TYPE_32 P
                 \/ base_h = 0).
  { apply andb_false_iff in Habove as [H | H]; apply negb_false_iff, Z.eqb_eq in H; auto. }
  destruct (allocator w) as [|[p x] rest] eqn:Halloc.
  - rewrite (grub_xhci_pci_iter_no_memory P dev pciid w Hclass Hlow Hbase Halloc).
    eexists _, _, l. split; [reflexivity|].
    split; [exact Hl|]. split; [|now left].
    split; cbn [allocator heap set_pci_conf set_trace]; rewrite Halloc; constructor.
  - inversion Hfresh as [|a rest' [Hp Hnone] Hrest]; subst. cbn [fst] in *.
    inversion Hnodup as [|a rest' Hnotin Hnodup']; subst.
    rewrite (grub_xhci_pci_iter_attach P dev pciid p x rest w Hclass Hlow Hbase Halloc Hp).
    eexists _, _, (p :: l). split; [reflexivity|].
    split; [now apply attached_chain|]. split.
    + unfold attached. cbv zeta.
      split; cbn [allocator heap set_xhci_list set_heap set_allocator]; [exact Hnodup'|].
      apply List.Forall_forall. intros [q y] Hin. cbn [fst].
      pose proof (proj1 (List.Forall_forall _ _) Hrest _ Hin) as [Hq Hqnone].
      cbn [fst] in Hq, Hqnone. split; [exact Hq|].
      rewrite lookup_insert_ne; [exact Hqnone|].
      intros ->. apply Hnotin. apply (in_map fst _ _ Hin).
    + right. exists p. repeat split; try assumption.
      now apply (chain_not_fresh (heap w) p (xhci_list w)).
Qed.

Lemma grub_xhci_pci_iter_keeps_registry_witness :
  let w := sample_probe 0xfe000000 0x0 in
  exists r w' l',
    grub_xhci_pci_iter i386_pc sample_pci_device 0 w = Some (r, w')
    /\ chain (heap w') (xhci_list w') l'
    /\ allocator_fresh w'.
Proof.
  intros w.
  destruct (grub_xhci_pci_iter_keeps_registry i386_pc sample_pci_device 0 w [])
    as (r & w' & l' & Hrun & Hl' & Hfresh & _).
  - constructor.
  - split.
    + repeat constructor. intros [].
    + repeat constructor. discriminate.
  - exists r, w', l'. auto.
Defined.

(** X14: on a well-formed registry both preboot hooks return: each walks
    xhci_list to its end and returns GRUB_ERR_NONE.  Neither accesses a
    register or reports an error: the machine is left exactly as it
    was. *)
Theorem preboot_hooks_return_on_registry (noreturn : Z) (w : world) (l : list Z) :
  chain (heap w) (xhci_list w) l ->
  grub_xhci_fini_hw noreturn w = Some (GRUB_ERR_NONE, w)
  /\ grub_xhci_restore_hw w = Some (GRUB_ERR_NONE, w).
Proof.
  intros Hl. split.
  - now apply (grub_xhci_fini_hw_returns noreturn w l).
  - now apply (grub_xhci_restore_hw_returns w l).
Qed.

Lemma sample_world_chain (a b c d : Z) :
  chain (heap (sample_world a b c d)) (xhci_list (sample_world a b c d)) [sample_ptr].
Proof.
  apply (chain_step _ sample_ptr sample_xhci).
  - discriminate.
  - reflexivity.
  - constructor.
Qed.

Lemma preboot_hooks_return_on_registry_witness :
  let w := sample_world 1 0 0 0 in
  grub_xhci_fini_hw 0 w = Some (GRUB_ERR_NONE, w)
  /\ grub_xhci_restore_hw w = Some (GRUB_ERR_NONE, w).
Proof.
  intros w.
  exact (preboot_hooks_return_on_registry 0 w [sample_ptr] (sample_world_chain 1 0 0 0)).
Defined.

(** ** Iteration *)

Lemma same_links_refl (h : gmap Z grub_xhci) : same_links h h.
Proof. intros q. reflexivity. Qed.

Lemma chain_same_links (h h' : gmap Z grub_xhci) (p : Z) (l : list Z) :
  same_links h h' -> chain h p l -> chain h' p l.
Proof.
  intros Hsame. induction 1 as [|p x l Hp Hx Hl IH]; [constructor|].
  pose proof (Hsame p) as Hq. rewrite Hx in Hq.
  destruct (h' !! p) as [x'|] eqn:Hx'; [|discriminate].
  injection Hq as Hnext.
  apply (chain_step h' p x'); [exact Hp|exact Hx'|]. now rewrite Hnext.
Qed.

Lemma iterate_loop_visits (hook : Z -> M Z) (l : list Z) :
  keeps_links hook ->
  forall (fuel : nat) (p : Z) (w : world),
    chain (heap w) p l -> (length l <= fuel)%nat ->
    iterate_loop fuel hook p w = visit_in_order hook l w.
Proof.
  intros Hhook. induction l as [|q l IH]; intros fuel p w Hl Hfuel.
  - inversion Hl; subst. destruct fuel; reflexivity.
  - inversion Hl as [|p' x l' Hp Hx Hrest]; subst.
    destruct fuel as [|fuel]; [simpl in Hfuel; lia|].
    cbn [iterate_loop visit_in_order].
    apply Z.eqb_neq in Hp. rewrite Hp.
    unfold bind at 1 3.
    destruct (hook q w) as [[r u]|] eqn:Hcall; [|reflexivity].
    destruct (negb (r =? 0)); [reflexivity|].
    pose proof (Hhook q w r u Hcall) as Hsame.
    pose proof (Hsame q) as Hq. rewrite Hx in Hq.
    destruct (heap u !! q) as [x'|] eqn:Hx'; [|discriminate].
    injection Hq as Hnext.
    unfold bind. rewrite (get_xhci_some q x' u Hx'). rewrite Hnext.
    apply IH.
    + now apply (chain_same_links (heap w)).
    + simpl in Hfuel. lia.
Qed.

(** X15: grub_xhci_iterate hands the registered controllers to the hook in
    the order of xhci_list, one call each, stops after the first call that
    answers nonzero and then returns 1, and returns 0 when no call does.
    This holds for every hook that leaves the [next] members alone (it may
    change anything else), whenever the walk is given as many steps as the
    registry has instances. *)
Theorem grub_xhci_iterate_visits_registry
    (hook : Z -> M Z) (fuel : nat) (w : world) (l : list Z) :
  keeps_links hook ->
  chain (heap w) (xhci_list w) l ->
  (length l <= fuel)%nat ->
  grub_xhci_iterate fuel hook w = visit_in_order hook l w.
Proof.
  intros Hhook Hl Hfuel. unfold grub_xhci_iterate, bind, get_xhci_list.
  now apply iterate_loop_visits.
Qed.

Lemma grub_xhci_hubports_keeps_links (P : platform) :
  keeps_links (grub_xhci_hubports P).
Proof.
  intros p u r u' Hrun.
  destruct (heap u !! p) as [x|] eqn:Hx.
  - rewrite (grub_xhci_hubports_spec P p x u Hx) in Hrun.
    injection Hrun as _ <-. intros q. cbn [heap set_heap set_trace].
    destruct (decide (q = p)) as [->|Hq].
    + rewrite lookup_insert_eq, Hx. reflexivity.
    + now rewrite lookup_insert_ne.
  - unfold grub_xhci_hubports, bind, get_xhci in Hrun. cbv zeta in Hrun.
    rewrite Hx in Hrun. discriminate.
Qed.

Lemma grub_xhci_iterate_visits_registry_witness :
  let w := sample_world 1 0 0 0 in
  grub_xhci_iterate 1 (fun _ => ret 0) w = Some (0, w)
  /\ exists w', grub_xhci_iterate 1 (grub_xhci_hubports i386_pc) w = Some (1, w').
Proof.
  intros w. split.
  - rewrite (grub_xhci_iterate_visits_registry (fun _ => ret 0) 1 w [sample_ptr]).
    + reflexivity.
    + intros p u r u' [= _ <-]. apply same_links_refl.
    + apply sample_world_chain.
    + simpl; lia.
  - rewrite (grub_xhci_iterate_visits_registry (grub_xhci_hubports i386_pc) 1 w
               [sample_ptr]).
    + cbn [visit_in_order]. unfold bind.
      rewrite (grub_xhci_hubports_spec i386_pc sample_ptr sample_xhci w eq_refl).
      change (hcsparams1_ports w sample_xhci) with 4. cbn [Z.eqb negb].
      eexists. reflexivity.
    + apply grub_xhci_hubports_keeps_links.
    + apply sample_world_chain.
    + simpl; lia.
Defined.

(** X16: attach and iteration together: the controller attached last is
    visited first.  After a successful grub_xhci_pci_iter that allocated
    the instance at [p], grub_xhci_iterate calls the hook on [p] and then
    on the instances that were registered before, in their former
    order. *)
Theorem grub_xhci_iterate_newest_first
    (P : platform) (dev : grub_pci_device_t) (pciid p : Z) (x : grub_xhci)
    (rest : list (Z * grub_xhci)) (w : world) (l : list Z)
    (hook : Z -> M Z) (fuel : nat) :
  let base := pci_reg32 w (grub_pci_make_address P dev (GRUB_PCI_REG_ADDRESS_REG0 P)) in
  let base_h := pci_reg32 w (grub_pci_make_address P dev (GRUB_PCI_REG_ADDRESS_REG1 P)) in
  Z.shiftr (pci_reg32 w (grub_pci_make_address P dev (GRUB_PCI_REG_CLASS P))) 8
    = 0x0c0330 ->
  Z.land base (GRUB_PCI_ADDR_MEM_TYPE_MASK P) = GRUB_PCI_ADDR_MEM_TYPE_32 P
    \/ base_h = 0 ->
  Z.land base (GRUB_PCI_ADDR_MEM_MASK P) <> 0 ->
  allocator w = (p, x) :: rest ->
  p <> 0 ->
  heap w !! p = None ->
  chain (heap w) (xhci_list w) l ->
  keeps_links hook ->
  (S (length l) <= fuel)%nat ->
  (let* _ := grub_xhci_pci_iter P dev pciid in grub_xhci_iterate fuel hook) w
  = (let* _ := grub_xhci_pci_iter P dev pciid in visit_in_order hook (p :: l)) w.
Proof.
  intros base base_h Hclass Hlow Hbase Halloc Hp Hfresh Hl Hhook Hfuel.
  unfold bind at 1 2.
  rewrite (grub_xhci_pci_iter_attach P dev pciid p x rest w Hclass Hlow Hbase Halloc Hp).
  unfold grub_xhci_iterate, bind, get_xhci_list.
  apply iterate_loop_visits; [exact Hhook| |exact Hfuel].
  now apply attached_chain.
Qed.

Lemma grub_xhci_iterate_newest_first_witness :
  let w := set_allocator [(0x200000, zeroed_xhci)]
             (set_pci_conf (sample_pci_conf 0xfe000000 0x0) (sample_world 1 0 0 0)) in
  (let* _ := grub_xhci_pci_iter i386_pc sample_pci_device 0 in
   grub_xhci_iterate 2 (fun _ => ret 0)) w
  = (let* _ := grub_xhci_pci_iter i386_pc sample_pci_device 0 in
     visit_in_order (fun _ => ret 0) [0x200000; sample_ptr]) w.
Proof.
  intros w.
  apply (grub_xhci_iterate_newest_first i386_pc sample_pci_device 0 0x200000
           zeroed_xhci [] w [sample_ptr]).
  - reflexivity.
  - left. reflexivity.
  - vm_compute. discriminate.
  - reflexivity.
  - discriminate.
  - reflexivity.
  - apply sample_world_chain.
  - intros p u r u' [= _ <-]. apply same_links_refl.
  - simpl; lia.
Defined.

(** ** What the operations on an attached controller never do *)

Lemma run_op_returns (P : platform) (op : driver_op) (xhci : Z) (x : grub_xhci)
    (w : world) (l : list Z) :
  heap w !! xhci = Some x ->
  chain (heap w) (xhci_list w) l ->
  exists w' x' t,
    run_op P op xhci w = Some (tt, w')
    /\ heap w' !! xhci = Some x'
    /\ chain (heap w') (xhci_list w') l
    /\ trace w' = trace w ++ t
    /\ forallb is_load_or_sleep t = true
    /\ mmio w' = mmio w
    /\ pci_conf w' = pci_conf w
    /\ allocator w' = allocator w.
Proof.
  intros Hx Hl.
  assert (Hsame : exists w' x' t,
             Some (tt, w) = Some (tt, w')
             /\ heap w' !! xhci = Some x'
             /\ chain (heap w') (xhci_list w') l
             /\ trace w' = trace w ++ t
             /\ forallb is_load_or_sleep t = true
             /\ mmio w' = mmio w
             /\ pci_conf w' = pci_conf w
             /\ allocator w' = allocator w).
  { exists w, x, []. rewrite app_nil_r. auto 10. }
  destruct op; cbn [run_op]; unfold discard, bind.
  - exact Hsame.
  - exact Hsame.
  - rewrite (grub_xhci_restore_hw_returns w l Hl). exact Hsame.
  - rewrite (grub_xhci_fini_hw_returns noreturn w l Hl). exact Hsame.
  - exact Hsame.
  - exact Hsame.
  - exact Hsame.
  - rewrite (grub_xhci_hubports_spec P xhci x w Hx). unfold ret.
    eexists _, _, [_]. split; [reflexivity|].
    cbn [heap xhci_list trace mmio pci_conf allocator set_heap set_trace].
    split; [apply lookup_insert_eq|].
    split; [|auto 10].
    apply (chain_same_links (heap w)); [|exact Hl].
    intros q. destruct (decide (q = xhci)) as [->|Hq].
    + rewrite lookup_insert_eq, Hx. reflexivity.
    + now rewrite lookup_insert_ne.
  - exact Hsame.
  - destruct (grub_xhci_detect_dev_effect P xhci port changed x w Hx)
      as (r & s & t & Hrun & Ht & _).
    rewrite Hrun. unfold ret.
    eexists _, x, (t ++ [EvSleep 1000]). split; [reflexivity|].
    cbn [heap xhci_list trace mmio pci_conf allocator set_detect_dev_state set_trace
         set_now_ms].
    split; [exact Hx|]. split; [exact Hl|]. split; [reflexivity|].
    split; [|auto]. rewrite forallb_app, Ht. reflexivity.
Qed.

(** X17: once a controller is attached, the driver only looks and waits.
    Every sequence of its operations (halt, reset, the two preboot hooks,
    transfer setup, check and cancel, hubports, portstatus, detect_dev) on
    a live instance of a well-formed registry returns, and all it does to
    the machine is load from the device window and sleep: no register of
    the device and no byte of configuration space is written, nothing is
    allocated, and the registry is the same chain afterwards. *)
Theorem driver_ops_return_without_stores
    (P : platform) (ops : list driver_op) (xhci : Z) (x : grub_xhci)
    (w : world) (l : list Z) :
  heap w !! xhci = Some x ->
  chain (heap w) (xhci_list w) l ->
  exists w' t,
    run_ops P ops xhci w = Some (tt, w')
    /\ trace w' = trace w ++ t
    /\ forallb is_load_or_sleep t = true
    /\ mmio w' = mmio w
    /\ pci_conf w' = pci_conf w
    /\ allocator w' = allocator w
    /\ chain (heap w') (xhci_list w') l.
Proof.
  revert x w. induction ops as [|op rest IH]; intros x w Hx Hl.
  - exists w, []. rewrite app_nil_r. cbn [run_ops]. unfold ret. auto 10.
  - destruct (run_op_returns P op xhci x w l Hx Hl)
      as (w1 & x1 & t1 & Hrun1 & Hx1 & Hl1 & Ht1 & Hok1 & Hm1 & Hc1 & Ha1).
    destruct (IH x1 w1 Hx1 Hl1)
      as (w' & t & Hrun & Ht & Hok & Hm & Hc & Ha & Hl').
    exists w', (t1 ++ t). cbn [run_ops]. unfold bind. rewrite Hrun1.
    split; [exact Hrun|].
    split; [rewrite Ht, Ht1; now rewrite app_assoc|].
    split; [rewrite forallb_app, Hok1, Hok; reflexivity|].
    split; [congruence|]. split; [congruence|]. split; [congruence|]. exact Hl'.
Qed.

Lemma driver_ops_return_without_stores_witness :
  exists w' t,
    run_ops i386_pc
      [OpHubports; OpDetectDev 1 0; OpPortstatus 1 1; OpSetupTransfer 0;
       OpCheckTransfer 0 0; OpRestoreHw; OpHalt]
      sample_ptr (sample_world 1 0 0x2a0 0) = Some (tt, w')
    /\ trace w' = t
    /\ forallb is_load_or_sleep t = true
    /\ mmio w' = mmio (sample_world 1 0 0x2a0 0).
Proof.
  destruct (driver_ops_return_without_stores i386_pc
              [OpHubports; OpDetectDev 1 0; OpPortstatus 1 1; OpSetupTransfer 0;
               OpCheckTransfer 0 0; OpRestoreHw; OpHalt]
              sample_ptr sample_xhci (sample_world 1 0 0x2a0 0) [sample_ptr]
              eq_refl (sample_world_chain 1 0 0x2a0 0))
    as (w' & t & Hrun & Ht & Hok & Hm & _).
  exists w', t. auto.
Defined.

(** ** The base-address helpers *)

Lemma pci_bar_spec (P : platform) (B : pci_bar_platform)
    (dev : grub_pci_device_t) (reg : Z) (w : world) :
  let a := grub_pci_make_address P dev reg in
  let a4 := grub_pci_make_address P dev ((reg + 4) mod 2 ^ 32) in
  let low := pci_reg32 w a in
  let high := pci_reg32 w a4 in
  pci_bar P B dev reg w
  = if Z.land low (Z.lor (GRUB_PCI_ADDR_SPACE_IO B) (GRUB_PCI_ADDR_MEM_TYPE_MASK P))
       =? GRUB_PCI_ADDR_MEM_TYPE_64 B
    then
      Some (if negb (high =? 0) then
              if 32 <? unsigned_long_bits B
              then to_unsigned_long B (Z.lor (Z.shiftl high 32) low)
              else to_unsigned_long B (GRUB_PCI_ADDR_MEM_TYPE_64 B)
            else to_unsigned_long B low,
            set_trace (trace w ++ [EvPciRead a 4; EvPciRead a4 4]) w)
    else Some (to_unsigned_long B low, set_trace (trace w ++ [EvPciRead a 4]) w).
Proof.
  intros a a4 low high. unfold pci_bar, pci_config_read.
  unfold bind at 1. rewrite grub_pci_read_spec. fold a. fold low.
  destruct (_ =? GRUB_PCI_ADDR_MEM_TYPE_64 B); [|reflexivity].
  unfold bind. rewrite grub_pci_read_spec.
  rewrite pci_reg32_set_trace, trace_set_trace, set_trace_set_trace, <- app_assoc.
  fold a4. fold high. cbn [app].
  destruct (negb (high =? 0)); [|reflexivity].
  destruct (32 <? unsigned_long_bits B); reflexivity.
Qed.

Lemma bits_above_32 (low n : Z) :
  0 <= low < 2 ^ 32 -> 32 <= n -> Z.testbit low n = false.
Proof.
  intros Hlow Hn. apply Z.bits_above_log2; [lia|].
  destruct (Z.eq_dec low 0) as [->|Hnz]; [simpl; lia|].
  apply Z.log2_lt_pow2; [lia|].
  apply Z.lt_le_trans with (2 ^ 32); [lia|]. apply Z.pow_le_mono_r; lia.
Qed.

Lemma lor_shiftl_32 (high low : Z) :
  0 <= low < 2 ^ 32 -> Z.lor (Z.shiftl high 32) low = high * 2 ^ 32 + low.
Proof.
  intros Hlow. rewrite Z.shiftl_mul_pow2 by lia.
  rewrite <- Z.add_lor_land.
  replace (Z.land (high * 2 ^ 32) low) with 0; [lia|].
  symmetry. apply Z.bits_inj'. intros n Hn.
  rewrite Z.land_spec, Z.bits_0.
  destruct (Z.lt_ge_cases n 32) as [Hlt | Hge].
  - rewrite Z.mul_pow2_bits_low by lia. reflexivity.
  - rewrite (bits_above_32 low n) by assumption. apply andb_false_r.
Qed.

Lemma to_unsigned_long_small (B : pci_bar_platform) (v : Z) :
  32 <= unsigned_long_bits B -> 0 <= v < 2 ^ 32 -> to_unsigned_long B v = v.
Proof.
  intros Hbits Hv. unfold to_unsigned_long. apply Z.mod_small.
  split; [lia|]. apply Z.lt_le_trans with (2 ^ 32); [lia|].
  apply Z.pow_le_mono_r; lia.
Qed.

(** X18: what pci_bar returns for a base address register.  It reads the
    register, and the next one only when the type bits say 64-bit memory.
    For a register that is not a 64-bit memory one, or whose high dword is
    zero, the result is the register itself, flags included.  For a 64-bit
    one with a nonzero high dword the result is the full 64-bit value
    where unsigned long has 64 bits, and only the constant
    GRUB_PCI_ADDR_MEM_TYPE_64 (no address bits) where it has 32. *)
Theorem pci_bar_result (P : platform) (B : pci_bar_platform)
    (dev : grub_pci_device_t) (reg : Z) (w : world) :
  let a := grub_pci_make_address P dev reg in
  let a4 := grub_pci_make_address P dev ((reg + 4) mod 2 ^ 32) in
  let low := pci_reg32 w a in
  let high := pci_reg32 w a4 in
  let is64 := Z.land low (Z.lor (GRUB_PCI_ADDR_SPACE_IO B) (GRUB_PCI_ADDR_MEM_TYPE_MASK P))
              =? GRUB_PCI_ADDR_MEM_TYPE_64 B in
  32 <= unsigned_long_bits B ->
  exists v w',
    pci_bar P B dev reg w = Some (v, w')
    /\ w' = set_trace
              (trace w ++ if is64 then [EvPciRead a 4; EvPciRead a4 4]
                          else [EvPciRead a 4]) w
    /\ (is64 = false \/ high = 0 -> v = low)
    /\ (is64 = true -> high <> 0 -> 64 <= unsigned_long_bits B ->
        v = high * 2 ^ 32 + low)
    /\ (is64 = true -> high <> 0 -> unsigned_long_bits B = 32 ->
        v = GRUB_PCI_ADDR_MEM_TYPE_64 B mod 2 ^ 32).
Proof.
  intros a a4 low high is64 Hbits.
  pose proof (pci_reg32_range w a) as Hlow. fold low in Hlow.
  pose proof (pci_reg32_range w a4) as Hhigh. fold high in Hhigh.
  pose proof (to_unsigned_long_small B low Hbits Hlow) as Hconv.
  rewrite pci_bar_spec. fold a a4 low high is64.
  destruct is64 eqn:E64.
  - eexists _, _. split; [reflexivity|]. split; [reflexivity|].
    split; [|split].
    + intros [H|H]; [discriminate|]. rewrite H. cbn [Z.eqb negb]. exact Hconv.
    + intros _ Hnz Hwide. apply Z.eqb_neq in Hnz. rewrite Hnz. cbn [negb].
      replace (32 <? unsigned_long_bits B) with true by (symmetry; apply Z.ltb_lt; lia).
      rewrite lor_shiftl_32 by exact Hlow.
      unfold to_unsigned_long. apply Z.mod_small.
      split; [lia|].
      apply Z.lt_le_trans with (2 ^ 64); [|apply Z.pow_le_mono_r; lia].
      change (2 ^ 64) with (2 ^ 32 * 2 ^ 32). nia.
    + intros _ Hnz Hnarrow. apply Z.eqb_neq in Hnz. rewrite Hnz. cbn [negb].
      unfold to_unsigned_long. rewrite Hnarrow. reflexivity.
  - eexists _, _. split; [reflexivity|]. split; [reflexivity|].
    split; [intros _; exact Hconv|]. split; intros; discriminate.
Qed.

Lemma pci_bar_result_witness :
  (exists w', pci_bar i386_pc i386_pc_bar sample_pci_device 0x10
                (sample_probe 0xfe000004 0x1) = Some (0x4, w'))
  /\ (exists w', pci_bar x86_64_efi x86_64_efi_bar sample_pci_device 0x10
                   (sample_probe 0xfe000004 0x1) = Some (0x1fe000004, w'))
  /\ (exists w', pci_bar i386_pc i386_pc_bar sample_pci_device 0x10
                   (sample_probe 0xfe000004 0x0) = Some (0xfe000004, w')).
Proof.
  split; [|split].
  - destruct (pci_bar_result i386_pc i386_pc_bar sample_pci_device 0x10
                (sample_probe 0xfe000004 0x1))
      as (v & w' & Hrun & _ & _ & _ & Hnarrow).
    + simpl; lia.
    + exists w'. rewrite Hrun, Hnarrow; [reflexivity|reflexivity| |reflexivity].
      vm_compute. discriminate.
  - destruct (pci_bar_result x86_64_efi x86_64_efi_bar sample_pci_device 0x10
                (sample_probe 0xfe000004 0x1))
      as (v & w' & Hrun & _ & _ & Hwide & _).
    + simpl; lia.
    + exists w'. rewrite Hrun, Hwide; [reflexivity|reflexivity| |simpl; lia].
      vm_compute. discriminate.
  - destruct (pci_bar_result i386_pc i386_pc_bar sample_pci_device 0x10
                (sample_probe 0xfe000004 0x0))
      as (v & w' & Hrun & _ & Hlow & _).
    + simpl; lia.
    + exists w'. rewrite Hrun, Hlow; [reflexivity|]. right. reflexivity.
Defined.

Lemma land_lnot_low (low m k : Z) :
  0 <= low < 2 ^ 32 -> 32 <= k ->
  Z.land low (Z.lnot m mod 2 ^ k) = Z.ldiff low m.
Proof.
  intros Hlow Hk. apply Z.bits_inj'. intros n Hn.
  rewrite Z.land_spec, Z.ldiff_spec.
  destruct (Z.lt_ge_cases n k) as [Hlt | Hge].
  - rewrite Z.mod_pow2_bits_low by lia. now rewrite Z.lnot_spec by lia.
  - now rewrite (bits_above_32 low n) by (try assumption; lia).
Qed.

(** X19: pci_bar_start and grub_xhci_pci_iter split a memory base address
    register along the same mask, and take opposite sides.  For a memory
    register that is not a 64-bit one, pci_bar_start returns the bits of
    the register outside GRUB_PCI_ADDR_MEM_MASK, while grub_xhci_pci_iter
    takes the bits inside it as the base address: the two values have no
    bit in common and together make up the register.  On the PC build
    pci_bar_start answers with the flag bits, 0 for a register that holds
    0xfe000000. *)
Theorem pci_bar_start_memory_bar (P : platform) (B : pci_bar_platform)
    (dev : grub_pci_device_t) (reg : Z) (w : world) :
  let low := pci_reg32 w (grub_pci_make_address P dev reg) in
  let base := Z.land low (GRUB_PCI_ADDR_MEM_MASK P) in
  32 <= unsigned_long_bits B ->
  Z.land low (Z.lor (GRUB_PCI_ADDR_SPACE_IO B) (GRUB_PCI_ADDR_MEM_TYPE_MASK P))
    <> GRUB_PCI_ADDR_MEM_TYPE_64 B ->
  Z.land low (GRUB_PCI_ADDR_SPACE_IO B) = 0 ->
  exists r,
    pci_bar_start P B dev reg w
    = Some (r, set_trace (trace w ++ [EvPciRead (grub_pci_make_address P dev reg) 4]) w)
    /\ r = Z.ldiff low (GRUB_PCI_ADDR_MEM_MASK P)
    /\ Z.land r base = 0
    /\ Z.lor r base = low.
Proof.
  intros low base Hbits Hnot64 Hmem.
  pose proof (pci_reg32_range w (grub_pci_make_address P dev reg)) as Hlow.
  fold low in Hlow.
  unfold pci_bar_start, bind. rewrite pci_bar_spec. cbv zeta. fold low.
  apply Z.eqb_neq in Hnot64. rewrite Hnot64.
  rewrite (to_unsigned_long_small B low Hbits Hlow), Hmem. cbn [Z.eqb negb]. unfold ret.
  unfold to_unsigned_long. rewrite land_lnot_low by assumption.
  eexists. split; [reflexivity|]. split; [reflexivity|].
  unfold base. split.
  - rewrite (Z.land_comm low), Z.land_assoc, Z.land_ldiff. apply Z.land_0_l.
  - apply Z.lor_ldiff_and.
Qed.

Lemma pci_bar_start_memory_bar_witness :
  let w := sample_probe 0xfe000000 0x0 in
  (exists w', pci_bar_start i386_pc i386_pc_bar sample_pci_device 0x10 w = Some (0, w'))
  /\ Z.land (pci_reg32 w (grub_pci_make_address i386_pc sample_pci_device 0x10))
       (GRUB_PCI_ADDR_MEM_MASK i386_pc) = 0xfe000000.
Proof.
  intros w. split; [|reflexivity].
  destruct (pci_bar_start_memory_bar i386_pc i386_pc_bar sample_pci_device 0x10 w)
    as (r & Hrun & Hr & _).
  - simpl; lia.
  - vm_compute. discriminate.
  - reflexivity.
  - eexists. rewrite Hrun, Hr. reflexivity.
Defined.

(** ** Port register sets do not overlap *)

(** X20: the registers xhci_read_portrs reads for different ports, or for
    different register types of one port, do not overlap: for ports from 1
    to max_ports the 4-byte loads of two different (port, type) pairs are
    at least 4 bytes apart, and every load lies between operational base
    + 0x400 and operational base + 0x400 + 0x10 * max_ports, below
    operational base + 0x1400. *)
Theorem xhci_read_portrs_registers_disjoint
    (P : platform) (xhci p q : Z) (t t' : xhci_portrs_type)
    (x : grub_xhci) (w : world) :
  heap w !! xhci = Some x ->
  0 <= max_ports x <= 255 ->
  1 <= p <= max_ports x ->
  1 <= q <= max_ports x ->
  (p, t) <> (q, t') ->
  exists a b,
    xhci_read_portrs P xhci p t w
    = Some (reg32 w a, set_trace (trace w ++ [EvLoad a 4]) w)
    /\ xhci_read_portrs P xhci q t' w
       = Some (reg32 w b, set_trace (trace w ++ [EvLoad b 4]) w)
    /\ (a + 4 <= b \/ b + 4 <= a)
    /\ oper_regs x + 0x400 <= a
    /\ a + 4 <= oper_regs x + 0x400 + 0x10 * max_ports x
    /\ a + 4 <= oper_regs x + 0x1400.
Proof.
  intros Hx Hmax Hp Hq Hne.
  rewrite (xhci_read_portrs_in_range P xhci p t x w Hx Hmax Hp).
  rewrite (xhci_read_portrs_in_range P xhci q t' x w Hx Hmax Hq).
  eexists _, _. split; [reflexivity|]. split; [reflexivity|].
  assert (Hoff : forall ty, 0 <= portrs_offset ty <= 12)
    by (intros []; simpl; lia).
  pose proof (Hoff t) as Ht. pose proof (Hoff t') as Ht'.
  split; [|lia].
  destruct (Z.eq_dec p q) as [->|Hpq]; [|lia].
  destruct t, t'; simpl; try lia; exfalso; apply Hne; reflexivity.
Qed.

Lemma xhci_read_portrs_registers_disjoint_witness :
  let w := sample_world 1 0 0x2a0 0x101 in
  exists a b w1 w2,
    xhci_read_portrs i386_pc sample_ptr 1 PORTLI w = Some (reg32 w a, w1)
    /\ xhci_read_portrs i386_pc sample_ptr 2 PORTSC w = Some (reg32 w b, w2)
    /\ (a + 4 <= b \/ b + 4 <= a).
Proof.
  intros w.
  destruct (xhci_read_portrs_registers_disjoint i386_pc sample_ptr 1 2 PORTLI PORTSC
              sample_xhci w eq_refl)
    as (a & b & Ha & Hb & Hab & _).
  - simpl; lia.
  - simpl; lia.
  - simpl; lia.
  - discriminate.
  - exists a, b. eexists _, _. split; [exact Ha|]. split; [exact Hb|exact Hab].
Defined.

(** ** Byte order of the CPU *)

Lemma bind_ext {A B : Type} (m m' : M A) (k k' : A -> M B) (w : world) :
  m w = m' w -> (forall a u, k a u = k' a u) -> bind m k w = bind m' k' w.
Proof.
  intros Hm Hk. unfold bind. rewrite Hm.
  destruct (m' w) as [[a u]|]; [apply Hk|reflexivity].
Qed.

Lemma mmio_read8_any (P P' : platform) (a : Z) (w : world) :
  mmio_read8 P a w = mmio_read8 P' a w.
Proof. now rewrite !mmio_read8_spec. Qed.

Lemma mmio_read16_any (P P' : platform) (a : Z) (w : world) :
  mmio_read16 P a w = mmio_read16 P' a w.
Proof. now rewrite !mmio_read16_spec. Qed.

Lemma mmio_read32_any (P P' : platform) (a : Z) (w : world) :
  mmio_read32 P a w = mmio_read32 P' a w.
Proof. now rewrite !mmio_read32_spec. Qed.

Lemma xhci_read_portrs_any (P P' : platform) (xhci port : Z) (type : xhci_portrs_type)
    (w : world) :
  xhci_read_portrs P xhci port type w = xhci_read_portrs P' xhci port type w.
Proof.
  unfold xhci_read_portrs. apply bind_ext; [reflexivity|]. intros x u.
  destruct (_ <? _); [reflexivity|apply mmio_read32_any].
Qed.

Lemma grub_xhci_detect_dev_any (P P' : platform) (dev port changed : Z) (w : world) :
  grub_xhci_detect_dev P dev port changed w = grub_xhci_detect_dev P' dev port changed w.
Proof.
  unfold grub_xhci_detect_dev. cbv zeta.
  apply bind_ext; [apply xhci_read_portrs_any|]. intros _ u.
  apply bind_ext; [apply xhci_read_portrs_any|]. reflexivity.
Qed.

Lemma grub_xhci_hubports_any (P P' : platform) (dev : Z) (w : world) :
  grub_xhci_hubports P dev w = grub_xhci_hubports P' dev w.
Proof.
  unfold grub_xhci_hubports. cbv zeta.
  apply bind_ext; [reflexivity|]. intros x u.
  apply bind_ext; [apply mmio_read32_any|]. reflexivity.
Qed.

Lemma run_op_any (P P' : platform) (op : driver_op) (xhci : Z) (w : world) :
  run_op P op xhci w = run_op P' op xhci w.
Proof.
  destruct op; cbn [run_op]; try reflexivity; unfold discard.
  - apply bind_ext; [apply grub_xhci_hubports_any|reflexivity].
  - apply bind_ext; [apply grub_xhci_detect_dev_any|reflexivity].
Qed.

Lemma grub_xhci_dump_cap_any (P P' : platform) (xhci : Z) (w : world) :
  grub_xhci_dump_cap P xhci w = grub_xhci_dump_cap P' xhci w.
Proof.
  unfold grub_xhci_dump_cap.
  apply bind_ext; [reflexivity|]. intros x u.
  apply bind_ext; [apply mmio_read8_any|]. intros _ u1.
  apply bind_ext; [apply mmio_read16_any|]. intros _ u2.
  do 7 (apply bind_ext; [apply mmio_read32_any|]; intros _ ?).
  reflexivity.
Qed.

Lemma grub_xhci_dump_oper_any (P P' : platform) (xhci : Z) (w : world) :
  grub_xhci_dump_oper P xhci w = grub_xhci_dump_oper P' xhci w.
Proof.
  unfold grub_xhci_dump_oper.
  apply bind_ext; [reflexivity|]. intros x u.
  do 7 (apply bind_ext; [apply mmio_read32_any|]; intros _ ?).
  reflexivity.
Qed.

(** X21: the driver behaves the same on a big-endian and on a
    little-endian CPU.  grub_xhci_init and every sequence of operations on
    an instance give the same results and leave the same machine (the same
    instance, the same register accesses in the same order) on every
    build: each register read of more than one byte goes through the
    little-endian conversion of its width. *)
Theorem driver_independent_of_byte_order
    (P P' : platform) (xhci base : Z) (ops : list driver_op) (w : world) :
  grub_xhci_init P xhci base w = grub_xhci_init P' xhci base w
  /\ run_ops P ops xhci w = run_ops P' ops xhci w.
Proof.
  split.
  - unfold grub_xhci_init.
    apply bind_ext; [reflexivity|]. intros _ u0.
    apply bind_ext; [reflexivity|]. intros x0 u1.
    apply bind_ext; [apply mmio_read8_any|]. intros caplength u2.
    apply bind_ext; [reflexivity|]. intros _ u3.
    apply bind_ext; [reflexivity|]. intros x1 u4.
    apply bind_ext; [apply mmio_read32_any|]. intros dboff u5.
    apply bind_ext; [reflexivity|]. intros _ u6.
    apply bind_ext; [reflexivity|]. intros x2 u7.
    apply bind_ext; [apply mmio_read32_any|]. intros rtsoff u8.
    apply bind_ext; [reflexivity|]. intros _ u9.
    apply bind_ext; [apply grub_xhci_dump_cap_any|]. intros _ u10.
    apply bind_ext; [apply grub_xhci_dump_oper_any|]. reflexivity.
  - revert w. induction ops as [|op rest IH]; intros w; [reflexivity|].
    cbn [run_ops]. apply bind_ext; [apply run_op_any|]. intros _ u. apply IH.
Qed.
